(** * Graphite:Git agent core: a shallow embedding of [AgentProvider.tsx]
    and of the [GitHubService] methods it drives.

    The provider is a React component: its handlers close over the values of
    one render and talk to the rest of the world through state setters, the
    GitHub REST API and the reasoning engine.  The embedding keeps that shape:
    - JavaScript strings are [string]s, one character per code unit;
    - optional properties ([args.owner], [m.text], ...) are [option]s, and
      [a || b] is [Js.or];
    - the component state is the record [AgentState]; a handler receives the
      snapshot it closed over and acts on the live state through the setters;
    - asynchronous code runs in the monad [M]: live state, remote world, the
      log of everything sent out, and thrown errors;
    - the GitHub API behind [window.fetch] and the browser built-ins the code
      calls are the interfaces [Remote] and [Browser]; the engine's answer to
      a logged call comes back as an input of its own. *)

From Stdlib Require Import ZArith String Ascii DecimalString.
From stdpp Require Import base option list strings gmap.

Local Open Scope Z_scope.

(** ** JavaScript strings *)

Module Js.

(** [a || b] on values that are strings or [undefined]: the empty string and
    [undefined] are the falsy ones. *)
Definition truthy (v : option string) : bool :=
  match v with
  | Some (String _ _) => true
  | _ => false
  end.

Definition or (a b : option string) : option string :=
  if truthy a then a else b.

(** The spec's [a ?? b], for comparison with [or]. *)
Definition nullish (a b : option string) : option string :=
  match a with
  | Some x => Some x
  | None => b
  end.

(** [ToString] of a string or [undefined]. *)
Definition ToString (v : option string) : string :=
  match v with
  | Some s => s
  | None => "undefined"
  end.

Fixpoint startsWith (p s : string) : bool :=
  match p, s with
  | EmptyString, _ => true
  | String a p', String b s' => if Ascii.eqb a b then startsWith p' s' else false
  | String _ _, EmptyString => false
  end.

Fixpoint drop (n : nat) (s : string) : string :=
  match n, s with
  | O, _ => s
  | S n', String _ s' => drop n' s'
  | S _, EmptyString => EmptyString
  end.

(** The text before and after the first occurrence of [search] in [s]
    ([s.indexOf(search)] and the two slices around the match). *)
Fixpoint splitFirst (search s : string) : option (string * string) :=
  if startsWith search s then Some (EmptyString, drop (String.length search) s)
  else match s with
       | EmptyString => None
       | String c s' =>
           match splitFirst search s' with
           | Some (before, after) => Some (String c before, after)
           | None => None
           end
       end.

(** [s.includes(search)] *)
Definition includes (s search : string) : bool :=
  match splitFirst search s with
  | Some _ => true
  | None => false
  end.

(** [GetSubstitution] for a string pattern: there are no captures, so the
    only patterns that expand are [$$], [$&], [$`] and [$']; every other
    [$] stays as it is. *)
Fixpoint GetSubstitution (matched before after template : string) : string :=
  match template with
  | EmptyString => EmptyString
  | String "$" (String "$" t) =>
      String "$" (GetSubstitution matched before after t)
  | String "$" (String "&" t) =>
      matched +:+ GetSubstitution matched before after t
  | String "$" (String "`" t) =>
      before +:+ GetSubstitution matched before after t
  | String "$" (String "'" t) =>
      after +:+ GetSubstitution matched before after t
  | String c t => String c (GetSubstitution matched before after t)
  end.

(** [s.replace(search, replacement)] with a string pattern: the first
    occurrence only. *)
Definition replace (s search replacement : string) : string :=
  match splitFirst search s with
  | None => s
  | Some (before, after) =>
      before +:+ GetSubstitution search before after replacement +:+ after
  end.

(** What the specification asks of [replace_in_file]: every occurrence of
    the literal [search] text gives way to the literal [replacement] text.
    [skip] counts the characters of the current occurrence still to pass. *)
Fixpoint replaceEvery (search replacement s : string) (skip : nat) : string :=
  match s with
  | EmptyString => EmptyString
  | String c s' =>
      match skip with
      | S k => replaceEvery search replacement s' k
      | O =>
          if startsWith search s
          then replacement +:+ replaceEvery search replacement s' (String.length search - 1)
          else String c (replaceEvery search replacement s' O)
      end
  end.

(** [\s] on one-byte code units. *)
Definition isSpace (c : ascii) : bool :=
  let n := N_of_ascii c in
  ((9 <=? n) && (n <=? 13) || (n =? 32) || (n =? 160))%N.

(** [s.replace(/\s/g, '')] *)
Fixpoint stripSpace (s : string) : string :=
  match s with
  | EmptyString => EmptyString
  | String c s' => if isSpace c then stripSpace s' else String c (stripSpace s')
  end.

(** [s.trim()] *)
Fixpoint trimStart (s : string) : string :=
  match s with
  | EmptyString => EmptyString
  | String c s' => if isSpace c then trimStart s' else s
  end.

Fixpoint trimEnd (s : string) : string :=
  match s with
  | EmptyString => EmptyString
  | String c s' =>
      match trimEnd s' with
      | EmptyString => if isSpace c then EmptyString else String c EmptyString
      | rest => String c rest
      end
  end.

Definition trim (s : string) : string := trimEnd (trimStart s).

(** [n.toString()] for an integer. *)
Definition ofZ (n : Z) : string := NilEmpty.string_of_int (Z.to_int n).

End Js.

(** ** Data model ([types.ts]) *)

Inductive Status := pending | approved | rejected | executed | failed.

Global Instance Status_eq_dec : EqDecision Status.
Proof. solve_decision. Defined.

(** [ToolCall.args]: the arguments the engine sent, each one possibly absent. *)
Record Args := {
  arg_owner : option string;
  arg_repo : option string;
  arg_path : option string;
  arg_content : option string;
  arg_search : option string;
  arg_replace : option string;
  arg_message : option string;
}.

(** [Date.now().toString() + Math.random()]: the clock reading and the draw. *)
Definition ToolId : Type := Z * N.

Record ToolCall := {
  tc_id : ToolId;
  tc_name : string;
  tc_args : Args;
  tc_status : Status;
  tc_result : option string;
}.

Inductive Role := user | model | system | function.

Global Instance Role_eq_dec : EqDecision Role.
Proof. solve_decision. Defined.

Record ToolResponse := {
  tr_name : string;
  tr_result : string;      (* response: { result } *)
}.

(** [id] is [Date.now().toString()]; the embedding keeps the reading. *)
Record ChatMessage := {
  msg_id : Z;
  role : Role;
  text : option string;
  timestamp : Z;
  toolCalls : option (list ToolCall);
  toolResponse : option ToolResponse;
}.

Record GitHubFile := {
  f_name : string;
  f_path : string;
  f_sha : string;
  f_type : string;
  f_content : option string;
}.

Record GitHubRepo := {
  repo_name : string;
  owner_login : string;    (* owner.login *)
}.

Record AgentContextState := {
  activeTab : string;
  currentRepo : option GitHubRepo;
  currentPath : option string;
  currentFile : option GitHubFile;
  fileContent : option string;
  currentSelection : option string;
}.

Record AgentContextSettings := {
  includeRepoMap : bool;
  includeFileContent : bool;
  includeSelection : bool;
}.

(** ** What goes to the reasoning engine *)

Inductive Part :=
| PartText (t : string)
| PartFunctionCall (name : string) (args : Args)
| PartFunctionResponse (name : string) (result : string).

Record Content := {
  c_role : string;
  c_parts : list Part;
}.

(** [m.toolCalls.forEach(tc => parts.push({ functionCall: ... }))] *)
Definition functionCallParts (tcs : option (list ToolCall)) : list Part :=
  match tcs with
  | Some l => map (fun tc => PartFunctionCall (tc_name tc) (tc_args tc)) l
  | None => []
  end.

Definition textOrEmpty (m : ChatMessage) : string :=
  match Js.or (text m) (Some EmptyString) with
  | Some t => t
  | None => EmptyString
  end.

Definition historyEntry (m : ChatMessage) : Content :=
  let fallback := {| c_role := "user"; c_parts := [PartText (textOrEmpty m)] |} in
  match role m with
  | user => {| c_role := "user"; c_parts := [PartText (textOrEmpty m)] |}
  | model =>
      {| c_role := "model";
         c_parts := (if Js.truthy (text m) then [PartText (Js.ToString (text m))] else [])
                      ++ functionCallParts (toolCalls m) |}
  | function =>
      match toolResponse m with
      | Some tr =>
          {| c_role := "user";
             c_parts := [PartFunctionResponse (tr_name tr) (tr_result tr)] |}
      | None => fallback
      end
  | system => fallback
  end.

Definition getGeminiHistory (msgs : list ChatMessage) : list Content :=
  map historyEntry msgs.

(** The history with its system turns left out: what the specification says
    reaches the engine. *)
Definition withoutSystemTurns (msgs : list ChatMessage) : list ChatMessage :=
  filter (fun m => role m <> system) msgs.

(** A property value of the context object. *)
Inductive JsVal :=
| VUndefined
| VString (s : string)
| VRepo (r : GitHubRepo)
| VFile (f : GitHubFile).

Definition ofString (v : option string) : JsVal :=
  match v with Some s => VString s | None => VUndefined end.
Definition ofRepo (v : option GitHubRepo) : JsVal :=
  match v with Some r => VRepo r | None => VUndefined end.
Definition ofFile (v : option GitHubFile) : JsVal :=
  match v with Some f => VFile f | None => VUndefined end.

(** [getFilteredContext]: the object is built property by property; an
    assignment of [undefined] still creates the property. *)
Definition getFilteredContext (contextState : AgentContextState)
    (contextSettings : AgentContextSettings) : gmap string JsVal :=
  let ctx : gmap string JsVal := {[ "activeTab"%string := VString (activeTab contextState) ]} in
  let ctx :=
    if includeRepoMap contextSettings
    then <["currentPath"%string := ofString (currentPath contextState)]>
           (<["currentRepo"%string := ofRepo (currentRepo contextState)]> ctx)
    else ctx in
  let ctx :=
    if includeFileContent contextSettings
    then <["fileContent"%string := ofString (fileContent contextState)]>
           (<["currentFile"%string := ofFile (currentFile contextState)]> ctx)
    else ctx in
  let ctx :=
    if includeSelection contextSettings
    then <["currentSelection"%string := ofString (currentSelection contextState)]> ctx
    else ctx in
  ctx.

(** The property names a context object can have. *)
Definition contextKeys : gset string :=
  {[ "activeTab"%string; "currentRepo"%string; "currentPath"%string;
     "currentFile"%string; "fileContent"%string; "currentSelection"%string ]}.

(** One policy flag switched off ([setContextSettings({ flag: false })]). *)
Definition withoutRepoMap (p : AgentContextSettings) : AgentContextSettings :=
  {| includeRepoMap := false;
     includeFileContent := includeFileContent p;
     includeSelection := includeSelection p |}.
Definition withoutFileContent (p : AgentContextSettings) : AgentContextSettings :=
  {| includeRepoMap := includeRepoMap p;
     includeFileContent := false;
     includeSelection := includeSelection p |}.
Definition withoutSelection (p : AgentContextSettings) : AgentContextSettings :=
  {| includeRepoMap := includeRepoMap p;
     includeFileContent := includeFileContent p;
     includeSelection := false |}.

(** ** The world outside the provider *)

Inductive Method := GET | PUT | DELETE.

Global Instance Method_eq_dec : EqDecision Method.
Proof. solve_decision. Defined.

(** The JSON body of a contents request; [JSON.stringify] leaves out the
    properties that are [undefined]. *)
Record Body := {
  b_message : option string;
  b_content : option string;
  b_sha : option string;
}.

Record Request := {
  method : Method;
  endpoint : string;
  body : option Body;
}.

(** What [response.json()] yields for a contents endpoint. *)
Inductive Payload :=
| PFile (f : GitHubFile)
| PListing (l : list GitHubFile)
| POther                              (* any other JSON value, [{}] included *)
| PUnparsable (message : string).     (* [response.json()] rejects *)

Inductive FetchOutcome :=
| NetworkFailure (message : string)   (* [fetch] itself rejects *)
| Response (status : Z) (statusText : string) (payload : Payload).

(** A call of [gemini.generateResponse(history, userMessage, context, model)]
    as it reaches [generateContent]. *)
Record GenerateRequest := {
  g_model : string;
  g_contents : list Content;
  g_context : gmap string JsVal;
}.

Inductive Event :=
| EvFetch (req : Request)
| EvGenerate (req : GenerateRequest).

(** The engine's answer. *)
Record ResponsePart := {
  p_text : option string;
  p_functionCall : option (string * Args);
}.

Record Candidate := {
  cand_parts : option (list ResponsePart);   (* [content.parts], when there *)
}.

Record EngineResponse := {
  candidates : option (list Candidate);
}.

(** What a rejected [generateResponse] throws: [e.message] and
    [JSON.stringify(e)]. *)
Record EngineError := {
  e_message : option string;
  e_json : string;
}.

Inductive Outcome (A : Type) :=
| Ok (a : A)
| Thrown (message : string).
Arguments Ok {A} a.
Arguments Thrown {A} message.

(** The GitHub REST API behind [window.fetch]. *)
Class Remote := {
  World : Type;
  http : Request -> World -> FetchOutcome * World;
}.

(** Built-ins of the browser the code calls. *)
Class Browser := {
  (* [decodeURIComponent(escape(window.atob(s)))] *)
  atob_utf8 : string -> Outcome string;
  (* [window.btoa(unescape(encodeURIComponent(s)))] *)
  btoa_utf8 : string -> string;
  (* [path.split('/').map(encodeURIComponent).join('/')] *)
  encodePath : string -> string;
  JSON_stringify : Payload -> string;
  (* the message of the TypeError for [for (const part of undefined)] *)
  notIterable : string;
}.

(** ** Component state *)

Record AgentState := {
  service : bool;                       (* the [service] prop is not null *)
  gemini : bool;                        (* [gemini] is not null *)
  isEnabled : bool;
  messages : list ChatMessage;
  contextState : AgentContextState;
  contextSettings : AgentContextSettings;
  pendingToolCall : option ToolCall;
  isThinking : bool;
  lastActionTimestamp : Z;
  selectedModel : string;
}.

Definition initialState (service gemini : bool) (model : string) : AgentState :=
  {| service := service; gemini := gemini; isEnabled := false; messages := [];
     contextState := {| activeTab := "dashboard"; currentRepo := None;
                        currentPath := None; currentFile := None;
                        fileContent := None; currentSelection := None |};
     contextSettings := {| includeRepoMap := true; includeFileContent := true;
                           includeSelection := true |};
     pendingToolCall := None; isThinking := false; lastActionTimestamp := 0;
     selectedModel := model |}.

Definition updMessages (f : list ChatMessage -> list ChatMessage) (st : AgentState) : AgentState :=
  {| service := service st; gemini := gemini st; isEnabled := isEnabled st;
     messages := f (messages st);
     contextState := contextState st; contextSettings := contextSettings st;
     pendingToolCall := pendingToolCall st; isThinking := isThinking st;
     lastActionTimestamp := lastActionTimestamp st; selectedModel := selectedModel st |}.

Definition updPendingToolCall (v : option ToolCall) (st : AgentState) : AgentState :=
  {| service := service st; gemini := gemini st; isEnabled := isEnabled st;
     messages := messages st;
     contextState := contextState st; contextSettings := contextSettings st;
     pendingToolCall := v; isThinking := isThinking st;
     lastActionTimestamp := lastActionTimestamp st; selectedModel := selectedModel st |}.

Definition updIsThinking (v : bool) (st : AgentState) : AgentState :=
  {| service := service st; gemini := gemini st; isEnabled := isEnabled st;
     messages := messages st;
     contextState := contextState st; contextSettings := contextSettings st;
     pendingToolCall := pendingToolCall st; isThinking := v;
     lastActionTimestamp := lastActionTimestamp st; selectedModel := selectedModel st |}.

Definition updLastActionTimestamp (v : Z) (st : AgentState) : AgentState :=
  {| service := service st; gemini := gemini st; isEnabled := isEnabled st;
     messages := messages st;
     contextState := contextState st; contextSettings := contextSettings st;
     pendingToolCall := pendingToolCall st; isThinking := isThinking st;
     lastActionTimestamp := v; selectedModel := selectedModel st |}.

(** The orchestrator states of the specification, read off the two flags the
    provider keeps: busy with the engine or a tool, or waiting for approval. *)
Definition Idle (st : AgentState) : Prop :=
  isThinking st = false /\ pendingToolCall st = None.

Definition systemMessage (now : Z) (t : string) : ChatMessage :=
  {| msg_id := now; role := system; text := Some t; timestamp := now;
     toolCalls := None; toolResponse := None |}.

Definition cancelled : string := "Tool execution cancelled by user.".
Definition noApiKey : string :=
  "Error: Gemini API Key not configured. Please add it in Settings > Intelligence Engine.".
Definition patchMismatch : string :=
  "Could not find the 'search' text in the file. Ensure the search block matches the file content exactly.".
Definition emptyOrNotFound : string := "File is empty or not found".
Definition noService : string := "Error: No GitHub service connection.".
Definition noContext : string := "Error: Context (owner/repo) is missing and not provided.".
Definition unauthorized : string := "Unauthorized: Invalid Token".
Definition forbidden : string :=
  "Forbidden: Check Token Scopes (needs " +:+ String "034" "user" +:+ String "034" " or "
    +:+ String "034" "user:follow" +:+ String "034" ")".

(** ** Running the asynchronous code *)

Declare Scope js_scope.
Delimit Scope js_scope with js.

Section Provider.

Context `{remote : Remote} `{browser : Browser}.

(** Everything a running handler can touch: the live component state, the
    remote side, and the log of what has been sent out, oldest first. *)
Record Sys := {
  store : AgentState;
  world : World;
  sent : list Event;
}.

Definition M (A : Type) : Type := Sys -> Outcome A * Sys.

Definition ret {A} (a : A) : M A := fun s => (Ok a, s).

Definition bind {A B} (m : M A) (k : A -> M B) : M B :=
  fun s =>
    match m s with
    | (Ok a, s') => k a s'
    | (Thrown e, s') => (Thrown e, s')
    end.

Definition throw {A} (message : string) : M A := fun s => (Thrown message, s).

(** [try { m } catch (e) { handler(e.message) }] *)
Definition tryCatch {A} (m : M A) (handler : string -> M A) : M A :=
  fun s =>
    match m s with
    | (Ok a, s') => (Ok a, s')
    | (Thrown e, s') => handler e s'
    end.

Notation "x <- m ;; k" := (bind m (fun x => k))
  (at level 20, m at level 99, k at level 200, only parsing) : js_scope.
Notation "m ;; k" := (bind m (fun _ => k))
  (at level 100, k at level 200, only parsing, right associativity) : js_scope.
Local Open Scope js_scope.

(** A state setter with an updater function; [setX(v)] is [setX(_ => v)]. *)
Definition setState (f : AgentState -> AgentState) : M unit :=
  fun s => (Ok tt, {| store := f (store s); world := world s; sent := sent s |}).

Definition setMessages (f : list ChatMessage -> list ChatMessage) : M unit :=
  setState (updMessages f).
Definition setPendingToolCall (v : option ToolCall) : M unit :=
  setState (updPendingToolCall v).
Definition setIsThinking (v : bool) : M unit :=
  setState (updIsThinking v).
Definition setLastActionTimestamp (v : Z) : M unit :=
  setState (updLastActionTimestamp v).

(** [window.fetch]: the request goes out and the remote side answers. *)
Definition fetch (req : Request) : M FetchOutcome :=
  fun s =>
    let '(out, w) := http req (world s) in
    (Ok out, {| store := store s; world := w; sent := sent s ++ [EvFetch req] |}).

(** ** [GitHubService] *)

Definition responseOk (status : Z) : bool := (200 <=? status) && (status <=? 299).

Definition GitHubService_fetch (m : Method) (ep : string) (b : option Body) : M Payload :=
  out <- fetch {| method := m; endpoint := ep; body := b |} ;;
  match out with
  | NetworkFailure message => throw message
  | Response status statusText payload =>
      if negb (responseOk status) then
        if status =? 401 then throw unauthorized
        else if status =? 403 then throw forbidden
        else throw ("GitHub API Error: " +:+ statusText +:+ " (" +:+ Js.ofZ status +:+ ")")
      else if (status =? 204) || (status =? 205) then ret POther
      else match payload with
           | PUnparsable message => throw message
           | _ => ret payload
           end
  end.

Definition contentsEndpoint (owner repo path : string) : string :=
  "/repos/" +:+ owner +:+ "/" +:+ repo +:+ "/contents/" +:+ encodePath path.

Definition getRepoContents (owner repo path : string) : M Payload :=
  GitHubService_fetch GET (contentsEndpoint owner repo path) None.

(** [file.sha] and [file.content] on whatever came back. *)
Definition payloadSha (p : Payload) : option string :=
  match p with
  | PFile f => Some (f_sha f)
  | _ => None
  end.

Definition payloadContent (p : Payload) : option string :=
  match p with
  | PFile f => f_content f
  | _ => None
  end.

Definition updateFile (owner repo path content : string) (sha : option string)
    (message : option string) : M Payload :=
  let encodedContent := btoa_utf8 content in
  GitHubService_fetch PUT (contentsEndpoint owner repo path)
    (Some {| b_message := message;
             b_content := Some encodedContent;
             b_sha := if Js.truthy sha then sha else None |}).

Definition deleteFile (owner repo path : string) (message : option string)
    (sha : option string) : M Payload :=
  fileSha <-
    (if Js.truthy sha then ret sha
     else tryCatch
            (file <- getRepoContents owner repo path ;; ret (payloadSha file))
            (fun _ => throw ("Cannot delete file. File not found: " +:+ path))) ;;
  GitHubService_fetch DELETE (contentsEndpoint owner repo path)
    (Some {| b_message := message; b_content := None; b_sha := fileSha |}).

(** ** [GeminiService.generateResponse]: the call is logged; its answer
    arrives later, through [engineSettled]. *)
Definition generateResponse (history : list Content) (userMessage : string)
    (context : gmap string JsVal) (model : string) : M unit :=
  fun s =>
    let req := {| g_model := model;
                  g_contents := history ++ [{| c_role := "user"; c_parts := [PartText userMessage] |}];
                  g_context := context |} in
    (Ok tt, {| store := store s; world := world s; sent := sent s ++ [EvGenerate req] |}).

(** ** [executeTool] *)

Definition inferOwner (r : AgentState) (args : Args) : option string :=
  Js.or (arg_owner args) (owner_login <$> currentRepo (contextState r)).

Definition inferRepo (r : AgentState) (args : Args) : option string :=
  Js.or (arg_repo args) (repo_name <$> currentRepo (contextState r)).

Definition inferPath (r : AgentState) (args : Args) : string :=
  Js.ToString (Js.or (Js.or (arg_path args) (currentPath (contextState r))) (Some EmptyString)).

(** [decodeURIComponent(escape(window.atob(content.replace(/\s/g, ''))))] *)
Definition decodeContent (content : string) : M string :=
  match atob_utf8 (Js.stripSpace content) with
  | Ok t => ret t
  | Thrown message => throw message
  end.

Definition toolBody (r : AgentState) (name : string) (args : Args)
    (owner repo path : string) (now : Z) : M string :=
  if String.eqb name "list_files" then
    files <- getRepoContents owner repo path ;;
    ret (JSON_stringify files)
  else if String.eqb name "read_file" then
    file <- getRepoContents owner repo path ;;
    if Js.truthy (payloadContent file)
    then decodeContent (Js.ToString (payloadContent file))
    else ret "File is empty or a directory."
  else if String.eqb name "create_or_update_file" then
    sha <- tryCatch
             (existing <- getRepoContents owner repo path ;;
              ret (if Js.truthy (payloadSha existing) then payloadSha existing else None))
             (fun _ => ret None) ;;
    updateFile owner repo path (Js.ToString (arg_content args)) sha (arg_message args) ;;
    setLastActionTimestamp now ;;
    ret "Success: File created/updated."
  else if String.eqb name "replace_in_file" then
    fileObj <- getRepoContents owner repo path ;;
    if negb (Js.truthy (payloadContent fileObj)) then throw emptyOrNotFound
    else
      currentContent <- decodeContent (Js.ToString (payloadContent fileObj)) ;;
      if negb (Js.includes currentContent (Js.ToString (arg_search args)))
      then throw patchMismatch
      else
        let newContent :=
          Js.replace currentContent (Js.ToString (arg_search args))
                     (Js.ToString (arg_replace args)) in
        updateFile owner repo path newContent (payloadSha fileObj) (arg_message args) ;;
        setLastActionTimestamp now ;;
        ret "Success: Content replaced."
  else if String.eqb name "delete_file" then
    deleteFile owner repo path (arg_message args) None ;;
    setLastActionTimestamp now ;;
    ret "Success: File deleted."
  else ret "Error: Unknown tool.".

(** [r] is the render the handler closed over, [now] the reading of
    [Date.now()] when a mutation has gone through. *)
Definition executeTool (r : AgentState) (tool : ToolCall) (now : Z) : M string :=
  if negb (service r) then ret noService
  else
    let name := tc_name tool in
    let args := tc_args tool in
    let owner := inferOwner r args in
    let repo := inferRepo r args in
    let path := inferPath r args in
    if negb (Js.truthy owner) || negb (Js.truthy repo) then ret noContext
    else
      tryCatch (toolBody r name args (Js.ToString owner) (Js.ToString repo) path now)
               (fun message => ret ("Error: " +:+ message)).

(** The result a mutating tool reports when it has gone through. *)
Definition successText (name : string) : option string :=
  if String.eqb name "create_or_update_file" then Some "Success: File created/updated."%string
  else if String.eqb name "replace_in_file" then Some "Success: Content replaced."%string
  else if String.eqb name "delete_file" then Some "Success: File deleted."%string
  else None.

(** ** The conversation handlers *)

Definition newToolCall (now : Z) (draw : N) (name : string) (args : Args) : ToolCall :=
  {| tc_id := (now, draw); tc_name := name; tc_args := args;
     tc_status := pending; tc_result := None |}.

(** The [for (const part of parts)] loop: the text gathered so far and the
    tools pushed so far.  [rnd k] is the draw of [Math.random()] for the
    tool pushed at index [k]. *)
Definition collectPart (now : Z) (rnd : nat -> N) (acc : string * list ToolCall)
    (part : ResponsePart) : string * list ToolCall :=
  let modelText :=
    if Js.truthy (p_text part) then acc.1 +:+ Js.ToString (p_text part) else acc.1 in
  let tools :=
    match p_functionCall part with
    | Some (name, args) => acc.2 ++ [newToolCall now (rnd (length acc.2)) name args]
    | None => acc.2
    end in
  (modelText, tools).

Definition collectParts (now : Z) (rnd : nat -> N) (parts : list ResponsePart)
    : string * list ToolCall :=
  fold_left (collectPart now rnd) parts (EmptyString, []).

Definition modelMessage (now : Z) (modelText : string) (tools : list ToolCall) : ChatMessage :=
  {| msg_id := now + 1; role := model; text := Some modelText; timestamp := now;
     toolCalls := match tools with [] => None | _ :: _ => Some tools end;
     toolResponse := None |}.

Definition processModelResponse (response : EngineResponse) (now : Z) (rnd : nat -> N)
    : M unit :=
  match candidates response with
  | Some (candidate :: _) =>
      match cand_parts candidate with
      | None => throw notIterable
      | Some parts =>
          let modelText := (collectParts now rnd parts).1 in
          let tools := (collectParts now rnd parts).2 in
          setMessages (fun prev => prev ++ [modelMessage now modelText tools]) ;;
          match tools with
          | first :: _ => setPendingToolCall (Some first)
          | [] => ret tt
          end ;;
          setIsThinking false
      end
  | _ => setIsThinking false
  end.

(** The [catch] block shared by [sendMessage] and [approveToolCall]. *)
Definition debugError (now : Z) (errorMsg : string) : M unit :=
  setMessages (fun prev => prev ++ [systemMessage now ("DEBUG ERROR: " +:+ errorMsg)]) ;;
  setIsThinking false.

(** What follows [await gemini.generateResponse(...)] in both handlers: the
    engine has answered, or the call was rejected. *)
Definition engineSettled (answer : EngineResponse + EngineError) (now : Z)
    (rnd : nat -> N) : M unit :=
  match answer with
  | inl response =>
      tryCatch (processModelResponse response now rnd)
               (fun message =>
                  debugError now (Js.ToString (Js.or (Some message) (Some "{}"%string))))
  | inr e => debugError now (Js.ToString (Js.or (e_message e) (Some (e_json e))))
  end.

Definition userMessage (now : Z) (t : string) : ChatMessage :=
  {| msg_id := now; role := user; text := Some t; timestamp := now;
     toolCalls := None; toolResponse := None |}.

(** [sendMessage], up to the point where it waits for the engine. *)
Definition sendMessage (r : AgentState) (t : string) (now : Z) : M unit :=
  if negb (isEnabled r) || negb (service r) then ret tt
  else if negb (gemini r) then
    setMessages (fun prev => prev ++ [systemMessage now noApiKey])
  else
    let newUserMsg := userMessage now t in
    let updatedMessages := messages r ++ [newUserMsg] in
    setMessages (fun _ => updatedMessages) ;;
    setIsThinking true ;;
    generateResponse (getGeminiHistory updatedMessages) EmptyString
      (getFilteredContext (contextState r) (contextSettings r)) (selectedModel r).

Definition withStatus (st : Status) (t : ToolCall) : ToolCall :=
  {| tc_id := tc_id t; tc_name := tc_name t; tc_args := tc_args t;
     tc_status := st; tc_result := tc_result t |}.

Definition withToolCalls (tcs : list ToolCall) (m : ChatMessage) : ChatMessage :=
  {| msg_id := msg_id m; role := role m; text := text m; timestamp := timestamp m;
     toolCalls := Some tcs; toolResponse := toolResponse m |}.

(** The updater of step 1 of [approveToolCall]. *)
Definition markExecuted (pendingId : ToolId) (prev : list ChatMessage) : list ChatMessage :=
  match last prev with
  | None => prev
  | Some lastMsg =>
      match toolCalls lastMsg with
      | None => prev
      | Some tcs =>
          let updatedTools :=
            map (fun t => if decide (tc_id t = pendingId) then withStatus executed t else t) tcs in
          take (length prev - 1)%nat prev ++ [withToolCalls updatedTools lastMsg]
      end
  end.

Definition functionResponseMessage (now : Z) (name result : string) : ChatMessage :=
  {| msg_id := now; role := function; text := None; timestamp := now;
     toolCalls := None;
     toolResponse := Some {| tr_name := name; tr_result := result |} |}.

(** Step 1 of [approveToolCall] and the two setters after it: everything
    before [await executeTool]. *)
Definition approveBegin (call : ToolCall) : M unit :=
  setMessages (markExecuted (tc_id call)) ;;
  setPendingToolCall None ;;
  setIsThinking true.

(** Steps 3 and 4: the result goes into the history the handler closed
    over, and the engine is asked again. *)
Definition approveFinish (r : AgentState) (call : ToolCall) (result : string)
    (now : Z) : M unit :=
  let functionResponseMsg := functionResponseMessage now (tc_name call) result in
  let updatedMessages := messages r ++ [functionResponseMsg] in
  setMessages (fun _ => updatedMessages) ;;
  generateResponse (getGeminiHistory updatedMessages) EmptyString
    (getFilteredContext (contextState r) (contextSettings r)) (selectedModel r).

(** [approveToolCall], up to the point where it waits for the engine;
    [now] is read when the tool finishes, [now'] when its result is filed. *)
Definition approveToolCall (r : AgentState) (now now' : Z) : M unit :=
  match pendingToolCall r with
  | None => ret tt
  | Some call =>
      if negb (gemini r) then ret tt
      else
        approveBegin call ;;
        result <- executeTool r call now ;;
        approveFinish r call result now'
  end.

Definition rejectToolCall (now : Z) : M unit :=
  setPendingToolCall None ;;
  setMessages (fun prev => prev ++ [systemMessage now cancelled]).

(** ** [AgentUI.tsx]: the two ways to send

    The Send button carries [disabled={!input.trim() || isThinking ||
    !!pendingToolCall}]; the Enter key calls [handleSend] directly.  (The
    [setInput('')] that follows is local to the input box.) *)
Definition sendDisabled (r : AgentState) (input : string) : bool :=
  negb (Js.truthy (Some (Js.trim input)))
  || isThinking r
  || (if pendingToolCall r is Some _ then true else false).

Definition handleSend (r : AgentState) (input : string) (now : Z) : M unit :=
  if negb (Js.truthy (Some (Js.trim input))) then ret tt
  else sendMessage r input now.

(** ** The provider as a machine: one input at a time, each handler taken
    from the latest render. *)
Inductive Input :=
| InSend (t : string) (now : Z)
| InApprove (now now' : Z)
| InReject (now : Z)
| InEngine (answer : EngineResponse + EngineError) (now : Z) (rnd : nat -> N).

Definition handler (r : AgentState) (i : Input) : M unit :=
  match i with
  | InSend t now => sendMessage r t now
  | InApprove now now' => approveToolCall r now now'
  | InReject now => rejectToolCall now
  | InEngine answer now rnd => engineSettled answer now rnd
  end.

Definition step (s : Sys) (i : Input) : Sys := (handler (store s) i s).2.

Definition run (s : Sys) (inputs : list Input) : Sys := fold_left step inputs s.

(** Every tool call recorded in a history. *)
Definition toolCallsOf (msgs : list ChatMessage) : list ToolCall :=
  concat (map (fun m => default [] (toolCalls m)) msgs).

(** The two statuses the handlers ever write. *)
Definition settled (t : ToolCall) : Prop :=
  tc_status t = pending \/ tc_status t = executed.

End Provider.

Arguments Sys {remote}.
Arguments M {remote} A.

(** ** A repository kept in memory, and a browser for ASCII text

    Concrete stand-ins for the two interfaces, used to run the handlers on
    explicit inputs. *)

Module InMemory.

Definition alphabet : string :=
  "ABCDEFGHIJKLMNOPQRSTUVWXYZabcdefghijklmnopqrstuvwxyz0123456789+/".

Definition digit (n : N) : ascii :=
  default "="%char (String.get (N.to_nat n) alphabet).

Fixpoint indexIn (c : ascii) (s : string) (i : N) : option N :=
  match s with
  | EmptyString => None
  | String d s' => if Ascii.eqb c d then Some i else indexIn c s' (N.succ i)
  end.

(** Base64 of a list of bytes. *)
Fixpoint encodeBytes (l : list N) : string :=
  match l with
  | a :: b :: c :: rest =>
      let n := (a * 65536 + b * 256 + c)%N in
      String (digit (n / 262144)) (String (digit ((n / 4096) mod 64))
        (String (digit ((n / 64) mod 64)) (String (digit (n mod 64)) (encodeBytes rest))))
  | [a; b] =>
      let n := (a * 65536 + b * 256)%N in
      String (digit (n / 262144)) (String (digit ((n / 4096) mod 64))
        (String (digit ((n / 64) mod 64)) "="))
  | [a] =>
      let n := (a * 65536)%N in
      String (digit (n / 262144)) (String (digit ((n / 4096) mod 64)) "==")
  | [] => EmptyString
  end.

(** The six-bit digits of a Base64 text, up to its padding. *)
Fixpoint sextets (s : string) : option (list N) :=
  match s with
  | EmptyString => Some []
  | String c s' =>
      if Ascii.eqb c "=" then
        if String.eqb s' "" || String.eqb s' "=" then Some [] else None
      else
        match indexIn c alphabet 0, sextets s' with
        | Some i, Some l => Some (i :: l)
        | _, _ => None
        end
  end.

Fixpoint decodeSextets (l : list N) : option (list N) :=
  match l with
  | a :: b :: c :: d :: rest =>
      let n := (a * 262144 + b * 4096 + c * 64 + d)%N in
      match decodeSextets rest with
      | Some bytes => Some ((n / 65536) :: ((n / 256) mod 256) :: (n mod 256) :: bytes)%N
      | None => None
      end
  | [a; b; c] =>
      let n := (a * 262144 + b * 4096 + c * 64)%N in
      Some [n / 65536; (n / 256) mod 256]%N
  | [a; b] => Some [(a * 262144 + b * 4096) / 65536]%N
  | [_] => None
  | [] => Some []
  end.

Definition bytesOf (s : string) : list N := map N_of_ascii (list_ascii_of_string s).
Definition textOf (l : list N) : string := string_of_list_ascii (map ascii_of_N l).

(** ASCII text is its own UTF-8 encoding; anything else is refused here. *)
Definition decode (s : string) : Outcome string :=
  match sextets s with
  | None => Thrown "The string to be decoded is not correctly encoded."
  | Some l =>
      match decodeSextets l with
      | None => Thrown "The string to be decoded is not correctly encoded."
      | Some bytes =>
          if forallb (fun b => b <? 128)%N bytes then Ok (textOf bytes)
          else Thrown "URI malformed"
      end
  end.

Definition encode (s : string) : string := encodeBytes (bytesOf s).

(** A plain rendering of what came back, in place of [JSON.stringify]. *)
Definition render (p : Payload) : string :=
  match p with
  | PFile f => "{" +:+ f_path f +:+ "}"
  | PListing l => "[" +:+ String.concat "," (map f_path l) +:+ "]"
  | POther => "{}"
  | PUnparsable _ => "undefined"
  end.

Definition browser : Browser :=
  {| atob_utf8 := decode;
     btoa_utf8 := encode;
     encodePath := fun p => p;
     JSON_stringify := render;
     notIterable := "parts is not iterable" |}.

(** The repository: whether the token is accepted, and the files by
    endpoint. *)
Record Hub := {
  tokenValid : bool;
  files : gmap string GitHubFile;
}.

Definition blob (ep content : string) : GitHubFile :=
  {| f_name := ep; f_path := ep; f_sha := "sha:" +:+ content; f_type := "file";
     f_content := Some content |}.

Definition serve (req : Request) (h : Hub) : FetchOutcome * Hub :=
  if negb (tokenValid h) then (Response 401 "Unauthorized" POther, h)
  else
    match method req, files h !! endpoint req with
    | GET, Some f => (Response 200 "OK" (PFile f), h)
    | GET, None => (Response 404 "Not Found" POther, h)
    | PUT, existing =>
        match body req with
        | Some {| b_content := Some content; b_sha := sha |} =>
            if decide (sha = f_sha <$> existing)
            then (Response (if existing is Some _ then 200 else 201) "OK" POther,
                  {| tokenValid := true;
                     files := <[endpoint req := blob (endpoint req) content]> (files h) |})
            else (Response 409 "Conflict" POther, h)
        | _ => (Response 422 "Unprocessable Entity" POther, h)
        end
    | DELETE, Some f =>
        if decide ((body req) ≫= b_sha = Some (f_sha f))
        then (Response 200 "OK" POther,
              {| tokenValid := true; files := delete (endpoint req) (files h) |})
        else (Response 409 "Conflict" POther, h)
    | DELETE, None => (Response 404 "Not Found" POther, h)
    end.

Definition remote : Remote := {| World := Hub; http := serve |}.

Definition repo : GitHubRepo := {| repo_name := "site"; owner_login := "ada" |}.

(** A render with the agent enabled and both services connected, browsing
    [path] of [repo]. *)
Definition browsing (path : option string) (thinking : bool) (msgs : list ChatMessage)
    (call : option ToolCall) (stamp : Z) : AgentState :=
  {| service := true; gemini := true; isEnabled := true; messages := msgs;
     contextState := {| activeTab := "repos"; currentRepo := Some repo;
                        currentPath := path; currentFile := None;
                        fileContent := None; currentSelection := None |};
     contextSettings := {| includeRepoMap := true; includeFileContent := true;
                           includeSelection := true |};
     pendingToolCall := call; isThinking := thinking;
     lastActionTimestamp := stamp; selectedModel := "gemini-3-pro-preview" |}.

Definition noArgs : Args :=
  {| arg_owner := None; arg_repo := None; arg_path := None; arg_content := None;
     arg_search := None; arg_replace := None; arg_message := None |}.

Definition call (name : string) (args : Args) : ToolCall :=
  {| tc_id := (1, 0%N); tc_name := name; tc_args := args; tc_status := pending;
     tc_result := None |}.

Definition start (st : AgentState) (h : Hub) : @Sys remote :=
  @Build_Sys remote st h [].

(** One file, [a.txt], with the given text. *)
Definition oneFile (content : string) : Hub :=
  {| tokenValid := true;
     files := {[ "/repos/ada/site/contents/a.txt"%string :=
                   blob "/repos/ada/site/contents/a.txt" (encode content) ]} |}.

Definition pathArgs (path : string) : Args :=
  {| arg_owner := None; arg_repo := None; arg_path := Some path; arg_content := None;
     arg_search := None; arg_replace := None; arg_message := None |}.

Definition writeArgs (path content message : string) : Args :=
  {| arg_owner := None; arg_repo := None; arg_path := Some path;
     arg_content := Some content; arg_search := None; arg_replace := None;
     arg_message := Some message |}.

Definition replaceArgs (path search replacement message : string) : Args :=
  {| arg_owner := None; arg_repo := None; arg_path := Some path; arg_content := None;
     arg_search := Some search; arg_replace := Some replacement;
     arg_message := Some message |}.

Definition deleteArgs (path message : string) : Args :=
  {| arg_owner := None; arg_repo := None; arg_path := Some path; arg_content := None;
     arg_search := None; arg_replace := None; arg_message := Some message |}.

(** An engine answer that proposes one tool call and says nothing. *)
Definition proposal (name : string) (args : Args) : EngineResponse :=
  {| candidates :=
       Some [ {| cand_parts :=
                   Some [ {| p_text := None; p_functionCall := Some (name, args) |} ] |} ] |}.

Definition noDraw : nat -> N := fun _ => 0%N.

Definition aTxt : string := "/repos/ada/site/contents/a.txt".

(** A remote side that plays back a fixed list of answers, one for each
    request. *)
Definition playback (req : Request) (script : list FetchOutcome)
    : FetchOutcome * list FetchOutcome :=
  match script with
  | out :: rest => (out, rest)
  | [] => (NetworkFailure "Failed to fetch", [])
  end.

Definition scripted : Remote := {| World := list FetchOutcome; http := playback |}.

End InMemory.

(** ** Preferences kept in [localStorage] ([AgentProvider.tsx], lines 29-65)

    [localStorage] is a map from keys to strings; [getItem] of a missing key
    is [null]. *)

Module Persisted.

Record Prefs := {
  selectedModel : string;
  htmlSafetyMode : bool;
  geminiApiKey : string;
}.

Definition defaultModel : string := "gemini-3-pro-preview".

(** The initial values of the three [useState] calls. *)
Definition load (ls : gmap string string) : Prefs :=
  {| selectedModel := Js.ToString (Js.or (ls !! "agent_model"%string) (Some defaultModel));
     htmlSafetyMode := negb (bool_decide (ls !! "html_safety_mode"%string = Some "false"%string));
     geminiApiKey := Js.ToString (Js.or (ls !! "gemini_api_key"%string) (Some EmptyString)) |}.

(** [String(enabled)] *)
Definition ofBool (b : bool) : string := if b then "true" else "false".

Definition setGeminiApiKey (key : string) (st : Prefs * gmap string string)
    : Prefs * gmap string string :=
  ({| selectedModel := selectedModel st.1; htmlSafetyMode := htmlSafetyMode st.1;
      geminiApiKey := key |},
   <["gemini_api_key"%string := key]> st.2).

Definition setSelectedModel (model : string) (st : Prefs * gmap string string)
    : Prefs * gmap string string :=
  ({| selectedModel := model; htmlSafetyMode := htmlSafetyMode st.1;
      geminiApiKey := geminiApiKey st.1 |},
   <["agent_model"%string := model]> st.2).

Definition setHtmlSafetyMode (enabled : bool) (st : Prefs * gmap string string)
    : Prefs * gmap string string :=
  ({| selectedModel := selectedModel st.1; htmlSafetyMode := enabled;
      geminiApiKey := geminiApiKey st.1 |},
   <["html_safety_mode"%string := ofBool enabled]> st.2).

(** The effect on [geminiApiKey]: the key the [GeminiService] is built with,
    [None] when [gemini] is set to [null].  [env] is [process.env.API_KEY]. *)
Definition engineKey (p : Prefs) (env : option string) : option string :=
  if Js.truthy (Some (geminiApiKey p)) then Some (geminiApiKey p)
  else if Js.truthy env then env
  else None.

End Persisted.

(** ** [setContextState] and [setContextSettings] ([AgentProvider.tsx], lines 67-73)

    A [Partial<...>] argument: each property is absent, or present with a
    value that may be [undefined].  [{ ...prev, ...newState }] takes every
    property that is present, [undefined] included. *)

Record ContextPatch := {
  cp_activeTab : option string;
  cp_currentRepo : option (option GitHubRepo);
  cp_currentPath : option (option string);
  cp_currentFile : option (option GitHubFile);
  cp_fileContent : option (option string);
  cp_currentSelection : option (option string);
}.

Record SettingsPatch := {
  sp_includeRepoMap : option bool;
  sp_includeFileContent : option bool;
  sp_includeSelection : option bool;
}.

Definition mergeContext (prev : AgentContextState) (newState : ContextPatch)
    : AgentContextState :=
  {| activeTab := default (activeTab prev) (cp_activeTab newState);
     currentRepo := default (currentRepo prev) (cp_currentRepo newState);
     currentPath := default (currentPath prev) (cp_currentPath newState);
     currentFile := default (currentFile prev) (cp_currentFile newState);
     fileContent := default (fileContent prev) (cp_fileContent newState);
     currentSelection := default (currentSelection prev) (cp_currentSelection newState) |}.

Definition mergeSettings (prev : AgentContextSettings) (settings : SettingsPatch)
    : AgentContextSettings :=
  {| includeRepoMap := default (includeRepoMap prev) (sp_includeRepoMap settings);
     includeFileContent := default (includeFileContent prev) (sp_includeFileContent settings);
     includeSelection := default (includeSelection prev) (sp_includeSelection settings) |}.

Definition updContextState (f : AgentContextState -> AgentContextState) (st : AgentState)
    : AgentState :=
  {| service := service st; gemini := gemini st; isEnabled := isEnabled st;
     messages := messages st;
     contextState := f (contextState st); contextSettings := contextSettings st;
     pendingToolCall := pendingToolCall st; isThinking := isThinking st;
     lastActionTimestamp := lastActionTimestamp st; selectedModel := selectedModel st |}.

Definition updContextSettings (f : AgentContextSettings -> AgentContextSettings)
    (st : AgentState) : AgentState :=
  {| service := service st; gemini := gemini st; isEnabled := isEnabled st;
     messages := messages st;
     contextState := contextState st; contextSettings := f (contextSettings st);
     pendingToolCall := pendingToolCall st; isThinking := isThinking st;
     lastActionTimestamp := lastActionTimestamp st; selectedModel := selectedModel st |}.

(** ** The repository viewer ([RepoViewer], the unnamed source file) *)

(** The viewer state the two effects and the context-menu handler read. *)
Record Viewer := {
  v_repo : GitHubRepo;
  v_currentPath : string;
  v_selectedFile : option GitHubFile;
  v_fileContent : option string;
  v_isEditing : bool;
  v_editedContent : string;
  v_contextMenu : option string;          (* [contextMenu.selection] *)
  v_lastProcessedTimestamp : Z;           (* the ref *)
}.

(** The argument of [setContextState] in the effect on navigation. *)
Definition navigationPatch (v : Viewer) : ContextPatch :=
  {| cp_activeTab := None;
     cp_currentRepo := Some (Some (v_repo v));
     cp_currentPath := Some (Some (v_currentPath v));
     cp_currentFile := Some (v_selectedFile v);
     cp_fileContent := Some (Js.or (v_fileContent v) None);
     cp_currentSelection := None |}.

(** The argument of [setContextState] in [handleAgentAction]. *)
Definition selectionPatch (v : Viewer) (selection : string) : ContextPatch :=
  {| cp_activeTab := None;
     cp_currentRepo := None;
     cp_currentPath := None;
     cp_currentFile := Some (v_selectedFile v);
     cp_fileContent :=
       Some (if v_isEditing v then Some (v_editedContent v)
             else Js.or (v_fileContent v) None);
     cp_currentSelection := Some (Some selection) |}.

Inductive Action := Refactor | Explain | Comment | Simplify.

Definition newline : string := String "010" EmptyString.

Definition snippet (selection : string) : string :=
  "```" +:+ newline +:+ selection +:+ newline +:+ "```".

Definition prompt (action : Action) (selection : string) : string :=
  "I have selected this code:" +:+ newline +:+ snippet selection +:+ newline +:+ newline +:+
  match action with
  | Refactor =>
      "Please refactor it to be cleaner. Use the 'replace_in_file' tool to update the file efficiently."
  | Explain => "Please explain what this specific logic does in plain English."
  | Comment =>
      "Please add helpful JSDoc or inline comments to this selection. Use the 'replace_in_file' tool to apply the changes."
  | Simplify =>
      "Please simplify this logic to reduce complexity. Use 'replace_in_file' if possible."
  end.

(** What the auto-refresh effect asks for. *)
Inductive Reload :=
| LoadDirectory (path : string)
| LoadFile (f : GitHubFile).

(** The effect on [lastActionTimestamp]: the reloads it starts, and the
    viewer with its ref brought up to date. *)
Definition withProcessed (ts : Z) (v : Viewer) : Viewer :=
  {| v_repo := v_repo v; v_currentPath := v_currentPath v;
     v_selectedFile := v_selectedFile v; v_fileContent := v_fileContent v;
     v_isEditing := v_isEditing v; v_editedContent := v_editedContent v;
     v_contextMenu := v_contextMenu v; v_lastProcessedTimestamp := ts |}.

Definition autoRefresh (lastActionTimestamp : Z) (v : Viewer) : list Reload * Viewer :=
  if v_lastProcessedTimestamp v <? lastActionTimestamp then
    (LoadDirectory (v_currentPath v)
       :: match v_selectedFile v with
          | Some f => [LoadFile f]
          | None => []
          end,
     withProcessed lastActionTimestamp v)
  else ([], v).

Definition withContextMenu (menu : option string) (v : Viewer) : Viewer :=
  {| v_repo := v_repo v; v_currentPath := v_currentPath v;
     v_selectedFile := v_selectedFile v; v_fileContent := v_fileContent v;
     v_isEditing := v_isEditing v; v_editedContent := v_editedContent v;
     v_contextMenu := menu; v_lastProcessedTimestamp := v_lastProcessedTimestamp v |}.

Section Callers.

Context `{remote : Remote} `{browser : Browser}.

Notation "x <- m ;; k" := (bind m (fun x => k))
  (at level 20, m at level 99, k at level 200, only parsing) : js_scope.
Notation "m ;; k" := (bind m (fun _ => k))
  (at level 100, k at level 200, only parsing, right associativity) : js_scope.
Local Open Scope js_scope.

Definition setContextState (newState : ContextPatch) : M unit :=
  setState (updContextState (fun prev => mergeContext prev newState)).

Definition setContextSettings (settings : SettingsPatch) : M unit :=
  setState (updContextSettings (fun prev => mergeSettings prev settings)).

(** The effect on navigation. *)
Definition navigationEffect (v : Viewer) : M unit :=
  setContextState (navigationPatch v).

(** [handleAgentAction]: [r] is the provider render whose [sendMessage] the
    viewer holds.  The result is the viewer after [setContextMenu(null)] and
    whether [setPanelOpen(true)] was called. *)
Definition handleAgentAction (r : AgentState) (v : Viewer) (action : Action) (now : Z)
    : M (Viewer * bool) :=
  match v_contextMenu v with
  | None => ret (v, false)
  | Some selection =>
      setContextState (selectionPatch v selection) ;;
      sendMessage r (prompt action selection) now ;;
      ret (withContextMenu None v, true)
  end.

End Callers.

(** ** [GitHubService] beyond the contents API ([githubService.ts])

    [fetch<T>] once more, for any type [T] of the parsed answer and with the
    error it throws kept whole: its callers below look at [e.status], which
    only the error for a status other than 401 and 403 carries. *)

Record GitHubUser := {
  login : string;
  user_id : Z;
}.

(** [s.toLowerCase()] on one-byte code units. *)
Definition lowerChar (c : ascii) : ascii :=
  let n := N_of_ascii c in
  if ((65 <=? n) && (n <=? 90) || (192 <=? n) && (n <=? 222) && negb (n =? 215))%N
  then ascii_of_N (n + 32)
  else c.

Fixpoint toLowerCase (s : string) : string :=
  match s with
  | EmptyString => EmptyString
  | String c s' => String (lowerChar c) (toLowerCase s')
  end.

Module Service.

Record JsError := {
  err_message : string;
  err_status : option Z;
}.

(** What [fetch<T>] returns: the parsed answer, or [{}] for 204 and 205. *)
Inductive Fetched (T : Type) :=
| Parsed (t : T)
| EmptyObject.
Arguments Parsed {T} t.
Arguments EmptyObject {T}.

Inductive Reply (T : Type) :=
| NoReply (message : string)                                  (* [fetch] rejects *)
| Replied (status : Z) (statusText : string) (json : Outcome T).
Arguments NoReply {T} message.
Arguments Replied {T} status statusText json.

Inductive NetEvent (T : Type) :=
| Asked (req : Request) (reply : Reply T)
| Slept (ms : Z).
Arguments Asked {T} req reply.
Arguments Slept {T} ms.

(** The body of [fetch] after the answer has come. *)
Definition settle {T} (reply : Reply T) : Fetched T + JsError :=
  match reply with
  | NoReply message => inr {| err_message := message; err_status := None |}
  | Replied status statusText json =>
      if negb (responseOk status) then
        if status =? 401 then inr {| err_message := unauthorized; err_status := None |}
        else if status =? 403 then inr {| err_message := forbidden; err_status := None |}
        else inr {| err_message := "GitHub API Error: " +:+ statusText +:+ " ("
                                     +:+ Js.ofZ status +:+ ")";
                    err_status := Some status |}
      else if (status =? 204) || (status =? 205) then inl EmptyObject
      else match json with
           | Ok t => inl (Parsed t)
           | Thrown message => inr {| err_message := message; err_status := None |}
           end
  end.

(** The answers of the contents API, read as replies of this kind. *)
Definition ofOutcome (out : FetchOutcome) : Reply Payload :=
  match out with
  | NetworkFailure message => NoReply message
  | Response status statusText (PUnparsable message) =>
      Replied status statusText (Thrown message)
  | Response status statusText payload => Replied status statusText (Ok payload)
  end.

Section Calls.

Context {T W : Type}.

(** The remote side for these calls, and [encodeURIComponent]. *)
Variable serve : Request -> W -> Reply T * W.
Variable encodeURIComponent : string -> string.

Record Net := {
  wire : W;
  netlog : list (NetEvent T);
}.

Definition fetch (req : Request) (n : Net) : (Fetched T + JsError) * Net :=
  let '(reply, w) := serve req (wire n) in
  (settle reply, {| wire := w; netlog := netlog n ++ [Asked req reply] |}).

Definition sleep (ms : Z) (n : Net) : Net :=
  {| wire := wire n; netlog := netlog n ++ [Slept ms] |}.

Definition followingEndpoint (username : string) : string :=
  "/user/following/" +:+ encodeURIComponent username.

Definition checkFollowerStatus (username : string) (n : Net) : (bool + JsError) * Net :=
  match fetch {| method := GET; endpoint := followingEndpoint username; body := None |} n with
  | (inl _, n') => (inl true, n')
  | (inr _, n') => (inl false, n')
  end.

Definition unfollowUser (username : string) (n : Net) : (unit + JsError) * Net :=
  match fetch {| method := DELETE; endpoint := followingEndpoint username; body := None |} n with
  | (inl _, n') => (inl tt, n')
  | (inr e, n') =>
      if bool_decide (err_status e = Some 404) then (inl tt, n')
      else
        let msg := toLowerCase (Js.ToString (Js.or (Some (err_message e)) (Some EmptyString))) in
        if Js.includes msg "404" || Js.includes msg "not found" then (inl tt, n')
        else (inr e, n')
  end.

End Calls.

Section Pages.

Context {W : Type}.

Variable serve : Request -> W -> Reply (list GitHubUser) * W.

(** The message of the TypeError for [[...results, ...{}]]. *)
Variable notIterable : string.

Definition pageRequest (endpoint : string) (page : Z) : Request :=
  {| method := GET;
     endpoint := endpoint +:+ "?per_page=100&page=" +:+ Js.ofZ page;
     body := None |}.

(** The [while (page <= limitPages)] loop of [fetchPaginatedUsers].
    [remaining] is [limitPages - page + 1], the number of pages that may
    still be asked for: the loop goes on while it is not zero, and the pause
    after a page is taken while pages remain. *)
Fixpoint scan (endpoint : string) (remaining : nat) (page : Z) (results : list GitHubUser)
    (n : Net) : (list GitHubUser + JsError) * Net :=
  match remaining with
  | O => (inl results, n)
  | S remaining' =>
      match fetch serve (pageRequest endpoint page) n with
      | (inl (Parsed data), n1) =>
          if (length data =? 0)%nat then (inl results, n1)
          else
            let n2 := match remaining' with
                      | O => n1
                      | S _ => sleep 300 n1
                      end in
            scan endpoint remaining' (page + 1) (results ++ data) n2
      | (inl EmptyObject, n1) =>
          (inr {| err_message := notIterable; err_status := None |}, n1)
      | (inr e, n1) =>
          if bool_decide (err_status e = Some 403) || bool_decide (err_status e = Some 429)
          then (inl results, n1)
          else (inr e, n1)
      end
  end.

Definition fetchPaginatedUsers (endpoint : string) (limitPages : Z) (n : Net)
    : (list GitHubUser + JsError) * Net :=
  scan endpoint (Z.to_nat limitPages) 1 [] n.

Definition getAllFollowing : Net -> (list GitHubUser + JsError) * Net :=
  fetchPaginatedUsers "/user/following" 50.

Definition getAllFollowers : Net -> (list GitHubUser + JsError) * Net :=
  fetchPaginatedUsers "/user/followers" 50.

End Pages.

(** The requests of a log, in order, and the users its pages delivered. *)
Definition asked {T} (evs : list (NetEvent T)) : list Request :=
  omap (fun ev => match ev with Asked req _ => Some req | Slept _ => None end) evs.

Definition gathered (evs : list (NetEvent (list GitHubUser))) : list GitHubUser :=
  concat (omap (fun ev => match ev with
                          | Asked _ reply =>
                              match settle reply with
                              | inl (Parsed data) => Some data
                              | _ => None
                              end
                          | Slept _ => None
                          end) evs).

(** Requests with a pause of [ms] between any two of them. *)
Fixpoint paced {T} (ms : Z) (evs : list (NetEvent T)) : list (NetEvent T) :=
  match evs with
  | [] => []
  | [ev] => [ev]
  | ev :: rest => ev :: Slept ms :: paced ms rest
  end.

Definition isAsked {T} (ev : NetEvent T) : bool :=
  match ev with
  | Asked _ _ => true
  | Slept _ => false
  end.

(** The requests for [k] pages in a row, from [page] on. *)
Fixpoint pagesFrom (endpoint : string) (page : Z) (k : nat) : list Request :=
  match k with
  | O => []
  | S k' => pageRequest endpoint page :: pagesFrom endpoint (page + 1) k'
  end.

(** A remote side that plays back a fixed list of replies, one for each
    request. *)
Definition replay {T} (req : Request) (script : list (Reply T)) : Reply T * list (Reply T) :=
  match script with
  | reply :: rest => (reply, rest)
  | [] => (NoReply "Failed to fetch", [])
  end.

(** A page of users as the API answers it. *)
Definition page (users : list GitHubUser) : Reply (list GitHubUser) :=
  Replied 200 "OK" (Ok users).

End Service.

(** ** The network manager ([NetworkManager.tsx])

    The part of the component that calls the service: the network scan, the
    unfollow action and the whitelist. *)

Module Network.

Inductive Tab := Followers | Following | Audit | SafetyNet.

(** The state the handlers below read and write.  A [Set<string>] is a
    finite set; the whitelist, whose elements are stored in insertion order,
    is the list of its elements. *)
Record State := {
  activeTab : Tab;
  pageUsers : list GitHubUser;
  isSynced : bool;
  syncLoading : bool;
  allFollowers : gset string;
  allFollowing : gset string;
  auditNonFollowers : list GitHubUser;
  whitelist : list string;
}.

Definition withSyncLoading (b : bool) (st : State) : State :=
  {| activeTab := activeTab st; pageUsers := pageUsers st; isSynced := isSynced st;
     syncLoading := b; allFollowers := allFollowers st; allFollowing := allFollowing st;
     auditNonFollowers := auditNonFollowers st; whitelist := whitelist st |}.

Definition withPageUsers (f : list GitHubUser -> list GitHubUser) (st : State) : State :=
  {| activeTab := activeTab st; pageUsers := f (pageUsers st); isSynced := isSynced st;
     syncLoading := syncLoading st; allFollowers := allFollowers st;
     allFollowing := allFollowing st; auditNonFollowers := auditNonFollowers st;
     whitelist := whitelist st |}.

Definition withAllFollowing (following : gset string) (st : State) : State :=
  {| activeTab := activeTab st; pageUsers := pageUsers st; isSynced := isSynced st;
     syncLoading := syncLoading st; allFollowers := allFollowers st;
     allFollowing := following; auditNonFollowers := auditNonFollowers st;
     whitelist := whitelist st |}.

Definition withWhitelist (l : list string) (st : State) : State :=
  {| activeTab := activeTab st; pageUsers := pageUsers st; isSynced := isSynced st;
     syncLoading := syncLoading st; allFollowers := allFollowers st;
     allFollowing := allFollowing st; auditNonFollowers := auditNonFollowers st;
     whitelist := l |}.

(** The four setters at the end of a scan that went through. *)
Definition withScan (followerSet followingSet : gset string) (nonFollowers : list GitHubUser)
    (st : State) : State :=
  {| activeTab := activeTab st; pageUsers := pageUsers st; isSynced := true;
     syncLoading := syncLoading st; allFollowers := followerSet;
     allFollowing := followingSet; auditNonFollowers := nonFollowers;
     whitelist := whitelist st |}.

(** [new Set(array)]: the elements in the order of their first occurrence. *)
Definition setOf (l : list string) : list string :=
  fold_left (fun acc x => if bool_decide (x ∈ acc) then acc else acc ++ [x]) l [].

Definition syncFailed : string :=
  "Network sync failed or hit rate limits. Check console.".

Section Manager.

Context {W : Type}.

Variable serve : Request -> W -> Service.Reply (list GitHubUser) * W.
Variable encodeURIComponent : string -> string.
Variable notIterable : string.

(** The component, the remote side with its log, the alerts shown, and the
    item of [localStorage] under [graphite_whitelist], which only
    [toggleWhitelist] writes: the array whose JSON text it holds. *)
Record Ui := {
  ui : State;
  net : @Service.Net (list GitHubUser) W;
  alerts : list string;
  stored : option (list string);
}.

Definition setUi (f : State -> State) (u : Ui) : Ui :=
  {| ui := f (ui u); net := net u; alerts := alerts u; stored := stored u |}.

Definition withNet (n : @Service.Net (list GitHubUser) W) (u : Ui) : Ui :=
  {| ui := ui u; net := n; alerts := alerts u; stored := stored u |}.

Definition alert (message : string) (u : Ui) : Ui :=
  {| ui := ui u; net := net u; alerts := alerts u ++ [message]; stored := stored u |}.

Definition loadPersistedData (u : Ui) : Ui :=
  match stored u with
  | Some savedWhitelist => setUi (withWhitelist (setOf savedWhitelist)) u
  | None => u
  end.

(** [toggleWhitelist], from the render [r]. *)
Definition toggleWhitelist (r : State) (username : string) (u : Ui) : Ui :=
  let newWhitelist :=
    if bool_decide (username ∈ whitelist r)
    then filter (fun x => x <> username) (whitelist r)
    else whitelist r ++ [username] in
  {| ui := withWhitelist newWhitelist (ui u); net := net u; alerts := alerts u;
     stored := Some newWhitelist |}.

(** [syncNetwork].  The pause of one second between the two scans is logged
    like the pauses of the service. *)
Definition syncNetwork (u : Ui) : Ui :=
  let u0 := setUi (withSyncLoading true) u in
  let u' :=
    match Service.getAllFollowers serve notIterable (net u0) with
    | (inl followers, n1) =>
        let n2 := Service.sleep 1000 n1 in
        match Service.getAllFollowing serve notIterable n2 with
        | (inl following, n3) =>
            let followerSet : gset string := list_to_set (map login followers) in
            let followingSet : gset string := list_to_set (map login following) in
            let nonFollowers := filter (fun x => login x ∉ followerSet) following in
            setUi (withScan followerSet followingSet nonFollowers) (withNet n3 u0)
        | (inr _, n3) => alert syncFailed (withNet n3 u0)
        end
    | (inr _, n1) => alert syncFailed (withNet n1 u0)
    end in
  setUi (withSyncLoading false) u'.

(** [handleUnfollow], from the render [r]. *)
Definition handleUnfollow (r : State) (username : string) (u : Ui) : Ui :=
  match Service.unfollowUser serve encodeURIComponent username (net u) with
  | (inl _, n1) =>
      let u1 := withNet n1 u in
      let u2 :=
        match activeTab r with
        | Following => setUi (withPageUsers (filter (fun x => login x <> username))) u1
        | _ => u1
        end in
      if isSynced r
      then setUi (withAllFollowing (allFollowing r ∖ {[ username ]})) u2
      else u2
  | (inr _, n1) => alert ("Failed to unfollow " +:+ username) (withNet n1 u)
  end.

End Manager.

End Network.

(** ** Reading the log *)

(** The repository requests among the events of a log, in order. *)
Definition fetches (evs : list Event) : list Request :=
  omap (fun ev => match ev with EvFetch req => Some req | EvGenerate _ => None end) evs.

(** The engine calls among the events of a log, in order. *)
Definition engineCalls (evs : list Event) : list GenerateRequest :=
  omap (fun ev => match ev with EvGenerate req => Some req | EvFetch _ => None end) evs.

(** An approval, among the inputs of the provider. *)
Definition isApprove (i : Input) : bool :=
  match i with
  | InApprove _ _ => true
  | _ => false
  end.

(** The call waiting for approval, if any, has not been decided yet. *)
Definition pendingIsPending (st : AgentState) : Prop :=
  forall tc, pendingToolCall st = Some tc -> tc_status tc = pending.

(** The three tool names whose execution writes to the repository. *)
Definition mutatingTool (name : string) : bool :=
  String.eqb name "create_or_update_file"
  || String.eqb name "replace_in_file"
  || String.eqb name "delete_file".

(** The method of the request a mutating tool writes with. *)
Definition writeMethod (name : string) : option Method :=
  if String.eqb name "create_or_update_file" then Some PUT
  else if String.eqb name "replace_in_file" then Some PUT
  else if String.eqb name "delete_file" then Some DELETE
  else None.

(** * Properties *)

(** ** JavaScript strings *)

Example replace_first : Js.replace "a-a" "a" "b" = "b-a"%string.
Proof. reflexivity. Qed.

Example replace_dollar : Js.replace "x=1" "1" "[$&$$$1]" = "x=[1$$1]"%string.
Proof. reflexivity. Qed.

Example replaceEvery_ex : Js.replaceEvery "ab" "c" "abxabab" 0 = "cxcc"%string.
Proof. reflexivity. Qed.

Lemma startsWith_split (p s : string) :
  Js.startsWith p s = true -> s = p +:+ Js.drop (String.length p) s.
Proof.
  revert s. induction p as [| a p IH]; intros s H; [reflexivity |].
  destruct s as [| b s]; [discriminate H |]. cbn in H |- *.
  destruct (Ascii.eqb a b) eqn:Hab; [| discriminate H].
  apply Ascii.eqb_eq in Hab. subst b.
  change (String a s = String a (p +:+ Js.drop (String.length p) s)).
  f_equal. apply IH, H.
Qed.

(** [splitFirst] cuts the text around an occurrence of the search text. *)
Lemma splitFirst_sound (search s before after : string) :
  Js.splitFirst search s = Some (before, after) ->
  s = before +:+ search +:+ after.
Proof.
  revert before. induction s as [| c s IH]; intros before H.
  - cbn in H. destruct (Js.startsWith search "") eqn:Hp; [| discriminate H].
    injection H as <- <-. apply (startsWith_split _ _ Hp).
  - cbn [Js.splitFirst] in H.
    destruct (Js.startsWith search (String c s)) eqn:Hp.
    + injection H as <- <-. apply (startsWith_split _ _ Hp).
    + destruct (Js.splitFirst search s) as [[b a] |]; [| discriminate H].
      injection H as <- <-.
      change (String c s = String c (b +:+ search +:+ a)).
      f_equal. apply IH. reflexivity.
Qed.

(** ... and no occurrence starts earlier: the text before the cut, extended
    by anything shorter than the search text, does not contain it. *)
Lemma splitFirst_first (search s before after : string) :
  Js.splitFirst search s = Some (before, after) ->
  forall (i : nat), (i < String.length before)%nat ->
    Js.startsWith search (Js.drop i s) = false.
Proof.
  revert before. induction s as [| c s IH]; intros before H i Hi.
  - cbn in H. destruct (Js.startsWith search "") eqn:Hp; [| discriminate H].
    injection H as <- <-. cbn in Hi. lia.
  - cbn [Js.splitFirst] in H.
    destruct (Js.startsWith search (String c s)) eqn:Hp.
    + injection H as <- <-. cbn in Hi. lia.
    + destruct (Js.splitFirst search s) as [[b a] |] eqn:Hs; [| discriminate H].
      injection H as <- <-. destruct i as [| i]; [exact Hp |].
      cbn [Js.drop]. apply (IH b eq_refl). cbn in Hi. lia.
Qed.

(** A replacement text without [$] is inserted as it is. *)
Lemma GetSubstitution_plain (matched before after template : string) :
  Js.includes template "$" = false ->
  Js.GetSubstitution matched before after template = template.
Proof.
  induction template as [| c t IH]; intros H; [reflexivity |].
  unfold Js.includes in H. cbn [Js.splitFirst Js.startsWith] in H.
  destruct (Ascii.eqb "$" c) eqn:Hc; [discriminate H |].
  assert (Ht : Js.includes t "$" = false).
  { unfold Js.includes. cbn [String.length Js.drop] in H.
    destruct (Js.splitFirst "$" t) as [[? ?] |]; [discriminate H | reflexivity]. }
  assert (Hne : c <> "$"%char).
  { intros ->. rewrite Ascii.eqb_refl in Hc. discriminate Hc. }
  cbn [Js.GetSubstitution].
  destruct c as [[] [] [] [] [] [] [] []]; try (f_equal; apply IH, Ht).
  contradiction Hne. reflexivity.
Qed.

(** [replace] rewrites the first occurrence and leaves the rest of the text,
    later occurrences included, as it was. *)
Lemma replace_first_occurrence (s search replacement before after : string) :
  Js.splitFirst search s = Some (before, after) ->
  Js.includes replacement "$" = false ->
  s = before +:+ search +:+ after /\
  Js.replace s search replacement = before +:+ replacement +:+ after.
Proof.
  intros Hs Hr. split; [apply splitFirst_sound, Hs |].
  unfold Js.replace. rewrite Hs, GetSubstitution_plain by exact Hr. reflexivity.
Qed.

Example base64_ex : InMemory.encode "a-a" = "YS1h"%string /\ InMemory.decode "YS1h" = Ok "a-a"%string.
Proof. split; reflexivity. Qed.

(** ** Context projection *)

Section Projection.

Variable st : AgentContextState.

Lemma getFilteredContext_activeTab p :
  getFilteredContext st p !! "activeTab"%string = Some (VString (activeTab st)).
Proof. destruct p as [[] [] []]; reflexivity. Qed.

Lemma getFilteredContext_dom p :
  dom (getFilteredContext st p) =
    {[ "activeTab"%string ]}
    ∪ (if includeRepoMap p then {[ "currentRepo"%string; "currentPath"%string ]} else ∅)
    ∪ (if includeFileContent p then {[ "currentFile"%string; "fileContent"%string ]} else ∅)
    ∪ (if includeSelection p then {[ "currentSelection"%string ]} else ∅).
Proof.
  unfold getFilteredContext.
  destruct p as [[] [] []]; cbn [includeRepoMap includeFileContent includeSelection];
    rewrite ?dom_insert_L, ?dom_singleton_L; set_solver.
Qed.

End Projection.

(** C8. The context projection is a function of the context state and the
    disclosure policy alone.  It always carries the active view; it carries
    the current repository and path exactly when [includeRepoMap] is set, the
    current file and its content exactly when [includeFileContent] is set,
    and the current selection exactly when [includeSelection] is set, each
    with the value the state holds; it has no other property; and switching
    one flag off removes the properties of that flag and nothing else. *)
Theorem C8_context_projection (st : AgentContextState) (p : AgentContextSettings) :
  let ctx := getFilteredContext st p in
  ctx !! "activeTab"%string = Some (VString (activeTab st)) /\
  ctx !! "currentRepo"%string
    = (if includeRepoMap p then Some (ofRepo (currentRepo st)) else None) /\
  ctx !! "currentPath"%string
    = (if includeRepoMap p then Some (ofString (currentPath st)) else None) /\
  ctx !! "currentFile"%string
    = (if includeFileContent p then Some (ofFile (currentFile st)) else None) /\
  ctx !! "fileContent"%string
    = (if includeFileContent p then Some (ofString (fileContent st)) else None) /\
  ctx !! "currentSelection"%string
    = (if includeSelection p then Some (ofString (currentSelection st)) else None) /\
  dom ctx ⊆ contextKeys /\
  getFilteredContext st (withoutRepoMap p)
    = delete "currentPath"%string (delete "currentRepo"%string ctx) /\
  getFilteredContext st (withoutFileContent p)
    = delete "fileContent"%string (delete "currentFile"%string ctx) /\
  getFilteredContext st (withoutSelection p)
    = delete "currentSelection"%string ctx.
Proof.
  intros ctx. subst ctx.
  repeat match goal with |- _ /\ _ => split end.
  1-6: destruct p as [[] [] []]; reflexivity.
  - rewrite getFilteredContext_dom. unfold contextKeys. intros k.
    destruct p as [[] [] []];
      cbn [includeRepoMap includeFileContent includeSelection];
      rewrite ?elem_of_union, ?elem_of_singleton, ?elem_of_empty; tauto.
  - destruct p as [[] [] []]; reflexivity.
  - destruct p as [[] [] []]; reflexivity.
  - destruct p as [[] [] []]; reflexivity.
Qed.

(** ** What the engine is sent *)

Lemma getGeminiHistory_length msgs : length (getGeminiHistory msgs) = length msgs.
Proof. unfold getGeminiHistory. apply length_map. Qed.

Lemma getGeminiHistory_lookup msgs (i : nat) m :
  msgs !! i = Some m -> getGeminiHistory msgs !! i = Some (historyEntry m).
Proof. intros Hm. unfold getGeminiHistory. rewrite list_lookup_fmap, Hm. reflexivity. Qed.

(** C6, as stated, fails: a history holding the cancellation notice is not
    serialised like the same history without its system turns; the notice
    goes out as a user-role text part. *)
Lemma C6_system_turn_is_sent :
  let msgs := [userMessage 1 "delete a.txt"; systemMessage 2 cancelled] in
  getGeminiHistory msgs
    = [ {| c_role := "user"; c_parts := [PartText "delete a.txt"] |};
        {| c_role := "user"; c_parts := [PartText cancelled] |} ] /\
  getGeminiHistory msgs <> getGeminiHistory (withoutSystemTurns msgs).
Proof. split; [reflexivity | discriminate]. Qed.

(** C6, amended.  The serialised history has one entry per turn, in order,
    and a system turn is serialised as a user-role entry whose only part is
    the turn's text (the empty string when it has none). *)
Theorem C6_system_turns_serialised_as_user_text
    (msgs : list ChatMessage) (i : nat) (m : ChatMessage)
    (Hm : msgs !! i = Some m) (Hrole : role m = system) :
  length (getGeminiHistory msgs) = length msgs /\
  getGeminiHistory msgs !! i
    = Some {| c_role := "user"; c_parts := [PartText (textOrEmpty m)] |}.
Proof.
  split; [apply getGeminiHistory_length |].
  rewrite (getGeminiHistory_lookup _ _ _ Hm). unfold historyEntry.
  rewrite Hrole. reflexivity.
Qed.

Lemma C6_system_turns_serialised_witness :
  length (getGeminiHistory [userMessage 1 "hi"; systemMessage 2 cancelled]) = 2%nat /\
  getGeminiHistory [userMessage 1 "hi"; systemMessage 2 cancelled] !! 1%nat
    = Some {| c_role := "user"; c_parts := [PartText cancelled] |}.
Proof.
  apply (C6_system_turns_serialised_as_user_text
           [userMessage 1 "hi"; systemMessage 2 cancelled] 1 (systemMessage 2 cancelled));
    reflexivity.
Defined.

(** ** The handlers *)

Section Handlers.

Context `{remote : Remote} `{browser : Browser}.

Implicit Types (s : Sys) (r : AgentState).

(** C9. Rejecting never reaches the remote repository or the engine:
    nothing is sent and the remote side is as it was; the pending call is
    cleared, the cancellation notice is appended to the history, and the
    rest of the component state is untouched.  With the pending call gone,
    an approval from the render that follows does nothing either. *)
Theorem C9_rejectToolCall_touches_nothing_remote (now : Z) s :
  let s' := (rejectToolCall now s).2 in
  (rejectToolCall now s).1 = Ok tt /\
  (forall now1 now2, approveToolCall (store s') now1 now2 s' = (Ok tt, s')) /\
  sent s' = sent s /\
  world s' = world s /\
  pendingToolCall (store s') = None /\
  messages (store s') = messages (store s) ++ [systemMessage now cancelled] /\
  text (systemMessage now cancelled) = Some "Tool execution cancelled by user."%string /\
  isThinking (store s') = isThinking (store s) /\
  lastActionTimestamp (store s') = lastActionTimestamp (store s) /\
  contextState (store s') = contextState (store s) /\
  contextSettings (store s') = contextSettings (store s).
Proof. repeat split. Qed.

(** *** The service calls leave the component state alone *)

Lemma GitHubService_fetch_frame m ep b s :
  let req := {| method := m; endpoint := ep; body := b |} in
  let s' := (GitHubService_fetch m ep b s).2 in
  store s' = store s /\
  sent s' = sent s ++ [EvFetch req] /\
  world s' = (http req (world s)).2.
Proof.
  unfold GitHubService_fetch, bind, fetch. cbn zeta.
  destruct (http _ (world s)) as [[msg | status statusText payload] w]; cbn.
  - repeat split.
  - destruct (negb (responseOk status)); cbn.
    + destruct (status =? 401); [repeat split |].
      destruct (status =? 403); repeat split.
    + destruct ((status =? 204) || (status =? 205)); [repeat split |].
      destruct payload; repeat split.
Qed.

Lemma GitHubService_fetch_store m ep b s :
  store (GitHubService_fetch m ep b s).2 = store s.
Proof. apply GitHubService_fetch_frame. Qed.

Lemma GitHubService_fetch_sent m ep b s :
  sent (GitHubService_fetch m ep b s).2
    = sent s ++ [EvFetch {| method := m; endpoint := ep; body := b |}].
Proof. apply GitHubService_fetch_frame. Qed.

(** Runs one awaited service call: names its outcome and the state after
    it, and records that the component state is the one before. *)
Ltac await_fetch :=
  match goal with
  | |- context [GitHubService_fetch ?m ?ep ?b ?s0] =>
      let Hst := fresh "Hstore" in
      let Hsent := fresh "Hsent" in
      pose proof (GitHubService_fetch_store m ep b s0) as Hst;
      pose proof (GitHubService_fetch_sent m ep b s0) as Hsent;
      destruct (GitHubService_fetch m ep b s0) as [[? | ?] ?];
      cbn [fst snd] in Hst, Hsent
  end.

(** Follows the code through its awaits and its tests. *)
Ltac crunch :=
  repeat first
    [ await_fetch; cbn beta iota
    | match goal with
      | |- context [match atob_utf8 ?x with _ => _ end] =>
          destruct (atob_utf8 x); cbn beta iota
      | |- context [if ?b then _ else _] => destruct b eqn:?; cbn beta iota
      end ].

Ltac unfold_service :=
  unfold deleteFile, updateFile, getRepoContents, decodeContent,
    setLastActionTimestamp, setState, tryCatch, bind, ret, throw;
  cbn [Js.truthy].

(** [executeTool] never throws. *)
Lemma executeTool_returns r (tool : ToolCall) (now : Z) s :
  exists result s', executeTool r tool now s = (Ok result, s').
Proof.
  unfold executeTool.
  destruct (negb (service r)); [eexists _, _; reflexivity |].
  destruct (negb (Js.truthy (inferOwner r (tc_args tool)))
            || negb (Js.truthy (inferRepo r (tc_args tool))));
    [eexists _, _; reflexivity |].
  unfold toolBody.
  destruct (String.eqb (tc_name tool) "list_files");
    [| destruct (String.eqb (tc_name tool) "read_file");
       [| destruct (String.eqb (tc_name tool) "create_or_update_file");
          [| destruct (String.eqb (tc_name tool) "replace_in_file");
             [| destruct (String.eqb (tc_name tool) "delete_file")]]]];
    unfold_service; crunch; eexists _, _; reflexivity.
Qed.

(** Runs one awaited service call and keeps its equation. *)
Ltac await_fetch_eq :=
  match goal with
  | |- context [GitHubService_fetch ?m ?ep ?b ?s0] =>
      let Hst := fresh "Hstore" in
      let Hsent := fresh "Hsent" in
      let Hrun := fresh "Hrun" in
      pose proof (GitHubService_fetch_store m ep b s0) as Hst;
      pose proof (GitHubService_fetch_sent m ep b s0) as Hsent;
      destruct (GitHubService_fetch m ep b s0) as [[? | ?] ?] eqn:Hrun;
      cbn [fst snd] in Hst, Hsent
  end.

Ltac crunch_eq :=
  repeat first
    [ await_fetch_eq; cbn beta iota
    | match goal with
      | |- context [match atob_utf8 ?x with _ => _ end] =>
          destruct (atob_utf8 x); cbn beta iota
      | |- context [if ?b then _ else _] => destruct b eqn:?; cbn beta iota
      end ].

(** The stamp follows the write.  [executeTool] always returns a result.
    Either it sends reads only, and the component state is as before (the
    result of a mutating tool is then an error text); or the last request it
    sends is the write of the tool, a [PUT] for [create_or_update_file] and
    [replace_in_file] and a [DELETE] for [delete_file], sent after reads
    only, and the answer to that write decides: when the write returns, the
    result is the success text of the tool and [lastActionTimestamp] is set,
    once, to the clock reading, the rest of the component state being as
    before; when the write throws, the result is the error text of what was
    thrown and the component state is as before. *)
Lemma executeTool_stamp_follows_the_write r (tool : ToolCall) (now : Z) s :
  exists result s',
    executeTool r tool now s = (Ok result, s') /\
    (((exists reads, sent s' = sent s ++ map EvFetch reads /\
                     Forall (fun q => method q = GET) reads) /\
      store s' = store s /\
      (is_Some (successText (tc_name tool)) -> Js.startsWith "Error: " result = true))
     \/
     (exists s1 w reads,
        writeMethod (tc_name tool) = Some (method w) /\
        store s1 = store s /\
        sent s1 = sent s ++ map EvFetch reads /\
        Forall (fun q => method q = GET) reads /\
        sent s' = sent s1 ++ [EvFetch w] /\
        match GitHubService_fetch (method w) (endpoint w) (body w) s1 with
        | (Ok _, s2) =>
            successText (tc_name tool) = Some result /\
            s' = {| store := updLastActionTimestamp now (store s);
                    world := world s2; sent := sent s2 |} /\
            lastActionTimestamp (store s') = now
        | (Thrown e, s2) =>
            result = "Error: " +:+ e /\ s' = s2 /\ store s' = store s
        end)).
Proof.
  unfold executeTool, successText, writeMethod.
  destruct (negb (service r)).
  { eexists _, _. split; [reflexivity |]. left. split; [exists []; rewrite app_nil_r; auto |].
    repeat split. }
  destruct (negb (Js.truthy (inferOwner r (tc_args tool)))
            || negb (Js.truthy (inferRepo r (tc_args tool)))).
  { eexists _, _. split; [reflexivity |]. left. split; [exists []; rewrite app_nil_r; auto |].
    repeat split. }
  unfold toolBody.
  destruct (String.eqb (tc_name tool) "list_files") eqn:E1;
    [apply String.eqb_eq in E1; rewrite ?E1 |
  destruct (String.eqb (tc_name tool) "read_file") eqn:E2;
    [apply String.eqb_eq in E2; rewrite ?E2 |
  destruct (String.eqb (tc_name tool) "create_or_update_file") eqn:E3;
    [apply String.eqb_eq in E3; rewrite ?E3 |
  destruct (String.eqb (tc_name tool) "replace_in_file") eqn:E4;
    [apply String.eqb_eq in E4; rewrite ?E4 |
  destruct (String.eqb (tc_name tool) "delete_file") eqn:E5;
    [apply String.eqb_eq in E5; rewrite ?E5 | ]]]]];
    cbn [String.eqb Ascii.eqb Bool.eqb]; unfold_service; crunch_eq;
    eexists _, _; (split; [reflexivity |]); cbn [store sent].
  all: try solve [ left; split;
                    [ first [ exists []; rewrite app_nil_r; split; [reflexivity | constructor]
                            | eexists [_]; split; [cbn [map]; eassumption | repeat constructor] ]
                    | split; [congruence | first [ intros _; reflexivity | intros [? [=]] ] ] ] ].
  all: match goal with
       | Hw : GitHubService_fetch ?m ?ep ?b ?s1 = (_, ?s2) |- _ =>
           lazymatch m with GET => fail | _ => idtac end;
           right; exists s1, {| method := m; endpoint := ep; body := b |};
           cbn [method endpoint body]; rewrite Hw
       end;
       eexists [_];
       (split; [reflexivity |]);
       (split; [congruence |]);
       (split; [cbn [map]; eassumption |]);
       (split; [repeat constructor |]);
       (split; [assumption |]);
       repeat split; try congruence;
       repeat match goal with H : store _ = _ |- _ => rewrite H; clear H end;
       reflexivity.
Qed.

(** *** [executeTool], tool by tool *)

(** What [executeTool] does once the service is there and owner and
    repository are resolved. *)
Lemma executeTool_resolved r tool now s :
  service r = true ->
  Js.truthy (inferOwner r (tc_args tool)) = true ->
  Js.truthy (inferRepo r (tc_args tool)) = true ->
  executeTool r tool now s
    = tryCatch (toolBody r (tc_name tool) (tc_args tool)
                  (Js.ToString (inferOwner r (tc_args tool)))
                  (Js.ToString (inferRepo r (tc_args tool)))
                  (inferPath r (tc_args tool)) now)
               (fun message => ret ("Error: " +:+ message)) s.
Proof.
  intros Hs Ho Hr. unfold executeTool. rewrite Hs, Ho, Hr. reflexivity.
Qed.

(** C4, amended.  A [replace_in_file] whose read returns a file whose
    decoded content does not contain the search text fails without writing:
    the read is the only request sent, the component state is untouched, and
    the result is the mismatch message when the stored content is not empty
    and [Error: File is empty or not found] when it is. *)
Theorem C4_replace_in_file_search_absent
    r (tool : ToolCall) (now : Z) s (f : GitHubFile) (c current : string) (s1 : Sys)
    (Hservice : service r = true)
    (Hname : tc_name tool = "replace_in_file"%string)
    (Howner : Js.truthy (inferOwner r (tc_args tool)) = true)
    (Hrepo : Js.truthy (inferRepo r (tc_args tool)) = true)
    (Hread : getRepoContents (Js.ToString (inferOwner r (tc_args tool)))
               (Js.ToString (inferRepo r (tc_args tool)))
               (inferPath r (tc_args tool)) s = (Ok (PFile f), s1))
    (Hcontent : f_content f = Some c)
    (Hdecoded : atob_utf8 (Js.stripSpace c) = Ok current)
    (Habsent : Js.includes current (Js.ToString (arg_search (tc_args tool))) = false) :
  executeTool r tool now s
    = (Ok (if String.eqb c "" then "Error: " +:+ emptyOrNotFound
           else "Error: " +:+ patchMismatch), s1) /\
  store s1 = store s /\
  sent s1 = sent s ++ [EvFetch {| method := GET;
                                  endpoint := contentsEndpoint
                                                (Js.ToString (inferOwner r (tc_args tool)))
                                                (Js.ToString (inferRepo r (tc_args tool)))
                                                (inferPath r (tc_args tool));
                                  body := None |}].
Proof.
  split.
  - rewrite executeTool_resolved by assumption.
    unfold toolBody. rewrite Hname. cbn [String.eqb Ascii.eqb Bool.eqb].
    unfold tryCatch, bind. rewrite Hread. cbn [payloadContent]. rewrite Hcontent.
    destruct c as [| a c']; [reflexivity |].
    cbn [Js.truthy negb Js.ToString String.eqb]. unfold decodeContent.
    rewrite Hdecoded. unfold ret. rewrite Habsent. reflexivity.
  - unfold getRepoContents in Hread.
    pose proof (GitHubService_fetch_store GET
                  (contentsEndpoint (Js.ToString (inferOwner r (tc_args tool)))
                     (Js.ToString (inferRepo r (tc_args tool)))
                     (inferPath r (tc_args tool))) None s) as Hst.
    pose proof (GitHubService_fetch_sent GET
                  (contentsEndpoint (Js.ToString (inferOwner r (tc_args tool)))
                     (Js.ToString (inferRepo r (tc_args tool)))
                     (inferPath r (tc_args tool))) None s) as Hse.
    rewrite Hread in Hst, Hse. split; assumption.
Qed.

(** A [replace_in_file] that finds its search text writes the content with
    [Js.replace] applied, under the version token it has just read. *)
Lemma replace_in_file_found
    r (tool : ToolCall) (now : Z) s (f : GitHubFile) (c current : string) (s1 : Sys)
    (Hservice : service r = true)
    (Hname : tc_name tool = "replace_in_file"%string)
    (Howner : Js.truthy (inferOwner r (tc_args tool)) = true)
    (Hrepo : Js.truthy (inferRepo r (tc_args tool)) = true)
    (Hread : getRepoContents (Js.ToString (inferOwner r (tc_args tool)))
               (Js.ToString (inferRepo r (tc_args tool)))
               (inferPath r (tc_args tool)) s = (Ok (PFile f), s1))
    (Hcontent : f_content f = Some c)
    (Hfilled : Js.truthy (Some c) = true)
    (Hdecoded : atob_utf8 (Js.stripSpace c) = Ok current)
    (Hfound : Js.includes current (Js.ToString (arg_search (tc_args tool))) = true) :
  executeTool r tool now s
    = match GitHubService_fetch PUT
              (contentsEndpoint (Js.ToString (inferOwner r (tc_args tool)))
                 (Js.ToString (inferRepo r (tc_args tool)))
                 (inferPath r (tc_args tool)))
              (Some {| b_message := arg_message (tc_args tool);
                       b_content :=
                         Some (btoa_utf8
                                 (Js.replace current
                                    (Js.ToString (arg_search (tc_args tool)))
                                    (Js.ToString (arg_replace (tc_args tool)))));
                       b_sha := if Js.truthy (Some (f_sha f)) then Some (f_sha f) else None |})
              s1 with
      | (Ok _, s2) =>
          (Ok "Success: Content replaced."%string,
           {| store := updLastActionTimestamp now (store s2);
              world := world s2; sent := sent s2 |})
      | (Thrown e2, s2) => (Ok ("Error: " +:+ e2), s2)
      end.
Proof.
  rewrite executeTool_resolved by assumption.
  unfold toolBody. rewrite Hname. cbn [String.eqb Ascii.eqb Bool.eqb].
  unfold tryCatch at 1. unfold bind at 1. rewrite Hread.
  cbn [payloadContent payloadSha]. rewrite Hcontent, Hfilled. cbn [negb Js.ToString].
  unfold decodeContent. rewrite Hdecoded. unfold bind at 1. unfold ret at 1.
  rewrite Hfound. cbn [negb]. unfold updateFile, bind.
  destruct (GitHubService_fetch PUT _ _ s1) as [[? | ?] ?]; reflexivity.
Qed.

(** C10. In [create_or_update_file], whatever makes the probing read fail,
    the failure is discarded: the write that follows carries no version
    token, and the result is decided by that write alone. *)
Theorem C10_probe_failure_is_swallowed
    r (tool : ToolCall) (now : Z) s (e : string) (s1 : Sys)
    (Hservice : service r = true)
    (Hname : tc_name tool = "create_or_update_file"%string)
    (Howner : Js.truthy (inferOwner r (tc_args tool)) = true)
    (Hrepo : Js.truthy (inferRepo r (tc_args tool)) = true)
    (Hprobe : getRepoContents (Js.ToString (inferOwner r (tc_args tool)))
                (Js.ToString (inferRepo r (tc_args tool)))
                (inferPath r (tc_args tool)) s = (Thrown e, s1)) :
  let ep := contentsEndpoint (Js.ToString (inferOwner r (tc_args tool)))
              (Js.ToString (inferRepo r (tc_args tool)))
              (inferPath r (tc_args tool)) in
  let put := {| method := PUT; endpoint := ep;
                body := Some {| b_message := arg_message (tc_args tool);
                                b_content := Some (btoa_utf8 (Js.ToString (arg_content (tc_args tool))));
                                b_sha := None |} |} in
  let written := GitHubService_fetch PUT ep (body put) s1 in
  executeTool r tool now s
    = match written with
      | (Ok _, s2) =>
          (Ok "Success: File created/updated."%string,
           {| store := updLastActionTimestamp now (store s2);
              world := world s2; sent := sent s2 |})
      | (Thrown e2, s2) => (Ok ("Error: " +:+ e2), s2)
      end /\
  sent (executeTool r tool now s).2
    = sent s ++ [EvFetch {| method := GET; endpoint := ep; body := None |}; EvFetch put].
Proof.
  intros ep put written.
  assert (Hrun : executeTool r tool now s
                 = match written with
                   | (Ok _, s2) =>
                       (Ok "Success: File created/updated."%string,
                        {| store := updLastActionTimestamp now (store s2);
                           world := world s2; sent := sent s2 |})
                   | (Thrown e2, s2) => (Ok ("Error: " +:+ e2), s2)
                   end).
  { rewrite executeTool_resolved by assumption.
    unfold toolBody. rewrite Hname. cbn [String.eqb Ascii.eqb Bool.eqb].
    unfold tryCatch at 1. unfold bind at 1. unfold tryCatch at 1. unfold bind at 1.
    rewrite Hprobe. unfold ret at 1. unfold bind at 1. unfold updateFile.
    cbn [Js.truthy]. subst written put ep. cbn [body].
    destruct (GitHubService_fetch PUT _ _ s1) as [[? | ?] ?]; reflexivity. }
  split; [exact Hrun |].
  rewrite Hrun. subst written.
  pose proof (GitHubService_fetch_sent PUT ep (body put) s1) as Hput.
  pose proof (GitHubService_fetch_sent GET ep None s) as Hget.
  unfold getRepoContents in Hprobe. fold ep in Hprobe. rewrite Hprobe in Hget.
  cbn [snd] in Hget.
  destruct (GitHubService_fetch PUT ep (body put) s1) as [[? | ?] s2];
    cbn [snd sent] in *; rewrite Hput, Hget, <- app_assoc; reflexivity.
Qed.

(** C7, amended.  Owner, repository and path are resolved with [||]: the
    argument when it is present and not the empty string, otherwise the
    value of the context (for the path, otherwise the empty string).  When
    owner or repository is still missing, the result is an error text (with
    a service connected, the context error) and nothing at all happens;
    otherwise every request of the execution goes to the contents endpoint
    of the resolved owner, repository and path. *)
Theorem C7_context_inference r (tool : ToolCall) (now : Z) s :
  let args := tc_args tool in
  let ctx := contextState r in
  let owner := inferOwner r args in
  let repo := inferRepo r args in
  let path := inferPath r args in
  owner = match arg_owner args with
          | Some (String _ _ as o) => Some o
          | _ => owner_login <$> currentRepo ctx
          end /\
  repo = match arg_repo args with
         | Some (String _ _ as n) => Some n
         | _ => repo_name <$> currentRepo ctx
         end /\
  path = match arg_path args, currentPath ctx with
         | Some (String _ _ as p), _ => p
         | _, Some (String _ _ as p) => p
         | _, _ => EmptyString
         end /\
  (Js.truthy owner = false \/ Js.truthy repo = false ->
   exists result,
     executeTool r tool now s = (Ok result, s) /\
     Js.startsWith "Error: " result = true /\
     (service r = true -> result = noContext)) /\
  (service r = true -> Js.truthy owner = true -> Js.truthy repo = true ->
   exists evs,
     sent (executeTool r tool now s).2 = sent s ++ evs /\
     Forall (fun ev => exists m b,
               ev = EvFetch {| method := m;
                               endpoint := contentsEndpoint (Js.ToString owner)
                                             (Js.ToString repo) path;
                               body := b |}) evs).
Proof.
  intros args ctx owner repo path. subst owner repo path.
  split; [| split; [| split; [| split]]].
  - unfold inferOwner, Js.or. destruct (arg_owner args) as [[| ? ?] |]; reflexivity.
  - unfold inferRepo, Js.or. destruct (arg_repo args) as [[| ? ?] |]; reflexivity.
  - unfold inferPath, Js.or. subst ctx.
    destruct (arg_path args) as [[| ? ?] |];
      destruct (currentPath (contextState r)) as [[| ? ?] |]; reflexivity.
  - intros Hmissing. unfold executeTool. fold args.
    destruct (service r); cbn [negb].
    + exists noContext.
      destruct Hmissing as [H | H]; rewrite H; cbn [negb orb]; rewrite ?orb_true_r;
        repeat split.
    + exists noService. repeat split. discriminate.
  - intros Hs Ho Hr. rewrite executeTool_resolved by assumption. fold args.
    unfold toolBody.
    destruct (String.eqb (tc_name tool) "list_files");
      [| destruct (String.eqb (tc_name tool) "read_file");
         [| destruct (String.eqb (tc_name tool) "create_or_update_file");
            [| destruct (String.eqb (tc_name tool) "replace_in_file");
               [| destruct (String.eqb (tc_name tool) "delete_file")]]]];
      unfold_service; crunch; cbn [snd sent];
      repeat match goal with H : sent _ = _ |- _ => rewrite H; clear H end;
      rewrite <- ?app_assoc;
      first [ eexists; split; [reflexivity |]; repeat constructor; eauto
            | exists []; split; [rewrite app_nil_r; reflexivity | constructor] ].
Qed.

(** *** The conversation handlers *)

Lemma toolCallsOf_app (a b : list ChatMessage) :
  toolCallsOf (a ++ b) = toolCallsOf a ++ toolCallsOf b.
Proof. unfold toolCallsOf. rewrite map_app, concat_app. reflexivity. Qed.

Lemma toolCallsOf_plain (msgs : list ChatMessage) (m : ChatMessage) :
  toolCalls m = None -> toolCallsOf (msgs ++ [m]) = toolCallsOf msgs.
Proof.
  intros Hm. rewrite toolCallsOf_app. unfold toolCallsOf at 2. cbn.
  rewrite Hm. cbn. rewrite app_nil_r. reflexivity.
Qed.

(** Every tool call the response loop creates is pending. *)
Lemma collectParts_pending now rnd parts :
  Forall (fun t => tc_status t = pending) (collectParts now rnd parts).2.
Proof.
  unfold collectParts.
  assert (Hgen : forall acc, Forall (fun t => tc_status t = pending) acc.2 ->
            Forall (fun t => tc_status t = pending)
              (fold_left (collectPart now rnd) parts acc).2).
  { induction parts as [| part parts IH]; intros acc Hacc; [exact Hacc |].
    cbn [fold_left]. apply IH. unfold collectPart. cbn [snd].
    destruct (p_functionCall part) as [[name args] |]; [| exact Hacc].
    apply Forall_app. split; [exact Hacc |]. repeat constructor. }
  apply Hgen. constructor.
Qed.

Lemma modelMessage_toolCalls now modelText tools :
  default [] (toolCalls (modelMessage now modelText tools)) = tools.
Proof. destruct tools; reflexivity. Qed.

Lemma processModelResponse_run response candidate rest parts now rnd s :
  candidates response = Some (candidate :: rest) ->
  cand_parts candidate = Some parts ->
  let modelText := (collectParts now rnd parts).1 in
  let tools := (collectParts now rnd parts).2 in
  processModelResponse response now rnd s
    = (Ok tt,
       {| store :=
            updIsThinking false
              (match tools with
               | first :: _ => updPendingToolCall (Some first)
               | [] => fun st => st
               end (updMessages (fun prev => prev ++ [modelMessage now modelText tools])
                      (store s)));
          world := world s; sent := sent s |}).
Proof.
  intros Hc Hp modelText tools. unfold processModelResponse.
  rewrite Hc, Hp. fold modelText tools.
  destruct tools; reflexivity.
Qed.

(** The history after [processModelResponse], whatever the response. *)
Lemma processModelResponse_messages response now rnd s :
  let out := processModelResponse response now rnd s in
  messages (store out.2) = messages (store s) \/
  exists modelText tools,
    Forall (fun t => tc_status t = pending) tools /\
    messages (store out.2) = messages (store s) ++ [modelMessage now modelText tools].
Proof.
  unfold processModelResponse.
  destruct (candidates response) as [[| candidate rest] |]; [left; reflexivity | | left; reflexivity].
  destruct (cand_parts candidate) as [parts |]; [| left; reflexivity].
  right. exists (collectParts now rnd parts).1, (collectParts now rnd parts).2.
  split; [apply collectParts_pending |].
  destruct (collectParts now rnd parts).2; reflexivity.
Qed.

Lemma markExecuted_last (pendingId : ToolId) (init : list ChatMessage) (m : ChatMessage)
    (tcs : list ToolCall) :
  toolCalls m = Some tcs ->
  markExecuted pendingId (init ++ [m])
    = init ++ [withToolCalls
                 (map (fun t => if decide (tc_id t = pendingId)
                                then withStatus executed t else t) tcs) m].
Proof.
  intros Hm. unfold markExecuted. rewrite last_snoc, Hm.
  rewrite length_app. cbn [length].
  replace (length init + 1 - 1)%nat with (length init) by lia.
  rewrite take_app_length. reflexivity.
Qed.

Lemma markExecuted_plain (pendingId : ToolId) (init : list ChatMessage) (m : ChatMessage) :
  toolCalls m = None -> markExecuted pendingId (init ++ [m]) = init ++ [m].
Proof. intros Hm. unfold markExecuted. rewrite last_snoc, Hm. reflexivity. Qed.

(** [sendMessage] looks at [isEnabled], [service] and [gemini], and at
    nothing else: with the three in place it files the user turn and calls
    the engine, whatever [isThinking] and [pendingToolCall] say. *)
Lemma sendMessage_accepted r (t : string) (now : Z) s :
  isEnabled r = true -> service r = true -> gemini r = true ->
  sendMessage r t now s
    = (Ok tt,
       {| store := updIsThinking true
                     (updMessages (fun _ => messages r ++ [userMessage now t]) (store s));
          world := world s;
          sent := sent s ++
                  [EvGenerate
                     {| g_model := selectedModel r;
                        g_contents :=
                          getGeminiHistory (messages r ++ [userMessage now t])
                            ++ [{| c_role := "user"; c_parts := [PartText EmptyString] |}];
                        g_context := getFilteredContext (contextState r) (contextSettings r) |}] |}).
Proof.
  intros He Hs Hg. unfold sendMessage. rewrite He, Hs, Hg. reflexivity.
Qed.

(** The history [approveToolCall] leaves behind: the one of the render it
    closed over, with the function result appended. *)
Lemma approveToolCall_messages r (call : ToolCall) (now now' : Z) s :
  pendingToolCall r = Some call -> gemini r = true ->
  exists result,
    messages (store (approveToolCall r now now' s).2)
      = messages r ++ [functionResponseMessage now' (tc_name call) result].
Proof.
  intros Hp Hg. unfold approveToolCall. rewrite Hp, Hg. cbn [negb].
  unfold approveBegin, bind, setMessages, setPendingToolCall, setIsThinking, setState.
  cbn beta iota.
  match goal with
  | |- context [executeTool r call now ?s0] =>
      destruct (executeTool_returns r call now s0) as (result & s' & Hrun)
  end.
  rewrite Hrun. exists result. reflexivity.
Qed.

(** No input makes a handler write a status other than [pending] and
    [executed]. *)
(** Runs the state setters of a handler. *)
Ltac run_setters :=
  unfold setMessages, setIsThinking, setPendingToolCall, generateResponse,
    setState, bind, ret;
  cbn [fst snd store messages updMessages updIsThinking updPendingToolCall].

Lemma step_settled s (i : Input) :
  Forall settled (toolCallsOf (messages (store s))) ->
  Forall settled (toolCallsOf (messages (store (step s i)))).
Proof.
  intros Hs. unfold step. destruct i as [t now | now now' | now | answer now rnd];
    cbn [handler].
  - unfold sendMessage.
    destruct (negb (isEnabled (store s)) || negb (service (store s))); [exact Hs |].
    destruct (negb (gemini (store s))); run_setters;
      rewrite toolCallsOf_plain by reflexivity; exact Hs.
  - destruct (pendingToolCall (store s)) as [call |] eqn:Hp;
      [| unfold approveToolCall; rewrite Hp; exact Hs].
    destruct (gemini (store s)) eqn:Hg;
      [| unfold approveToolCall; rewrite Hp, Hg; exact Hs].
    destruct (approveToolCall_messages (store s) call now now' s Hp Hg) as [result Hm].
    rewrite Hm, toolCallsOf_plain by reflexivity. exact Hs.
  - unfold rejectToolCall. run_setters.
    rewrite toolCallsOf_plain by reflexivity. exact Hs.
  - destruct answer as [response | e]; cbn [engineSettled].
    + unfold tryCatch.
      pose proof (processModelResponse_messages response now rnd s) as Hm.
      cbn zeta in Hm.
      destruct (processModelResponse response now rnd s) as [[[] | message] s'] eqn:Hrun;
        cbn [snd] in Hm.
      * cbn [snd].
        destruct Hm as [Hm | (modelText & tools & Hpending & Hm)]; rewrite Hm;
          [exact Hs |].
        rewrite toolCallsOf_app. apply Forall_app. split; [exact Hs |].
        unfold toolCallsOf. cbn [map concat]. rewrite app_nil_r, modelMessage_toolCalls.
        eapply Forall_impl; [exact Hpending |]. intros t Ht. left. exact Ht.
      * assert (Hsame : messages (store s') = messages (store s)).
        { revert Hrun. unfold processModelResponse.
          destruct (candidates response) as [[| candidate rest] |]; try discriminate.
          destruct (cand_parts candidate) as [parts |].
          - destruct (collectParts now rnd parts).2; discriminate.
          - unfold throw. intros [= _ <-]. reflexivity. }
        unfold debugError. run_setters.
        rewrite Hsame, toolCallsOf_plain by reflexivity. exact Hs.
    + unfold debugError. run_setters.
      rewrite toolCallsOf_plain by reflexivity. exact Hs.
Qed.

Lemma run_settled (inputs : list Input) s :
  Forall settled (toolCallsOf (messages (store s))) ->
  Forall settled (toolCallsOf (messages (store (run s inputs)))).
Proof.
  revert s. induction inputs as [| i inputs IH]; intros s Hs; [exact Hs |].
  cbn [run fold_left]. apply IH, step_settled, Hs.
Qed.

(** C3, amended.  A tool invocation is created with status [pending].  A
    denial changes no recorded invocation: the status stays as it is.  An
    approval marks the matching invocations of the last turn [executed]
    before the attempt starts, with nothing sent yet, and the attempt's
    outcome writes no status.  Along any sequence of inputs no status other
    than [pending] and [executed] ever appears in the history. *)
Theorem C3_status_lifecycle s (inputs : list Input)
    (Hinit : Forall settled (toolCallsOf (messages (store s)))) :
  (forall now rnd parts,
     Forall (fun t => tc_status t = pending) (collectParts now rnd parts).2) /\
  (forall response candidate rest parts now rnd s0,
     candidates response = Some (candidate :: rest) ->
     cand_parts candidate = Some parts ->
     messages (store (processModelResponse response now rnd s0).2)
       = messages (store s0)
           ++ [modelMessage now (collectParts now rnd parts).1 (collectParts now rnd parts).2] /\
     pendingToolCall (store (processModelResponse response now rnd s0).2)
       = match (collectParts now rnd parts).2 with
         | first :: _ => Some first
         | [] => pendingToolCall (store s0)
         end) /\
  (forall now s0,
     toolCallsOf (messages (store (rejectToolCall now s0).2))
       = toolCallsOf (messages (store s0))) /\
  (forall (call : ToolCall) s0 init m tcs,
     messages (store s0) = init ++ [m] ->
     toolCalls m = Some tcs ->
     sent (approveBegin call s0).2 = sent s0 /\
     world (approveBegin call s0).2 = world s0 /\
     messages (store (approveBegin call s0).2)
       = init ++ [withToolCalls
                    (map (fun t => if decide (tc_id t = tc_id call)
                                   then withStatus executed t else t) tcs) m]) /\
  (forall r (call : ToolCall) now now',
     pendingToolCall r = Some call -> gemini r = true ->
     approveToolCall r now now'
       = bind (approveBegin call)
           (fun _ => bind (executeTool r call now)
                       (fun result => approveFinish r call result now'))) /\
  Forall settled (toolCallsOf (messages (store (run s inputs)))).
Proof.
  split; [exact collectParts_pending |].
  split.
  { intros response candidate rest parts now rnd s0 Hc Hp.
    rewrite (processModelResponse_run _ _ _ _ now rnd s0 Hc Hp). cbn [snd store].
    destruct (collectParts now rnd parts).2; split; reflexivity. }
  split.
  { intros now s0. cbn. apply toolCallsOf_plain. reflexivity. }
  split.
  { intros call s0 init m tcs Hmsgs Hm. cbn. rewrite Hmsgs.
    repeat split. apply markExecuted_last, Hm. }
  split.
  { intros r call now now' Hp Hg. unfold approveToolCall. rewrite Hp, Hg. reflexivity. }
  apply run_settled, Hinit.
Qed.

(** *** [executeTool]: what it can and cannot do *)

Lemma fetches_app (a b : list Event) : fetches (a ++ b) = fetches a ++ fetches b.
Proof. unfold fetches. apply omap_app. Qed.

Lemma engineCalls_app (a b : list Event) :
  engineCalls (a ++ b) = engineCalls a ++ engineCalls b.
Proof. unfold engineCalls. apply omap_app. Qed.

(** Whatever the tool call and whatever the remote side answers,
    [executeTool] returns a result text and never throws; it sends at most
    two repository requests, all to the contents endpoint it resolved, and
    never calls the engine; and the only thing it may change in the component
    state is [lastActionTimestamp]. *)
Theorem executeTool_confined r (tool : ToolCall) (now : Z) s :
  exists result s' reqs,
    executeTool r tool now s = (Ok result, s') /\
    sent s' = sent s ++ map EvFetch reqs /\
    (length reqs <= 2)%nat /\
    Forall (fun req => endpoint req
                       = contentsEndpoint (Js.ToString (inferOwner r (tc_args tool)))
                           (Js.ToString (inferRepo r (tc_args tool)))
                           (inferPath r (tc_args tool))) reqs /\
    (store s' = store s \/ store s' = updLastActionTimestamp now (store s)).
Proof.
  unfold executeTool.
  destruct (negb (service r)).
  { exists noService, s, []. rewrite app_nil_r. repeat split; auto. }
  destruct (negb (Js.truthy (inferOwner r (tc_args tool)))
            || negb (Js.truthy (inferRepo r (tc_args tool)))).
  { exists noContext, s, []. rewrite app_nil_r. repeat split; auto. }
  unfold toolBody.
  destruct (String.eqb (tc_name tool) "list_files");
    [| destruct (String.eqb (tc_name tool) "read_file");
       [| destruct (String.eqb (tc_name tool) "create_or_update_file");
          [| destruct (String.eqb (tc_name tool) "replace_in_file");
             [| destruct (String.eqb (tc_name tool) "delete_file")]]]];
    unfold_service; crunch;
    eexists _, _; cbn [sent store];
    repeat match goal with H : sent _ = _ |- _ => rewrite H; clear H end;
    repeat match goal with H : store _ = _ |- _ => rewrite H; clear H end;
    rewrite <- ?app_assoc;
    first
      [ exists []; rewrite app_nil_r;
        solve [repeat split; auto]
      | eexists [_]; solve [repeat split; cbn; auto; repeat constructor]
      | eexists [_; _]; solve [repeat split; cbn; auto; repeat constructor] ].
Qed.

(** A tool call whose name is not one of the three mutating names never
    writes: it sends at most one request, a [GET] without body, and leaves
    the component state as it was. *)
Theorem other_tools_only_read r (tool : ToolCall) (now : Z) s
    (Hname : mutatingTool (tc_name tool) = false) :
  exists result s' reqs,
    executeTool r tool now s = (Ok result, s') /\
    store s' = store s /\
    sent s' = sent s ++ map EvFetch reqs /\
    (length reqs <= 1)%nat /\
    Forall (fun req => method req = GET /\ body req = None) reqs.
Proof.
  unfold mutatingTool in Hname.
  apply orb_false_elim in Hname as [Hname Hdelete].
  apply orb_false_elim in Hname as [Hcreate Hreplace].
  unfold executeTool.
  destruct (negb (service r)).
  { exists noService, s, []. rewrite app_nil_r. repeat split; auto. }
  destruct (negb (Js.truthy (inferOwner r (tc_args tool)))
            || negb (Js.truthy (inferRepo r (tc_args tool)))).
  { exists noContext, s, []. rewrite app_nil_r. repeat split; auto. }
  unfold toolBody. rewrite Hcreate, Hreplace, Hdelete.
  destruct (String.eqb (tc_name tool) "list_files");
    [| destruct (String.eqb (tc_name tool) "read_file")];
    unfold_service; crunch;
    eexists _, _; cbn [sent store];
    repeat match goal with H : sent _ = _ |- _ => rewrite H; clear H end;
    repeat match goal with H : store _ = _ |- _ => rewrite H; clear H end;
    first
      [ exists []; rewrite app_nil_r; solve [repeat split; auto]
      | eexists [_]; solve [repeat split; cbn; auto; repeat constructor] ].
Qed.

(** [delete_file] reads the file first to learn its version token.  Whatever
    makes that read fail, the result blames a missing file, and no [DELETE]
    is sent: the read is the only request, and the component state is
    untouched. *)
Theorem delete_file_read_failure
    r (tool : ToolCall) (now : Z) s (e : string) (s1 : Sys)
    (Hservice : service r = true)
    (Hname : tc_name tool = "delete_file"%string)
    (Howner : Js.truthy (inferOwner r (tc_args tool)) = true)
    (Hrepo : Js.truthy (inferRepo r (tc_args tool)) = true)
    (Hprobe : getRepoContents (Js.ToString (inferOwner r (tc_args tool)))
                (Js.ToString (inferRepo r (tc_args tool)))
                (inferPath r (tc_args tool)) s = (Thrown e, s1)) :
  executeTool r tool now s
    = (Ok ("Error: Cannot delete file. File not found: " +:+ inferPath r (tc_args tool)), s1) /\
  store s1 = store s /\
  sent s1 = sent s ++ [EvFetch {| method := GET;
                                  endpoint := contentsEndpoint
                                                (Js.ToString (inferOwner r (tc_args tool)))
                                                (Js.ToString (inferRepo r (tc_args tool)))
                                                (inferPath r (tc_args tool));
                                  body := None |}].
Proof.
  split.
  - rewrite executeTool_resolved by assumption.
    unfold toolBody. rewrite Hname. cbn [String.eqb Ascii.eqb Bool.eqb].
    unfold deleteFile. cbn [Js.truthy].
    unfold tryCatch, bind. rewrite Hprobe. reflexivity.
  - unfold getRepoContents in Hprobe.
    pose proof (GitHubService_fetch_store GET
                  (contentsEndpoint (Js.ToString (inferOwner r (tc_args tool)))
                     (Js.ToString (inferRepo r (tc_args tool)))
                     (inferPath r (tc_args tool))) None s) as Hst.
    pose proof (GitHubService_fetch_sent GET
                  (contentsEndpoint (Js.ToString (inferOwner r (tc_args tool)))
                     (Js.ToString (inferRepo r (tc_args tool)))
                     (inferPath r (tc_args tool))) None s) as Hse.
    rewrite Hprobe in Hst, Hse. split; assumption.
Qed.

(** When the read succeeds, the [DELETE] that follows carries the version
    token of what was read (none when a listing came back) and the commit
    message of the call; its outcome decides the result, and
    [lastActionTimestamp] moves only when it goes through. *)
Theorem delete_file_uses_token_read
    r (tool : ToolCall) (now : Z) s (p : Payload) (s1 : Sys)
    (Hservice : service r = true)
    (Hname : tc_name tool = "delete_file"%string)
    (Howner : Js.truthy (inferOwner r (tc_args tool)) = true)
    (Hrepo : Js.truthy (inferRepo r (tc_args tool)) = true)
    (Hprobe : getRepoContents (Js.ToString (inferOwner r (tc_args tool)))
                (Js.ToString (inferRepo r (tc_args tool)))
                (inferPath r (tc_args tool)) s = (Ok p, s1)) :
  executeTool r tool now s
    = match GitHubService_fetch DELETE
              (contentsEndpoint (Js.ToString (inferOwner r (tc_args tool)))
                 (Js.ToString (inferRepo r (tc_args tool)))
                 (inferPath r (tc_args tool)))
              (Some {| b_message := arg_message (tc_args tool);
                       b_content := None;
                       b_sha := payloadSha p |})
              s1 with
      | (Ok _, s2) =>
          (Ok "Success: File deleted."%string,
           {| store := updLastActionTimestamp now (store s2);
              world := world s2; sent := sent s2 |})
      | (Thrown e2, s2) => (Ok ("Error: " +:+ e2), s2)
      end.
Proof.
  rewrite executeTool_resolved by assumption.
  unfold toolBody. rewrite Hname. cbn [String.eqb Ascii.eqb Bool.eqb].
  unfold deleteFile. cbn [Js.truthy].
  unfold tryCatch, bind. rewrite Hprobe. unfold ret.
  destruct (GitHubService_fetch DELETE _ _ s1) as [[? | ?] ?]; reflexivity.
Qed.

(** [create_or_update_file] on a path that can be read: the write carries
    the version token of what was read, when it has one (the update path). *)
Theorem create_or_update_file_uses_token_read
    r (tool : ToolCall) (now : Z) s (p : Payload) (s1 : Sys)
    (Hservice : service r = true)
    (Hname : tc_name tool = "create_or_update_file"%string)
    (Howner : Js.truthy (inferOwner r (tc_args tool)) = true)
    (Hrepo : Js.truthy (inferRepo r (tc_args tool)) = true)
    (Hprobe : getRepoContents (Js.ToString (inferOwner r (tc_args tool)))
                (Js.ToString (inferRepo r (tc_args tool)))
                (inferPath r (tc_args tool)) s = (Ok p, s1)) :
  executeTool r tool now s
    = match GitHubService_fetch PUT
              (contentsEndpoint (Js.ToString (inferOwner r (tc_args tool)))
                 (Js.ToString (inferRepo r (tc_args tool)))
                 (inferPath r (tc_args tool)))
              (Some {| b_message := arg_message (tc_args tool);
                       b_content := Some (btoa_utf8 (Js.ToString (arg_content (tc_args tool))));
                       b_sha := if Js.truthy (payloadSha p) then payloadSha p else None |})
              s1 with
      | (Ok _, s2) =>
          (Ok "Success: File created/updated."%string,
           {| store := updLastActionTimestamp now (store s2);
              world := world s2; sent := sent s2 |})
      | (Thrown e2, s2) => (Ok ("Error: " +:+ e2), s2)
      end.
Proof.
  rewrite executeTool_resolved by assumption.
  unfold toolBody. rewrite Hname. cbn [String.eqb Ascii.eqb Bool.eqb].
  unfold tryCatch at 1. unfold bind at 1. unfold tryCatch at 1. unfold bind at 1.
  rewrite Hprobe. unfold ret at 1. unfold bind at 1. unfold updateFile.
  unfold bind, ret, setLastActionTimestamp, setState.
  destruct (Js.truthy (payloadSha p)) eqn:Ht; cbn [Js.truthy]; rewrite ?Ht;
    destruct (GitHubService_fetch PUT _ _ s1) as [[? | ?] ?]; reflexivity.
Qed.

(** *** After the engine call *)

(** The part of the component state [executeTool] leaves alone. *)
Lemma executeTool_store r (tool : ToolCall) (now : Z) s :
  let s' := (executeTool r tool now s).2 in
  store s' = store s \/ store s' = updLastActionTimestamp now (store s).
Proof.
  unfold executeTool.
  destruct (negb (service r)); [left; reflexivity |].
  destruct (negb (Js.truthy (inferOwner r (tc_args tool)))
            || negb (Js.truthy (inferRepo r (tc_args tool))));
    [left; reflexivity |].
  unfold toolBody.
  destruct (String.eqb (tc_name tool) "list_files");
    [| destruct (String.eqb (tc_name tool) "read_file");
       [| destruct (String.eqb (tc_name tool) "create_or_update_file");
          [| destruct (String.eqb (tc_name tool) "replace_in_file");
             [| destruct (String.eqb (tc_name tool) "delete_file")]]]];
    unfold_service; crunch; cbn [snd store];
    repeat match goal with H : store _ = _ |- _ => rewrite H; clear H end;
    auto.
Qed.

(** The tool calls the response loop creates are the function calls of the
    parts, in order, and the text is the non-empty texts put together. *)
Lemma collectParts_calls now rnd parts :
  map (fun t => (tc_name t, tc_args t)) (collectParts now rnd parts).2
    = omap p_functionCall parts.
Proof.
  unfold collectParts.
  assert (Hgen : forall acc,
            map (fun t => (tc_name t, tc_args t))
                (fold_left (collectPart now rnd) parts acc).2
              = map (fun t => (tc_name t, tc_args t)) acc.2 ++ omap p_functionCall parts).
  { induction parts as [| part parts IH]; intros acc.
    - cbn. rewrite app_nil_r. reflexivity.
    - cbn [fold_left]. rewrite IH. unfold collectPart. cbn [snd omap list_omap].
      destruct (p_functionCall part) as [[name args] |]; cbn.
      + rewrite map_app, <- app_assoc. reflexivity.
      + reflexivity. }
  rewrite Hgen. reflexivity.
Qed.

(** Of the tool calls an answer proposes, all are recorded in the model
    turn, in order and as [pending], and only the first one is put up for
    approval; the candidates after the first are not looked at. *)
Theorem first_proposal_only response candidate rest parts now rnd s
    (Hc : candidates response = Some (candidate :: rest))
    (Hp : cand_parts candidate = Some parts) :
  let s' := (processModelResponse response now rnd s).2 in
  let tools := (collectParts now rnd parts).2 in
  map (fun t => (tc_name t, tc_args t)) tools = omap p_functionCall parts /\
  Forall (fun t => tc_status t = pending) tools /\
  toolCallsOf (messages (store s')) = toolCallsOf (messages (store s)) ++ tools /\
  pendingToolCall (store s') = match tools with
                               | first :: _ => Some first
                               | [] => pendingToolCall (store s)
                               end /\
  isThinking (store s') = false /\
  sent s' = sent s.
Proof.
  intros s' tools. subst s'.
  rewrite (processModelResponse_run _ _ _ _ now rnd s Hc Hp). fold tools.
  split; [apply collectParts_calls |].
  split; [apply collectParts_pending |].
  split.
  { destruct tools eqn:Ht; cbn [snd store messages updIsThinking updPendingToolCall updMessages];
      rewrite toolCallsOf_app; f_equal; unfold toolCallsOf; cbn; rewrite app_nil_r;
      reflexivity. }
  destruct tools; repeat split.
Qed.

(** Whatever the engine answers, and also when the call fails or the answer
    is malformed, what follows never throws, sends nothing, ends the thinking
    state and files at most one turn.  A failed call files exactly one system
    turn; an answer without candidates files nothing. *)
Theorem engineSettled_ends_the_turn (answer : EngineResponse + EngineError) (now : Z)
    (rnd : nat -> N) s :
  let out := engineSettled answer now rnd s in
  out.1 = Ok tt /\
  isThinking (store out.2) = false /\
  sent out.2 = sent s /\
  world out.2 = world s /\
  lastActionTimestamp (store out.2) = lastActionTimestamp (store s) /\
  (exists added, messages (store out.2) = messages (store s) ++ added /\
                 (length added <= 1)%nat) /\
  (forall e, answer = inr e ->
     messages (store out.2)
       = messages (store s)
           ++ [systemMessage now
                 ("DEBUG ERROR: " +:+ Js.ToString (Js.or (e_message e) (Some (e_json e))))] /\
     pendingToolCall (store out.2) = pendingToolCall (store s)) /\
  (forall response, answer = inl response ->
     candidates response = None \/ candidates response = Some [] ->
     messages (store out.2) = messages (store s)).
Proof.
  destruct answer as [response | e]; cbn [engineSettled];
    [unfold tryCatch, processModelResponse;
     destruct (candidates response) as [[| candidate rest] |] eqn:Hcand;
       [| destruct (cand_parts candidate) as [parts |];
          [destruct (collectParts now rnd parts).2 |] |] |];
    repeat split; try done;
    try (exists []; rewrite app_nil_r; split; [reflexivity | cbn; lia]);
    try (eexists [_]; split; [reflexivity | cbn; lia]);
    try (intros ? [= <-]; try split; reflexivity);
    try (intros ? [= <-] [? | ?]; congruence);
    try (match goal with H : inr _ = inr _ |- _ => injection H as <- end; reflexivity).
Qed.

(** *** [sendMessage] and [approveToolCall] as a whole *)

(** [sendMessage] never touches the repository.  It calls the engine, once,
    exactly when the agent is enabled and both services are there; then the
    history becomes the one of the render it closed over plus the new user
    turn.  Otherwise nothing is sent and the thinking state stays as it is;
    the history gains the missing-key notice when only the engine is
    missing, and nothing else. *)
Theorem sendMessage_engine_call_iff r (t : string) (now : Z) s :
  let out := sendMessage r t now s in
  out.1 = Ok tt /\
  fetches (sent out.2) = fetches (sent s) /\
  world out.2 = world s /\
  pendingToolCall (store out.2) = pendingToolCall (store s) /\
  (isEnabled r && service r && gemini r = true ->
     engineCalls (sent out.2)
       = engineCalls (sent s)
           ++ [{| g_model := selectedModel r;
                  g_contents :=
                    getGeminiHistory (messages r ++ [userMessage now t])
                      ++ [{| c_role := "user"; c_parts := [PartText EmptyString] |}];
                  g_context := getFilteredContext (contextState r) (contextSettings r) |}] /\
     isThinking (store out.2) = true /\
     messages (store out.2) = messages r ++ [userMessage now t]) /\
  (isEnabled r && service r && gemini r = false ->
     sent out.2 = sent s /\
     isThinking (store out.2) = isThinking (store s) /\
     messages (store out.2)
       = messages (store s)
           ++ (if isEnabled r && service r then [systemMessage now noApiKey] else [])).
Proof.
  unfold sendMessage.
  destruct (isEnabled r), (service r), (gemini r); cbn [negb orb andb];
    run_setters; cbn [sent world store messages isThinking pendingToolCall];
    rewrite ?fetches_app, ?engineCalls_app; cbn [fetches engineCalls omap list_omap];
    rewrite ?app_nil_r;
    repeat split; try discriminate; try (intros _); repeat split.
Qed.

(** Two [sendMessage] calls from one and the same render both reach the
    engine, but the history keeps only the second user turn: each call
    rebuilds the history from the messages of the render. *)
Theorem sendMessage_same_render_overwrites r (t1 t2 : string) (now1 now2 : Z) s
    (He : isEnabled r = true) (Hs : service r = true) (Hg : gemini r = true) :
  let s1 := (sendMessage r t1 now1 s).2 in
  let s2 := (sendMessage r t2 now2 s1).2 in
  messages (store s1) = messages r ++ [userMessage now1 t1] /\
  messages (store s2) = messages r ++ [userMessage now2 t2] /\
  length (engineCalls (sent s2)) = (length (engineCalls (sent s)) + 2)%nat.
Proof.
  unfold sendMessage. rewrite He, Hs, Hg. cbn [negb orb].
  repeat split. cbn [snd sent generateResponse bind].
  cbn. rewrite !engineCalls_app, !length_app. cbn. lia.
Qed.

(** How an approval unfolds: the tool runs on the state the first setters
    leave, and what follows picks up from there. *)
Lemma approveToolCall_run r (call : ToolCall) (now now' : Z) s :
  pendingToolCall r = Some call -> gemini r = true ->
  exists result s1,
    executeTool r call now (approveBegin call s).2 = (Ok result, s1) /\
    approveToolCall r now now' s = approveFinish r call result now' s1.
Proof.
  intros Hp Hg.
  destruct (executeTool_returns r call now (approveBegin call s).2) as (result & s1 & Hrun).
  exists result, s1. split; [exact Hrun |].
  unfold approveToolCall. rewrite Hp, Hg. cbn [negb].
  unfold bind at 1.
  destruct (approveBegin call s) as [[[] | e] s0] eqn:Hb.
  - cbn [snd] in Hrun. unfold bind. rewrite Hrun. reflexivity.
  - discriminate Hb.
Qed.

(** An approval with a call pending and the engine there: the tool runs,
    its result is filed as a function turn on top of the history of the
    render the handler closed over (so the recorded invocations read as
    they did at that render), the pending call is cleared, the thinking
    state is on, and the engine is called once more, last, with that
    history. *)
Theorem approveToolCall_outcome r (call : ToolCall) (now now' : Z) s
    (Hp : pendingToolCall r = Some call) (Hg : gemini r = true) :
  exists result s1,
    executeTool r call now (approveBegin call s).2 = (Ok result, s1) /\
    let s2 := (approveToolCall r now now' s).2 in
    let filed := messages r ++ [functionResponseMessage now' (tc_name call) result] in
    (approveToolCall r now now' s).1 = Ok tt /\
    messages (store s2) = filed /\
    toolCallsOf (messages (store s2)) = toolCallsOf (messages r) /\
    pendingToolCall (store s2) = None /\
    isThinking (store s2) = true /\
    world s2 = world s1 /\
    sent s2 = sent s1
              ++ [EvGenerate
                    {| g_model := selectedModel r;
                       g_contents :=
                         getGeminiHistory filed
                           ++ [{| c_role := "user"; c_parts := [PartText EmptyString] |}];
                       g_context := getFilteredContext (contextState r) (contextSettings r) |}].
Proof.
  destruct (approveToolCall_run r call now now' s Hp Hg) as (result & s1 & Hrun & Happ).
  exists result, s1. split; [exact Hrun |].
  cbn zeta. rewrite Happ.
  pose proof (executeTool_store r call now (approveBegin call s).2) as Hstore.
  cbn zeta in Hstore. rewrite Hrun in Hstore. cbn [snd] in Hstore.
  unfold approveFinish. run_setters.
  cbn [sent world store pendingToolCall isThinking].
  repeat split.
  - apply toolCallsOf_plain. reflexivity.
  - destruct Hstore as [-> | ->]; reflexivity.
  - destruct Hstore as [-> | ->]; reflexivity.
Qed.

(** *** The provider along a run *)

Lemma step_without_approval s (i : Input) :
  isApprove i = false ->
  fetches (sent (step s i)) = fetches (sent s) /\
  world (step s i) = world s /\
  lastActionTimestamp (store (step s i)) = lastActionTimestamp (store s).
Proof.
  intros Hi. unfold step.
  destruct i as [t now | now now' | now | answer now rnd]; [| discriminate Hi | |];
    cbn [handler].
  - unfold sendMessage.
    destruct (negb (isEnabled (store s)) || negb (service (store s)));
      [repeat split |].
    destruct (negb (gemini (store s))); run_setters; cbn [sent world store];
      rewrite ?fetches_app; cbn; rewrite ?app_nil_r; repeat split.
  - repeat split.
  - destruct answer as [response | e]; cbn [engineSettled];
      [unfold tryCatch, processModelResponse;
       destruct (candidates response) as [[| candidate rest] |];
         [| destruct (cand_parts candidate) as [parts |];
            [destruct (collectParts now rnd parts).2 |] |] |];
      repeat split.
Qed.

(** Only an approval reaches the repository: along a run without approvals,
    whatever is sent, answered or rejected, no repository request goes out,
    the remote side stays as it is and [lastActionTimestamp] does not move.
    And an approval with no call pending, or with no engine, changes
    nothing at all. *)
Theorem no_request_without_approval s (inputs : list Input) :
  (Forall (fun i => isApprove i = false) inputs ->
   fetches (sent (run s inputs)) = fetches (sent s) /\
   world (run s inputs) = world s /\
   lastActionTimestamp (store (run s inputs)) = lastActionTimestamp (store s)) /\
  (forall now now',
     pendingToolCall (store s) = None \/ gemini (store s) = false ->
     step s (InApprove now now') = s).
Proof.
  split.
  - revert s. induction inputs as [| i inputs IH]; intros s Hall; [repeat split |].
    apply Forall_cons in Hall as [Hi Hall]. cbn [run fold_left].
    destruct (IH (step s i) Hall) as (Hf & Hw & Ht).
    destruct (step_without_approval s i Hi) as (Hf' & Hw' & Ht').
    unfold run in *. rewrite Hf, Hw, Ht. auto.
  - intros now now' Hnone. unfold step. cbn [handler]. unfold approveToolCall.
    destruct Hnone as [-> | Hg]; [reflexivity |].
    rewrite Hg. destruct (pendingToolCall (store s)); reflexivity.
Qed.

Lemma step_pendingIsPending s (i : Input) :
  pendingIsPending (store s) -> pendingIsPending (store (step s i)).
Proof.
  intros Hs. unfold step.
  destruct i as [t now | now now' | now | answer now rnd]; cbn [handler].
  - unfold sendMessage.
    destruct (negb (isEnabled (store s)) || negb (service (store s))); [exact Hs |].
    destruct (negb (gemini (store s))); exact Hs.
  - destruct (pendingToolCall (store s)) as [call |] eqn:Hp;
      [| unfold approveToolCall; rewrite Hp; exact Hs].
    destruct (gemini (store s)) eqn:Hg;
      [| unfold approveToolCall; rewrite Hp, Hg; exact Hs].
    destruct (approveToolCall_run (store s) call now now' s Hp Hg)
      as (result & s1 & Hrun & Happ).
    rewrite Happ.
    pose proof (executeTool_store (store s) call now (approveBegin call s).2) as Hstore.
    cbn zeta in Hstore. rewrite Hrun in Hstore. cbn [snd] in Hstore.
    unfold approveFinish. run_setters. intros tc.
    cbn [pendingToolCall]. destruct Hstore as [-> | ->]; discriminate.
  - intros tc. discriminate.
  - destruct answer as [response | e]; cbn [engineSettled].
    + unfold tryCatch, processModelResponse.
      destruct (candidates response) as [[| candidate rest] |]; [exact Hs | | exact Hs].
      destruct (cand_parts candidate) as [parts |]; [| exact Hs].
      pose proof (collectParts_pending now rnd parts) as Hpending.
      destruct (collectParts now rnd parts).2 as [| first others]; [exact Hs |].
      intros tc [= <-]. apply Forall_cons in Hpending as [Hfirst _]. exact Hfirst.
    + exact Hs.
Qed.

(** Along any run, the call put up for approval is one that has not been
    decided: its status is [pending]. *)
Theorem pending_call_is_pending s (inputs : list Input)
    (Hinit : pendingIsPending (store s)) :
  pendingIsPending (store (run s inputs)).
Proof.
  revert s Hinit. induction inputs as [| i inputs IH]; intros s Hs; [exact Hs |].
  cbn [run fold_left]. apply IH, step_pendingIsPending, Hs.
Qed.

(** *** Roles on the wire *)

(** Only model turns go out under the role [model]; user turns, system
    notices and function results all go out under the role [user].  An entry
    has no part at all exactly when it comes from a model turn with no text
    and no tool call. *)
Theorem history_roles (msgs : list ChatMessage) :
  map c_role (getGeminiHistory msgs)
    = map (fun m => if decide (role m = model) then "model"%string else "user"%string) msgs /\
  (forall m, m ∈ msgs ->
     (c_parts (historyEntry m) = []
      <-> role m = model /\ Js.truthy (text m) = false /\ default [] (toolCalls m) = [])).
Proof.
  split.
  - unfold getGeminiHistory. rewrite map_map. apply map_ext. intros m.
    unfold historyEntry. destruct (role m); [reflexivity .. |].
    destruct (toolResponse m); reflexivity.
  - intros m _. unfold historyEntry. destruct (role m) eqn:Hr.
    + split; [discriminate | intros [? _]; discriminate].
    + destruct (Js.truthy (text m)).
      * split; [discriminate | intros (_ & ? & _); discriminate].
      * unfold functionCallParts. destruct (toolCalls m) as [[| tc tcs] |]; cbn.
        -- split; auto.
        -- split; [discriminate | intros (_ & _ & ?); discriminate].
        -- split; auto.
    + split; [discriminate | intros [? _]; discriminate].
    + destruct (toolResponse m); (split; [discriminate | intros [? _]; discriminate]).
Qed.

End Handlers.

(** ** The handlers on explicit inputs *)

Import InMemory.

#[local] Existing Instance InMemory.remote.
#[local] Existing Instance InMemory.browser.

(** C1.  The code departs from the claim here.  The file reads [a-a]; the
    call asks to replace [a] by [b].  The search text occurs, the call succeeds, and
    the content written is [b-a]: only the first occurrence has changed,
    where replacing every occurrence gives [b-b]. *)
Theorem C1_replace_in_file_rewrites_first_occurrence_only :
  let r := browsing None false [] None 0 in
  let tool := call "replace_in_file" (replaceArgs "a.txt" "a" "b" "m") in
  let out := @executeTool remote browser r tool 9 (start r (oneFile "a-a")) in
  Js.includes "a-a" "a" = true /\
  out.1 = Ok "Success: Content replaced."%string /\
  sent out.2
    = [ EvFetch {| method := GET; endpoint := aTxt; body := None |};
        EvFetch {| method := PUT; endpoint := aTxt;
                   body := Some {| b_message := Some "m"%string;
                                   b_content := Some (encode "b-a");
                                   b_sha := Some ("sha:" +:+ encode "a-a") |} |} ] /\
  files (world out.2) !! aTxt = Some (blob aTxt (encode "b-a")) /\
  Js.replace "a-a" "a" "b" = "b-a"%string /\
  Js.replaceEvery "a" "b" "a-a" 0 = "b-b"%string.
Proof. vm_compute. repeat split. Qed.

(** C2.  The code departs from the claim here.  A first [sendMessage] leaves
    the provider waiting for the engine, and the Send button is disabled.  A
    second [sendMessage], from the render that follows (the Enter key of the
    input box reaches it through [handleSend]), is not turned away: a second
    user turn is filed and a second engine call goes out. *)
Theorem C2_sendMessage_while_awaiting_engine :
  let s0 := start (browsing None false [] None 0) (oneFile "x") in
  let s1 := step s0 (InSend "first" 1) in
  let s2 := step s1 (InSend "second" 2) in
  Idle (store s0) /\
  isThinking (store s1) = true /\ ~ Idle (store s1) /\
  sendDisabled (store s1) "second" = true /\
  (handleSend (store s1) "second" 2 s1).2 = s2 /\
  messages (store s1) = [userMessage 1 "first"] /\
  messages (store s2) = [userMessage 1 "first"; userMessage 2 "second"] /\
  map (fun ev => match ev with
                 | EvGenerate req => Some (g_contents req)
                 | EvFetch _ => None
                 end) (sent s2)
    = [ Some [ {| c_role := "user"; c_parts := [PartText "first"] |};
               {| c_role := "user"; c_parts := [PartText ""] |} ];
        Some [ {| c_role := "user"; c_parts := [PartText "first"] |};
               {| c_role := "user"; c_parts := [PartText "second"] |};
               {| c_role := "user"; c_parts := [PartText ""] |} ] ].
Proof.
  intros s0 s1 s2.
  repeat match goal with |- _ /\ _ => split end;
    try reflexivity; try (vm_compute; reflexivity).
  - split; reflexivity.
  - intros [H _]. vm_compute in H. discriminate H.
Qed.

(** C3, as stated, fails.  The engine proposes [delete_file] on a path that
    does not exist.  Rejected, the invocation is still [pending] in the
    history.  Approved, it is marked [executed] at once, the attempt fails,
    and no status is written for the failure. *)
Lemma C3_rejected_and_failed_are_never_written :
  let s0 := start (browsing None false [] None 0) (oneFile "x") in
  let proposed :=
    run s0 [InSend "remove x.txt" 1;
            InEngine (inl (proposal "delete_file" (deleteArgs "x.txt" "rm"))) 2 noDraw] in
  let denied := step proposed (InReject 3) in
  let approved := step proposed (InApprove 3 4) in
  map tc_status (toolCallsOf (messages (store proposed))) = [pending] /\
  map tc_status (toolCallsOf (messages (store denied))) = [pending] /\
  pendingToolCall (store denied) = None /\
  match pendingToolCall (store proposed) with
  | Some proposedCall =>
      map tc_status
        (toolCallsOf (messages (store (approveBegin proposedCall proposed).2)))
  | None => []
  end = [executed] /\
  toolResponse <$> last (messages (store approved))
    = Some (Some {| tr_name := "delete_file";
                    tr_result := "Error: Cannot delete file. File not found: x.txt" |}) /\
  map tc_status (toolCallsOf (messages (store approved))) <> [failed] /\
  map tc_status (toolCallsOf (messages (store denied))) <> [rejected].
Proof. vm_compute. repeat split; discriminate. Qed.

Lemma C3_status_lifecycle_witness :
  let s0 := start (browsing None false [] None 0) (oneFile "x") in
  Forall settled
    (toolCallsOf (messages (store
       (run s0 [InSend "remove x.txt" 1;
                InEngine (inl (proposal "delete_file" (deleteArgs "x.txt" "rm"))) 2 noDraw;
                InApprove 3 4])))).
Proof.
  intros s0.
  apply (@C3_status_lifecycle remote browser s0
           [InSend "remove x.txt" 1;
            InEngine (inl (proposal "delete_file" (deleteArgs "x.txt" "rm"))) 2 noDraw;
            InApprove 3 4]).
  vm_compute. constructor.
Defined.

(** C4, as stated, fails.  The file is empty and the search text [hi] does
    not occur in it; the call fails, and writes nothing, but the message is
    not the mismatch message. *)
Lemma C4_empty_file_reports_another_error :
  let r := browsing None false [] None 0 in
  let tool := call "replace_in_file" (replaceArgs "a.txt" "hi" "bye" "m") in
  let out := @executeTool remote browser r tool 9 (start r (oneFile "")) in
  decode (encode "") = Ok ""%string /\
  Js.includes "" "hi" = false /\
  out.1 = Ok "Error: File is empty or not found"%string /\
  out.1 <> Ok ("Error: " +:+ patchMismatch) /\
  sent out.2 = [EvFetch {| method := GET; endpoint := aTxt; body := None |}] /\
  world out.2 = oneFile "".
Proof. vm_compute. repeat split. discriminate. Qed.

Lemma C4_replace_in_file_search_absent_witness :
  let r := browsing None false [] None 0 in
  let tool := call "replace_in_file" (replaceArgs "a.txt" "hi" "bye" "m") in
  let s := start r (oneFile "hello") in
  let s1 := @Build_Sys remote r (oneFile "hello")
              [EvFetch {| method := GET; endpoint := aTxt; body := None |}] in
  @executeTool remote browser r tool 9 s
    = (Ok ("Error: Could not find the 'search' text in the file. "
           +:+ "Ensure the search block matches the file content exactly."), s1) /\
  store s1 = store s /\
  sent s1 = sent s ++ [EvFetch {| method := GET; endpoint := aTxt; body := None |}].
Proof.
  intros r tool s s1.
  apply (@C4_replace_in_file_search_absent remote browser r tool 9 s
           (blob aTxt (encode "hello")) (encode "hello") "hello" s1);
    reflexivity.
Defined.

(** C5.  The code departs from the claim here.  [lastActionTimestamp] is
    the reading of the wall clock, not a counter.  A file is created at one
    reading, and the viewer reloads.  The clock is then put back by one
    second and a file is deleted: the deletion goes through, but
    [lastActionTimestamp] is now smaller than it was, and the viewer, which
    reloads on a later timestamp only, does not reload. *)
Theorem C5_clock_put_back_misses_the_refresh :
  let r0 := browsing None false [] None 0 in
  let viewer := {| v_repo := repo; v_currentPath := ""; v_selectedFile := None;
                   v_fileContent := None; v_isEditing := false; v_editedContent := "";
                   v_contextMenu := None; v_lastProcessedTimestamp := 0 |} in
  let create := call "create_or_update_file" (writeArgs "b.txt" "hi" "add b") in
  let remove := call "delete_file" (deleteArgs "a.txt" "rm a") in
  let out1 := @executeTool remote browser r0 create 1700000000000 (start r0 (oneFile "x")) in
  let seen1 := autoRefresh (lastActionTimestamp (store out1.2)) viewer in
  let out2 := @executeTool remote browser (store out1.2) remove 1699999999000 out1.2 in
  let seen2 := autoRefresh (lastActionTimestamp (store out2.2)) seen1.2 in
  out1.1 = Ok "Success: File created/updated."%string /\
  lastActionTimestamp (store out1.2) = 1700000000000 /\
  seen1.1 = [LoadDirectory ""] /\
  out2.1 = Ok "Success: File deleted."%string /\
  files (world out1.2) !! aTxt = Some (blob aTxt (encode "x")) /\
  files (world out2.2) !! aTxt = None /\
  lastActionTimestamp (store out2.2) = 1699999999000 /\
  ~ lastActionTimestamp (store out1.2) < lastActionTimestamp (store out2.2) /\
  seen2.1 = [].
Proof.
  intros r0 viewer create remove out1 seen1 out2 seen2.
  repeat match goal with |- _ /\ _ => split end; try reflexivity.
  intros H. vm_compute in H. discriminate H.
Qed.

(** C7, as stated, fails.  The user is browsing [src]; the engine asks for
    the listing of the root, [path = ""].  With [??] the path would be the
    empty string; the code takes the context's path and lists [src]. *)
Lemma C7_empty_path_falls_back_to_context :
  let r := browsing (Some "src"%string) false [] None 0 in
  let args := pathArgs "" in
  let out := @executeTool remote browser r (call "list_files" args) 9 (start r (oneFile "x")) in
  Js.ToString (Js.nullish (Js.nullish (arg_path args) (currentPath (contextState r)))
                 (Some EmptyString)) = ""%string /\
  inferPath r args = "src"%string /\
  inferPath r args
    <> Js.ToString (Js.nullish (Js.nullish (arg_path args) (currentPath (contextState r)))
                      (Some EmptyString)) /\
  sent out.2
    = [EvFetch {| method := GET; endpoint := "/repos/ada/site/contents/src"; body := None |}].
Proof. vm_compute. repeat split. discriminate. Qed.

Lemma C7_context_inference_witness :
  let r := initialState true true "gemini-3-pro-preview" in
  let s := start r (oneFile "x") in
  @executeTool remote browser r (call "list_files" (pathArgs "docs")) 9 s
    = (Ok "Error: Context (owner/repo) is missing and not provided."%string, s).
Proof.
  intros r s.
  destruct (proj1 (proj2 (proj2 (proj2
              (@C7_context_inference remote browser r
                 (call "list_files" (pathArgs "docs")) 9 s))))
              (or_introl eq_refl)) as (result & Hrun & _ & Hresult).
  rewrite Hrun, (Hresult eq_refl). reflexivity.
Defined.

Lemma C10_probe_failure_is_swallowed_witness :
  let r := browsing None false [] None 0 in
  let tool := call "create_or_update_file" (writeArgs "a.txt" "hi" "add a") in
  let s := @Build_Sys scripted r
             [Response 403 "Forbidden" POther; Response 201 "Created" POther] [] in
  let put := {| method := PUT; endpoint := aTxt;
                body := Some {| b_message := Some "add a"%string;
                                b_content := Some (encode "hi");
                                b_sha := None |} |} in
  @executeTool scripted browser r tool 9 s
    = (Ok "Success: File created/updated."%string,
       @Build_Sys scripted (updLastActionTimestamp 9 r) []
         [EvFetch {| method := GET; endpoint := aTxt; body := None |}; EvFetch put]) /\
  sent (@executeTool scripted browser r tool 9 s).2
    = sent s ++ [EvFetch {| method := GET; endpoint := aTxt; body := None |}; EvFetch put].
Proof.
  intros r tool s put.
  apply (@C10_probe_failure_is_swallowed scripted browser r tool 9 s forbidden
           (@Build_Sys scripted r [Response 201 "Created" POther]
              [EvFetch {| method := GET; endpoint := aTxt; body := None |}]));
    reflexivity.
Defined.

(** ** The service beyond the contents API *)

(** The two readings of [fetch] agree: on an answer of the contents API, the
    one the tools use throws the message of the error of the other, and
    returns what the other returns. *)
Lemma GitHubService_fetch_settle `{remote : Remote} m ep b (s : Sys) :
  (GitHubService_fetch m ep b s).1
    = match Service.settle
              (Service.ofOutcome
                 (http {| method := m; endpoint := ep; body := b |} (world s)).1) with
      | inl (Service.Parsed p) => Ok p
      | inl Service.EmptyObject => Ok POther
      | inr e => Thrown (Service.err_message e)
      end.
Proof.
  unfold GitHubService_fetch, bind, fetch.
  destruct (http _ (world s)) as [[msg | status statusText payload] w]; cbn; [reflexivity |].
  destruct payload; cbn;
    destruct (negb (responseOk status)); cbn;
    try (destruct (status =? 401); [reflexivity |]; destruct (status =? 403); reflexivity);
    destruct ((status =? 204) || (status =? 205)); reflexivity.
Qed.

Section ServiceFacts.

Context {T W : Type}.
Variable serve : Request -> W -> Service.Reply T * W.
Variable encodeURIComponent : string -> string.

Implicit Types n : @Service.Net T W.

(** [checkFollowerStatus] never throws and sends one [GET]; it answers
    [true] exactly when the call went through, so an invalid token, a
    missing scope or a network failure all read as "not following". *)
Theorem checkFollowerStatus_never_throws (username : string) n :
  let req := {| method := GET;
                endpoint := Service.followingEndpoint encodeURIComponent username;
                body := None |} in
  let reply := (serve req (Service.wire n)).1 in
  let out := Service.checkFollowerStatus serve encodeURIComponent username n in
  Service.netlog out.2 = Service.netlog n ++ [Service.Asked req reply] /\
  (exists b, out.1 = inl b /\ (b = true <-> exists x, Service.settle reply = inl x)) /\
  (forall message, reply = Service.NoReply message -> out.1 = inl false) /\
  (forall status txt json, reply = Service.Replied status txt json ->
     responseOk status = false -> out.1 = inl false).
Proof.
  cbn zeta. unfold Service.checkFollowerStatus, Service.fetch.
  destruct (serve _ (Service.wire n)) as [reply w]. cbn [fst snd].
  split; [destruct (Service.settle reply); reflexivity |].
  split.
  - destruct (Service.settle reply) as [x | e] eqn:Hs.
    + exists true. split; [reflexivity |]. split; eauto.
    + exists false. split; [reflexivity |]. split; [discriminate |].
      intros [x Hx]. discriminate Hx.
  - split.
    + intros message ->. reflexivity.
    + intros status txt json -> Hok. cbn. rewrite Hok. cbn.
      destruct (status =? 401); [reflexivity |]. destruct (status =? 403); reflexivity.
Qed.

(** [unfollowUser] sends one [DELETE].  A 404 answer counts as done,
    whatever its status text; a 401 or a 403 is thrown on as it came; and an
    error it throws is always the one [fetch] threw, never one with status
    404. *)
Theorem unfollowUser_404_is_done (username : string) n :
  let req := {| method := DELETE;
                endpoint := Service.followingEndpoint encodeURIComponent username;
                body := None |} in
  let reply := (serve req (Service.wire n)).1 in
  let out := Service.unfollowUser serve encodeURIComponent username n in
  Service.netlog out.2 = Service.netlog n ++ [Service.Asked req reply] /\
  (forall txt json, reply = Service.Replied 404 txt json -> out.1 = inl tt) /\
  (forall txt json, reply = Service.Replied 401 txt json ->
     out.1 = inr {| Service.err_message := unauthorized; Service.err_status := None |}) /\
  (forall txt json, reply = Service.Replied 403 txt json ->
     out.1 = inr {| Service.err_message := forbidden; Service.err_status := None |}) /\
  (forall e, out.1 = inr e ->
     Service.settle reply = inr e /\ Service.err_status e <> Some 404).
Proof.
  cbn zeta. unfold Service.unfollowUser, Service.fetch.
  destruct (serve _ (Service.wire n)) as [reply w]. cbn [fst snd].
  split.
  { destruct (Service.settle reply) as [x | e]; [reflexivity |].
    destruct (bool_decide _); [reflexivity |].
    destruct (_ || _); reflexivity. }
  split; [intros txt json ->; reflexivity |].
  split; [intros txt json ->; vm_compute; reflexivity |].
  split; [intros txt json ->; vm_compute; reflexivity |].
  intros e. destruct (Service.settle reply) as [x | e'] eqn:Hs; [discriminate |].
  destruct (bool_decide (Service.err_status e' = Some 404)) eqn:H404; [discriminate |].
  destruct (_ || _); [discriminate |].
  intros [= <-]. split; [reflexivity |].
  apply bool_decide_eq_false in H404. exact H404.
Qed.

End ServiceFacts.

Section PageFacts.

Context {W : Type}.
Variable serve : Request -> W -> Service.Reply (list GitHubUser) * W.
Variable notIterable : string.

Implicit Types n : @Service.Net (list GitHubUser) W.

Lemma gathered_asked req reply (evs : list (Service.NetEvent (list GitHubUser))) :
  Service.gathered (Service.Asked req reply :: evs)
    = match Service.settle reply with
      | inl (Service.Parsed data) => data
      | _ => []
      end ++ Service.gathered evs.
Proof.
  unfold Service.gathered. cbn [omap list_omap].
  destruct (Service.settle reply) as [[data |] | e]; reflexivity.
Qed.

Lemma gathered_slept ms (evs : list (Service.NetEvent (list GitHubUser))) :
  Service.gathered (Service.Slept ms :: evs) = Service.gathered evs.
Proof. reflexivity. Qed.

Lemma settle_429 txt (json : Outcome (list GitHubUser)) :
  Service.settle (Service.Replied 429 txt json)
    = inr {| Service.err_message := "GitHub API Error: " +:+ txt +:+ " (429)";
             Service.err_status := Some 429 |}.
Proof. reflexivity. Qed.

Lemma settle_403 txt (json : Outcome (list GitHubUser)) :
  Service.settle (Service.Replied 403 txt json)
    = inr {| Service.err_message := forbidden; Service.err_status := None |}.
Proof. reflexivity. Qed.

(** The loop, from any point on. *)
Lemma scan_spec endpoint remaining :
  forall page results n,
    let out := Service.scan serve notIterable endpoint remaining page results n in
    exists evs,
      Service.netlog out.2 = Service.netlog n ++ evs /\
      evs = Service.paced 300 (filter (fun ev => Service.isAsked ev = true) evs) /\
      (remaining <> O -> filter (fun ev => Service.isAsked ev = true) evs <> []) /\
      Service.asked evs = Service.pagesFrom endpoint page (length (Service.asked evs)) /\
      (length (Service.asked evs) <= remaining)%nat /\
      (forall res, out.1 = inl res -> res = results ++ Service.gathered evs) /\
      (forall req txt json,
         Service.Asked req (Service.Replied 429 txt json) ∈ evs ->
         out.1 = inl (results ++ Service.gathered evs)) /\
      (forall req txt json,
         Service.Asked req (Service.Replied 403 txt json) ∈ evs ->
         out.1 = inr {| Service.err_message := forbidden; Service.err_status := None |}).
Proof.
  induction remaining as [| remaining IH]; intros page results n; cbn zeta.
  { exists []. cbn. rewrite !app_nil_r. repeat split; try done.
    all: try (intros res [= <-]; reflexivity).
    all: try (intros req txt json H; apply elem_of_nil in H; destruct H). }
  cbn [Service.scan]. unfold Service.fetch.
  destruct (serve (Service.pageRequest endpoint page) (Service.wire n)) as [reply w].
  assert (Hone : forall (P : Prop) req (r : Service.Reply (list GitHubUser)),
            Service.Asked req r ∈ [Service.Asked (Service.pageRequest endpoint page) reply] ->
            (r = reply -> P) -> P).
  { intros P req r H HP. apply list_elem_of_singleton in H. injection H as _ Hr. auto. }
  destruct (Service.settle reply) as [[data |] | e] eqn:Hs.
  - destruct (length data =? 0)%nat eqn:Hlen.
    + apply Nat.eqb_eq in Hlen. apply nil_length_inv in Hlen. subst data.
      exists [Service.Asked (Service.pageRequest endpoint page) reply].
      cbn [fst snd Service.netlog]. rewrite gathered_asked, Hs. cbn.
      rewrite !app_nil_r.
      repeat split; try done; try lia.
      all: try (intros res [= <-]; reflexivity).
      all: intros req txt json H; apply (Hone _ _ _ H); intros <-;
        first [rewrite settle_429 in Hs | rewrite settle_403 in Hs]; discriminate Hs.
    + set (n1 := {| Service.wire := w;
                    Service.netlog := Service.netlog n
                                        ++ [Service.Asked (Service.pageRequest endpoint page) reply] |}).
      set (n2 := match remaining with O => n1 | S _ => Service.sleep 300 n1 end).
      destruct (IH (page + 1) (results ++ data) n2)
        as (evs & Hlog & Hshape & Hfirst & Hasked & Hbound & Hres & H429 & H403).
      cbn zeta in *.
      set (pause := match remaining with
                    | O => []
                    | S _ => [Service.Slept 300 : Service.NetEvent (list GitHubUser)]
                    end).
      exists (Service.Asked (Service.pageRequest endpoint page) reply :: pause ++ evs).
      assert (Hn2 : Service.netlog n2
                    = Service.netlog n
                        ++ Service.Asked (Service.pageRequest endpoint page) reply :: pause).
      { subst n2 pause n1. destruct remaining; cbn; [reflexivity |].
        rewrite <- app_assoc. reflexivity. }
      assert (Hg : Service.gathered
                     (Service.Asked (Service.pageRequest endpoint page) reply :: pause ++ evs)
                   = data ++ Service.gathered evs).
      { rewrite gathered_asked, Hs. subst pause. destruct remaining; reflexivity. }
      assert (Ha : Service.asked
                     (Service.Asked (Service.pageRequest endpoint page) reply :: pause ++ evs)
                   = Service.pageRequest endpoint page :: Service.asked evs).
      { subst pause. destruct remaining; reflexivity. }
      split.
      { rewrite Hlog, Hn2, <- app_assoc. reflexivity. }
      split.
      { subst pause. destruct remaining as [| remaining'].
        - assert (evs = []) as ->.
          { cbn in Hlog. symmetry in Hlog. apply app_inv_head with (l := Service.netlog n2).
            rewrite app_nil_r. exact Hlog. }
          rewrite filter_cons_True by reflexivity. reflexivity.
        - cbn [app]. rewrite filter_cons_True by reflexivity.
          rewrite filter_cons_False by discriminate.
          specialize (Hfirst ltac:(discriminate)).
          destruct (filter (fun ev => Service.isAsked ev = true) evs) as [| ev rest] eqn:Hf;
            [contradiction |].
          try rewrite Hf in Hshape.
          transitivity (Service.Asked (Service.pageRequest endpoint page) reply
                          :: Service.Slept 300 :: Service.paced 300 (ev :: rest));
            [do 2 f_equal; exact Hshape | reflexivity]. }
      split.
      { intros _. rewrite filter_cons_True by reflexivity. discriminate. }
      split.
      { rewrite Ha. cbn [length Service.pagesFrom]. rewrite <- Hasked. reflexivity. }
      split.
      { rewrite Ha. cbn [length]. lia. }
      split.
      { intros res Hout. rewrite Hg, app_assoc. apply Hres, Hout. }
      split.
      { intros req txt json H. rewrite Hg, app_assoc.
        apply elem_of_cons in H as [H | H].
        - injection H as _ <-. rewrite settle_429 in Hs. discriminate Hs.
        - apply elem_of_app in H as [H | H].
          + subst pause. destruct remaining; [apply elem_of_nil in H; destruct H |].
            apply list_elem_of_singleton in H. discriminate H.
          + apply (H429 req txt json H). }
      { intros req txt json H.
        apply elem_of_cons in H as [H | H].
        - injection H as _ <-. rewrite settle_403 in Hs. discriminate Hs.
        - apply elem_of_app in H as [H | H].
          + subst pause. destruct remaining; [apply elem_of_nil in H; destruct H |].
            apply list_elem_of_singleton in H. discriminate H.
          + apply (H403 req txt json H). }
  - exists [Service.Asked (Service.pageRequest endpoint page) reply].
    cbn [fst snd Service.netlog]. rewrite gathered_asked, Hs. cbn.
    repeat split; try done; try lia.
    all: intros req txt json H; apply (Hone _ _ _ H); intros <-;
      first [rewrite settle_429 in Hs | rewrite settle_403 in Hs]; discriminate Hs.
  - exists [Service.Asked (Service.pageRequest endpoint page) reply].
    destruct (bool_decide (Service.err_status e = Some 403)
              || bool_decide (Service.err_status e = Some 429)) eqn:Hlimit;
      cbn [fst snd Service.netlog]; rewrite gathered_asked, Hs; cbn;
      rewrite ?app_nil_r;
      repeat split; try done; try lia.
    all: try (intros res [= <-]; reflexivity).
    all: intros req txt json H; apply (Hone _ _ _ H); intros <-;
      first [rewrite settle_429 in Hs | rewrite settle_403 in Hs];
      injection Hs as <-; first [discriminate Hlimit | reflexivity].
Qed.

(** What a scan has added to the log. *)
Lemma scan_log endpoint limitPages n evs :
  Service.netlog (Service.fetchPaginatedUsers serve notIterable endpoint limitPages n).2
    = Service.netlog n ++ evs ->
  drop (length (Service.netlog n))
       (Service.netlog (Service.fetchPaginatedUsers serve notIterable endpoint limitPages n).2)
    = evs.
Proof. intros ->. apply drop_app_length. Qed.

(** [fetchPaginatedUsers] asks for pages 1, 2, 3, ... in this order and for
    no more than [limitPages] of them (none when the limit is not positive),
    with a pause of 300 ms between any two requests and none after the
    last. *)
Theorem fetchPaginatedUsers_bounded_and_paced (endpoint : string) (limitPages : Z) n :
  let out := Service.fetchPaginatedUsers serve notIterable endpoint limitPages n in
  let evs := drop (length (Service.netlog n)) (Service.netlog out.2) in
  Service.netlog out.2 = Service.netlog n ++ evs /\
  evs = Service.paced 300 (filter (fun ev => Service.isAsked ev = true) evs) /\
  Service.asked evs = Service.pagesFrom endpoint 1 (length (Service.asked evs)) /\
  Z.of_nat (length (Service.asked evs)) <= Z.max 0 limitPages.
Proof.
  cbn zeta.
  destruct (scan_spec endpoint (Z.to_nat limitPages) 1 [] n)
    as (evs & Hlog & Hshape & _ & Hasked & Hbound & _).
  cbn zeta in *. fold (Service.fetchPaginatedUsers serve notIterable endpoint limitPages) in *.
  rewrite (scan_log _ _ _ _ Hlog).
  repeat split; try assumption. lia.
Qed.

(** When the scan returns, it returns the users of the pages it received, in
    the order received, and nothing else. *)
Theorem fetchPaginatedUsers_result (endpoint : string) (limitPages : Z) n
    (res : list GitHubUser)
    (Hout : (Service.fetchPaginatedUsers serve notIterable endpoint limitPages n).1 = inl res) :
  let out := Service.fetchPaginatedUsers serve notIterable endpoint limitPages n in
  res = Service.gathered (drop (length (Service.netlog n)) (Service.netlog out.2)).
Proof.
  cbn zeta.
  destruct (scan_spec endpoint (Z.to_nat limitPages) 1 [] n)
    as (evs & Hlog & _ & _ & _ & _ & Hres & _).
  cbn zeta in *. fold (Service.fetchPaginatedUsers serve notIterable endpoint limitPages) in *.
  rewrite (scan_log _ _ _ _ Hlog). apply (Hres res Hout).
Qed.

(** A 429 answer ends the scan without an error: the result is what the
    pages before it delivered. *)
Theorem fetchPaginatedUsers_429_gives_partial_results
    (endpoint : string) (limitPages : Z) n req txt json :
  let out := Service.fetchPaginatedUsers serve notIterable endpoint limitPages n in
  let evs := drop (length (Service.netlog n)) (Service.netlog out.2) in
  Service.Asked req (Service.Replied 429 txt json) ∈ evs ->
  out.1 = inl (Service.gathered evs).
Proof.
  cbn zeta.
  destruct (scan_spec endpoint (Z.to_nat limitPages) 1 [] n)
    as (evs & Hlog & _ & _ & _ & _ & _ & H429 & _).
  cbn zeta in *. fold (Service.fetchPaginatedUsers serve notIterable endpoint limitPages) in *.
  rewrite (scan_log _ _ _ _ Hlog). intros H. apply (H429 req txt json H).
Qed.

(** A 403 answer is not taken as a rate limit: the error [fetch] throws for
    it carries no status, so the scan fails with the Forbidden error and the
    users gathered so far are not returned. *)
Theorem fetchPaginatedUsers_403_fails
    (endpoint : string) (limitPages : Z) n req txt json :
  let out := Service.fetchPaginatedUsers serve notIterable endpoint limitPages n in
  let evs := drop (length (Service.netlog n)) (Service.netlog out.2) in
  Service.Asked req (Service.Replied 403 txt json) ∈ evs ->
  out.1 = inr {| Service.err_message := forbidden; Service.err_status := None |}.
Proof.
  cbn zeta.
  destruct (scan_spec endpoint (Z.to_nat limitPages) 1 [] n)
    as (evs & Hlog & _ & _ & _ & _ & _ & _ & H403).
  cbn zeta in *. fold (Service.fetchPaginatedUsers serve notIterable endpoint limitPages) in *.
  rewrite (scan_log _ _ _ _ Hlog). intros H. apply (H403 req txt json H).
Qed.

End PageFacts.

(** ** Preferences across a reload *)

(** The safety switch for HTML previews survives a reload, and so do the
    other two preferences when it is set; and whatever the storage holds
    under its key other than the text [false], nothing included, the
    switch comes up on. *)
Theorem htmlSafetyMode_survives_reload (enabled : bool)
    (st : Persisted.Prefs * gmap string string) :
  let st' := Persisted.setHtmlSafetyMode enabled st in
  Persisted.htmlSafetyMode st'.1 = enabled /\
  Persisted.htmlSafetyMode (Persisted.load st'.2) = enabled /\
  Persisted.selectedModel (Persisted.load st'.2)
    = Persisted.selectedModel (Persisted.load st.2) /\
  Persisted.geminiApiKey (Persisted.load st'.2)
    = Persisted.geminiApiKey (Persisted.load st.2) /\
  (forall ls : gmap string string,
     ls !! "html_safety_mode"%string <> Some "false"%string ->
     Persisted.htmlSafetyMode (Persisted.load ls) = true).
Proof.
  cbn zeta. unfold Persisted.setHtmlSafetyMode, Persisted.load.
  cbn [fst snd Persisted.htmlSafetyMode Persisted.selectedModel Persisted.geminiApiKey].
  rewrite lookup_insert_eq, !lookup_insert_ne by discriminate.
  repeat split.
  - destruct enabled; reflexivity.
  - intros ls Hls. rewrite bool_decide_eq_false_2 by exact Hls. reflexivity.
Qed.

(** The model and the engine key survive a reload as well, but an empty
    model name comes back as the default model.  With an empty key the engine
    is built with the key of the environment, when there is one, and is
    absent otherwise. *)
Theorem model_and_key_survive_reload (model key : string) (env : option string)
    (st : Persisted.Prefs * gmap string string) :
  Persisted.selectedModel (Persisted.load (Persisted.setSelectedModel model st).2)
    = (if decide (model = EmptyString) then Persisted.defaultModel else model) /\
  Persisted.htmlSafetyMode (Persisted.load (Persisted.setSelectedModel model st).2)
    = Persisted.htmlSafetyMode (Persisted.load st.2) /\
  Persisted.geminiApiKey (Persisted.load (Persisted.setGeminiApiKey key st).2) = key /\
  Persisted.engineKey (Persisted.load (Persisted.setGeminiApiKey key st).2) env
    = (if decide (key = EmptyString) then (if Js.truthy env then env else None)
       else Some key).
Proof.
  unfold Persisted.setSelectedModel, Persisted.setGeminiApiKey, Persisted.load,
    Persisted.engineKey.
  cbn [fst snd Persisted.htmlSafetyMode Persisted.selectedModel Persisted.geminiApiKey].
  rewrite !lookup_insert_eq, !lookup_insert_ne by discriminate.
  repeat split; [destruct model | destruct key | destruct key]; reflexivity.
Qed.

(** ** The viewer and the provider *)

Section ViewerFacts.

Context `{remote : Remote} `{browser : Browser}.

Implicit Types (s : Sys) (r : AgentState) (v : Viewer).

Lemma startsWith_app (p b : string) : Js.startsWith p (p +:+ b) = true.
Proof.
  induction p as [| c p IH]; [reflexivity |].
  change (String c p +:+ b) with (String c (p +:+ b)).
  cbn [Js.startsWith]. rewrite Ascii.eqb_refl. exact IH.
Qed.

Lemma append_assoc (a b c : string) : (a +:+ b) +:+ c = a +:+ (b +:+ c).
Proof.
  induction a as [| x a IH]; [reflexivity |].
  change (String x ((a +:+ b) +:+ c) = String x (a +:+ (b +:+ c))). f_equal. exact IH.
Qed.

Lemma includes_prefix (a s p : string) :
  Js.includes s p = true -> Js.includes (a +:+ s) p = true.
Proof.
  intros H. unfold Js.includes in *. induction a as [| c a IH]; [exact H |].
  change (String c a +:+ s) with (String c (a +:+ s)).
  cbn [Js.splitFirst].
  destruct (Js.startsWith p (String c (a +:+ s))); [reflexivity |].
  destruct (Js.splitFirst p (a +:+ s)) as [[? ?] |]; [reflexivity | discriminate IH].
Qed.

(** A text contains what it is put together from. *)
Lemma includes_middle (a p b : string) : Js.includes (a +:+ p +:+ b) p = true.
Proof.
  unfold Js.includes. induction a as [| c a IH].
  - change (EmptyString +:+ p +:+ b) with (p +:+ b).
    destruct (p +:+ b) eqn:Hpb; cbn [Js.splitFirst];
      rewrite <- ?Hpb, startsWith_app; reflexivity.
  - change (String c a +:+ p +:+ b) with (String c (a +:+ p +:+ b)).
    cbn [Js.splitFirst].
    destruct (Js.startsWith p (String c (a +:+ p +:+ b))); [reflexivity |].
    destruct (Js.splitFirst p (a +:+ p +:+ b)) as [[? ?] |]; [reflexivity | discriminate IH].
Qed.

(** A context-menu action records the selection in the live context, but
    the engine call it issues in the same breath carries the context of the
    render the viewer took [sendMessage] from: there, the selection is the
    one of that render.  The selection travels in the prompt text. *)
Theorem handleAgentAction_sends_the_context_of_the_render
    r v (action : Action) (now : Z) s (selection : string)
    (He : isEnabled r = true) (Hs : service r = true) (Hg : gemini r = true)
    (Hmenu : v_contextMenu v = Some selection) :
  let out := handleAgentAction r v action now s in
  out.1 = Ok (withContextMenu None v, true) /\
  currentSelection (contextState (store out.2)) = Some selection /\
  engineCalls (sent out.2)
    = engineCalls (sent s)
        ++ [{| g_model := selectedModel r;
               g_contents :=
                 getGeminiHistory (messages r)
                   ++ [{| c_role := "user"; c_parts := [PartText (prompt action selection)] |};
                       {| c_role := "user"; c_parts := [PartText EmptyString] |}];
               g_context := getFilteredContext (contextState r) (contextSettings r) |}] /\
  getFilteredContext (contextState r) (contextSettings r) !! "currentSelection"%string
    = (if includeSelection (contextSettings r)
       then Some (ofString (currentSelection (contextState r))) else None) /\
  Js.includes (prompt action selection) selection = true.
Proof.
  cbn zeta. unfold handleAgentAction. rewrite Hmenu.
  unfold sendMessage. rewrite He, Hs, Hg. cbn [negb orb].
  unfold setContextState, setMessages, setIsThinking, generateResponse, setState, bind, ret.
  cbn [fst snd sent store contextState updContextState updMessages updIsThinking
       mergeContext selectionPatch cp_currentSelection currentSelection default].
  split; [reflexivity |]. split; [reflexivity |].
  split.
  { rewrite engineCalls_app. cbn [engineCalls omap list_omap].
    unfold getGeminiHistory. rewrite map_app, <- app_assoc. reflexivity. }
  split.
  { destruct (contextSettings r) as [[] [] []]; reflexivity. }
  unfold prompt, snippet. rewrite !append_assoc.
  do 4 apply includes_prefix. apply (includes_middle EmptyString).
Qed.

(** Navigation never clears a selection: whatever the viewer shows next,
    the effect on navigation overwrites repository, path, file and content
    and leaves the recorded selection, and the active tab, as they were. *)
Theorem selection_outlives_navigation s (vs : list Viewer) :
  let s' := fold_left (fun s0 v => (navigationEffect v s0).2) vs s in
  currentSelection (contextState (store s')) = currentSelection (contextState (store s)) /\
  activeTab (contextState (store s')) = activeTab (contextState (store s)) /\
  contextSettings (store s') = contextSettings (store s) /\
  messages (store s') = messages (store s) /\
  sent s' = sent s /\
  (forall vs0 v, vs = vs0 ++ [v] ->
     currentRepo (contextState (store s')) = Some (v_repo v) /\
     currentPath (contextState (store s')) = Some (v_currentPath v) /\
     currentFile (contextState (store s')) = v_selectedFile v /\
     fileContent (contextState (store s')) = Js.or (v_fileContent v) None).
Proof.
  cbn zeta. split; [| split; [| split; [| split; [| split]]]].
  1-5: revert s; induction vs as [| v vs IH]; intros s; [reflexivity |];
       cbn [fold_left]; rewrite IH; reflexivity.
  intros vs0 v ->. rewrite fold_left_app. cbn [fold_left]. repeat split.
Qed.

(** The auto-refresh effect reloads exactly when the timestamp is later
    than the last one it processed, the directory first and then the open
    file; it then remembers the timestamp, so the same or an earlier one
    never reloads again. *)
Theorem autoRefresh_fires_once (ts : Z) v :
  let out := autoRefresh ts v in
  (out.1 <> [] <-> v_lastProcessedTimestamp v < ts) /\
  (v_lastProcessedTimestamp v < ts ->
   out.1 = LoadDirectory (v_currentPath v)
             :: match v_selectedFile v with
                | Some f => [LoadFile f]
                | None => []
                end) /\
  v_lastProcessedTimestamp out.2 = Z.max (v_lastProcessedTimestamp v) ts /\
  (forall ts', ts' <= ts -> (autoRefresh ts' out.2).1 = []).
Proof.
  cbn zeta. unfold autoRefresh.
  destruct (v_lastProcessedTimestamp v <? ts) eqn:Hlt.
  - apply Z.ltb_lt in Hlt. cbn [fst snd withProcessed v_lastProcessedTimestamp].
    repeat split; try done; try lia.
    intros ts' Hts'. destruct (ts <? ts') eqn:H; [apply Z.ltb_lt in H; lia | reflexivity].
  - apply Z.ltb_ge in Hlt. cbn [fst snd].
    repeat split; try done; try lia.
    intros ts' Hts'.
    destruct (v_lastProcessedTimestamp v <? ts') eqn:H; [apply Z.ltb_lt in H; lia | reflexivity].
Qed.

(** A viewer that is up to date reloads after a tool execution exactly when
    the execution moved [lastActionTimestamp] to a clock reading later than
    the one the viewer processed last. *)
Theorem refresh_after_tool r (tool : ToolCall) (now : Z) s v
    (Hcaught : lastActionTimestamp (store s) <= v_lastProcessedTimestamp v) :
  let s' := (executeTool r tool now s).2 in
  (autoRefresh (lastActionTimestamp (store s')) v).1 <> []
  <-> store s' = updLastActionTimestamp now (store s) /\ v_lastProcessedTimestamp v < now.
Proof.
  cbn zeta.
  pose proof (executeTool_store r tool now s) as Hstore. cbn zeta in Hstore.
  assert (Hfire : forall ts, (autoRefresh ts v).1 <> [] <-> v_lastProcessedTimestamp v < ts).
  { intros ts. unfold autoRefresh.
    destruct (v_lastProcessedTimestamp v <? ts) eqn:Hlt.
    - apply Z.ltb_lt in Hlt. cbn. split; [intros _; exact Hlt | discriminate].
    - apply Z.ltb_ge in Hlt. cbn. split; [contradiction | lia]. }
  rewrite Hfire.
  destruct Hstore as [-> | ->]; cbn [lastActionTimestamp updLastActionTimestamp].
  - split; [lia |].
    intros [E H]. apply (f_equal lastActionTimestamp) in E.
    cbn [lastActionTimestamp updLastActionTimestamp] in E. lia.
  - split; [intros H; split; [reflexivity | exact H] | intros [_ H]; exact H].
Qed.

(** A category switched off with [setContextSettings] is missing from the
    context of the engine call made from the next render, whatever the
    context state holds; a call made from the render before the switch still
    goes out under the settings of that render. *)
Theorem setContextSettings_governs_the_next_render
    (patch : SettingsPatch) (t : string) (now : Z) s
    (Hready : isEnabled (store s) && service (store s) && gemini (store s) = true) :
  let s1 := (setContextSettings patch s).2 in
  let settings := mergeSettings (contextSettings (store s)) patch in
  let contexts r :=
    map g_context (drop (length (engineCalls (sent s)))
                        (engineCalls (sent (sendMessage r t now s1).2))) in
  contextSettings (store s1) = settings /\
  contextState (store s1) = contextState (store s) /\
  messages (store s1) = messages (store s) /\
  sent s1 = sent s /\
  contexts (store s1) = [getFilteredContext (contextState (store s)) settings] /\
  contexts (store s)
    = [getFilteredContext (contextState (store s)) (contextSettings (store s))] /\
  dom (getFilteredContext (contextState (store s)) settings)
    = {[ "activeTab"%string ]}
      ∪ (if default (includeRepoMap (contextSettings (store s))) (sp_includeRepoMap patch)
         then {[ "currentRepo"%string; "currentPath"%string ]} else ∅)
      ∪ (if default (includeFileContent (contextSettings (store s)))
                    (sp_includeFileContent patch)
         then {[ "currentFile"%string; "fileContent"%string ]} else ∅)
      ∪ (if default (includeSelection (contextSettings (store s))) (sp_includeSelection patch)
         then {[ "currentSelection"%string ]} else ∅).
Proof.
  cbn zeta.
  apply andb_prop in Hready as [Hready Hg]. apply andb_prop in Hready as [He Hs].
  split; [reflexivity |]. split; [reflexivity |]. split; [reflexivity |].
  split; [reflexivity |].
  split.
  { unfold sendMessage, setContextSettings, setState.
    cbn [snd store isEnabled service gemini updContextSettings].
    rewrite He, Hs, Hg. cbn [negb orb].
    unfold setMessages, setIsThinking, generateResponse, setState, bind.
    cbn [fst snd sent]. rewrite engineCalls_app, drop_app_length. reflexivity. }
  split.
  { unfold sendMessage. rewrite He, Hs, Hg. cbn [negb orb].
    unfold setContextSettings, setMessages, setIsThinking, generateResponse, setState, bind.
    cbn [fst snd sent]. rewrite engineCalls_app, drop_app_length. reflexivity. }
  apply getFilteredContext_dom.
Qed.

End ViewerFacts.

(** ** The network manager *)

Section NetworkFacts.

Context {W : Type}.
Variable serve : Request -> W -> Service.Reply (list GitHubUser) * W.
Variable encodeURIComponent : string -> string.
Variable notIterable : string.

Implicit Types u : @Network.Ui W.

Lemma setOf_acc (l acc : list string) :
  NoDup (acc ++ l) ->
  fold_left (fun acc x => if bool_decide (x ∈ acc) then acc else acc ++ [x]) l acc = acc ++ l.
Proof.
  revert acc. induction l as [| x l IH]; intros acc Hnd; cbn [fold_left].
  - rewrite app_nil_r. reflexivity.
  - assert (Hx : x ∉ acc).
    { apply NoDup_app in Hnd as (_ & Hdisj & _). intros Hin.
      apply (Hdisj x Hin). apply list_elem_of_here. }
    rewrite bool_decide_eq_false_2 by exact Hx.
    rewrite IH; rewrite <- app_assoc; [reflexivity | exact Hnd].
Qed.

Lemma audit_logins (followers : gset string) (following : list GitHubUser) :
  list_to_set (map login (filter (fun x => login x ∉ followers) following))
    = (list_to_set (map login following) : gset string) ∖ followers.
Proof.
  apply set_eq. intros y.
  rewrite elem_of_difference, !elem_of_list_to_set.
  change (map login) with (fmap (M := list) login).
  rewrite !list_elem_of_fmap. split.
  - intros (x & -> & Hx). apply list_elem_of_filter in Hx as [Hout Hin]. eauto.
  - intros [(x & -> & Hin) Hout]. exists x. split; [reflexivity |].
    apply list_elem_of_filter. auto.
Qed.

(** What a scan adds to the log. *)
Lemma fetchPaginatedUsers_log endpoint limitPages (n : @Service.Net (list GitHubUser) W) :
  exists evs,
    Service.netlog (Service.fetchPaginatedUsers serve notIterable endpoint limitPages n).2
      = Service.netlog n ++ evs /\
    Service.asked evs = Service.pagesFrom endpoint 1 (length (Service.asked evs)).
Proof.
  destruct (scan_spec serve notIterable endpoint (Z.to_nat limitPages) 1 [] n)
    as (evs & Hlog & _ & _ & Hasked & _).
  exists evs. split; assumption.
Qed.

(** [syncNetwork] scans the followers first and, only when that went
    through, the accounts followed, one second later.  When both scans
    return, nothing is alerted and the audit list is the accounts followed
    whose login is not among the followers received, in the order received:
    as sets of logins, following minus followers.  When either scan throws,
    one alert is shown and the synced data stay as they were.  The loading
    flag is off at the end either way. *)
Theorem syncNetwork_outcome u :
  let u' := Network.syncNetwork serve notIterable u in
  let outF := Service.getAllFollowers serve notIterable (Network.net u) in
  let outG := Service.getAllFollowing serve notIterable (Service.sleep 1000 outF.2) in
  let failed :=
    Network.alerts u' = Network.alerts u ++ [Network.syncFailed] /\
    Network.withSyncLoading false (Network.ui u') = Network.withSyncLoading false (Network.ui u) in
  Network.syncLoading (Network.ui u') = false /\
  Network.whitelist (Network.ui u') = Network.whitelist (Network.ui u) /\
  Network.pageUsers (Network.ui u') = Network.pageUsers (Network.ui u) /\
  Network.stored u' = Network.stored u /\
  (exists evsF,
     Service.netlog outF.2 = Service.netlog (Network.net u) ++ evsF /\
     Service.asked evsF = Service.pagesFrom "/user/followers" 1 (length (Service.asked evsF))) /\
  (exists evsG,
     Service.netlog outG.2 = Service.netlog outF.2 ++ Service.Slept 1000 :: evsG /\
     Service.asked evsG = Service.pagesFrom "/user/following" 1 (length (Service.asked evsG))) /\
  match outF.1, outG.1 with
  | inl followers, inl following =>
      Network.net u' = outG.2 /\
      Network.alerts u' = Network.alerts u /\
      Network.isSynced (Network.ui u') = true /\
      Network.allFollowers (Network.ui u') = list_to_set (map login followers) /\
      Network.allFollowing (Network.ui u') = list_to_set (map login following) /\
      Network.auditNonFollowers (Network.ui u')
        = filter (fun x => login x ∉ Network.allFollowers (Network.ui u')) following /\
      list_to_set (map login (Network.auditNonFollowers (Network.ui u')))
        = Network.allFollowing (Network.ui u') ∖ Network.allFollowers (Network.ui u')
  | inl _, inr _ => Network.net u' = outG.2 /\ failed
  | inr _, _ => Network.net u' = outF.2 /\ failed
  end.
Proof.
  cbn zeta. unfold Network.syncNetwork.
  cbn [Network.net Network.setUi].
  split.
  { destruct (Service.getAllFollowers serve notIterable (Network.net u)) as [[followers | e] n1];
      [destruct (Service.getAllFollowing serve notIterable (Service.sleep 1000 n1))
         as [[following | e] n3] |]; reflexivity. }
  split.
  { destruct (Service.getAllFollowers serve notIterable (Network.net u)) as [[followers | e] n1];
      [destruct (Service.getAllFollowing serve notIterable (Service.sleep 1000 n1))
         as [[following | e] n3] |]; reflexivity. }
  split.
  { destruct (Service.getAllFollowers serve notIterable (Network.net u)) as [[followers | e] n1];
      [destruct (Service.getAllFollowing serve notIterable (Service.sleep 1000 n1))
         as [[following | e] n3] |]; reflexivity. }
  split.
  { destruct (Service.getAllFollowers serve notIterable (Network.net u)) as [[followers | e] n1];
      [destruct (Service.getAllFollowing serve notIterable (Service.sleep 1000 n1))
         as [[following | e] n3] |]; reflexivity. }
  split; [apply fetchPaginatedUsers_log |].
  split.
  { destruct (fetchPaginatedUsers_log "/user/following" 50
                (Service.sleep 1000
                   (Service.getAllFollowers serve notIterable (Network.net u)).2))
      as (evsG & Hlog & Hasked).
    exists evsG. split; [| exact Hasked].
    unfold Service.getAllFollowing. rewrite Hlog. cbn [Service.sleep Service.netlog].
    rewrite <- app_assoc. reflexivity. }
  destruct (Service.getAllFollowers serve notIterable (Network.net u)) as [[followers | e] n1];
    cbn [fst snd].
  - destruct (Service.getAllFollowing serve notIterable (Service.sleep 1000 n1))
      as [[following | e] n3]; cbn [fst snd].
    + repeat split. cbn. apply audit_logins.
    + repeat split.
  - repeat split.
Qed.

(** A 429 answer during the scan of the followers does not fail the sync:
    no alert is shown, the data count as synced, and the followers are the
    ones of the pages received before it, so that every account followed
    whose login was not on those pages is listed as not following back. *)
Theorem syncNetwork_rate_limit_is_silent u req txt json (following : list GitHubUser) :
  let outF := Service.getAllFollowers serve notIterable (Network.net u) in
  let evsF := drop (length (Service.netlog (Network.net u))) (Service.netlog outF.2) in
  let outG := Service.getAllFollowing serve notIterable (Service.sleep 1000 outF.2) in
  let u' := Network.syncNetwork serve notIterable u in
  Service.Asked req (Service.Replied 429 txt json) ∈ evsF ->
  outG.1 = inl following ->
  Network.isSynced (Network.ui u') = true /\
  Network.alerts u' = Network.alerts u /\
  Network.allFollowers (Network.ui u') = list_to_set (map login (Service.gathered evsF)) /\
  Network.auditNonFollowers (Network.ui u')
    = filter (fun x => login x ∉ (list_to_set (map login (Service.gathered evsF)) : gset string))
             following.
Proof.
  cbn zeta. intros H429 HG.
  pose proof (scan_spec serve notIterable "/user/followers" (Z.to_nat 50) 1 []
                (Network.net u)) as Hspec.
  cbn zeta in Hspec.
  change (Service.scan serve notIterable "/user/followers" (Z.to_nat 50) 1 [] (Network.net u))
    with (Service.getAllFollowers serve notIterable (Network.net u)) in Hspec.
  destruct Hspec as (evs & Hlog & _ & _ & _ & _ & _ & Hpartial & _).
  rewrite Hlog, drop_app_length in H429 |- *.
  specialize (Hpartial req txt json H429). cbn [app] in Hpartial.
  unfold Network.syncNetwork. cbn [Network.net Network.setUi].
  destruct (Service.getAllFollowers serve notIterable (Network.net u)) as [outF1 n1].
  cbn [fst snd] in *. subst outF1.
  destruct (Service.getAllFollowing serve notIterable (Service.sleep 1000 n1)) as [outG1 n3].
  cbn [fst] in HG. subst outG1. repeat split.
Qed.

(** What [unfollowUser] adds to the log, and the answer it never throws on. *)
Lemma unfollowUser_log (username : string) (n : @Service.Net (list GitHubUser) W) :
  let req := {| method := DELETE;
                endpoint := Service.followingEndpoint encodeURIComponent username;
                body := None |} in
  let reply := (serve req (Service.wire n)).1 in
  let out := Service.unfollowUser serve encodeURIComponent username n in
  Service.netlog out.2 = Service.netlog n ++ [Service.Asked req reply] /\
  (forall txt json, reply = Service.Replied 404 txt json -> out.1 = inl tt).
Proof.
  cbn zeta. unfold Service.unfollowUser, Service.fetch.
  destruct (serve _ (Service.wire n)) as [reply w]. cbn [fst snd].
  split.
  - destruct (Service.settle reply) as [x | e]; [reflexivity |].
    destruct (bool_decide _); [reflexivity |].
    destruct (_ || _); reflexivity.
  - intros txt json ->. reflexivity.
Qed.

(** [handleUnfollow] sends one [DELETE] and never touches the audit list,
    the synced flag, the followers or the whitelist: an account unfollowed
    from the audit stays listed there.  When the call goes through (a 404
    answer included), the account leaves the page shown if the render was on
    the following tab, and the set of accounts followed becomes the one of
    the render without it if the render was synced.  When the call throws,
    one alert is shown and the state is as before. *)
Theorem handleUnfollow_keeps_the_audit_list (r : Network.State) (username : string) u :
  let u' := Network.handleUnfollow serve encodeURIComponent r username u in
  let req := {| method := DELETE;
                endpoint := Service.followingEndpoint encodeURIComponent username;
                body := None |} in
  let reply := (serve req (Service.wire (Network.net u))).1 in
  Service.netlog (Network.net u')
    = Service.netlog (Network.net u) ++ [Service.Asked req reply] /\
  Network.auditNonFollowers (Network.ui u') = Network.auditNonFollowers (Network.ui u) /\
  Network.isSynced (Network.ui u') = Network.isSynced (Network.ui u) /\
  Network.allFollowers (Network.ui u') = Network.allFollowers (Network.ui u) /\
  Network.whitelist (Network.ui u') = Network.whitelist (Network.ui u) /\
  Network.stored u' = Network.stored u /\
  match (Service.unfollowUser serve encodeURIComponent username (Network.net u)).1 with
  | inl _ =>
      Network.alerts u' = Network.alerts u /\
      Network.pageUsers (Network.ui u')
        = match Network.activeTab r with
          | Network.Following =>
              filter (fun x => login x <> username) (Network.pageUsers (Network.ui u))
          | _ => Network.pageUsers (Network.ui u)
          end /\
      Network.allFollowing (Network.ui u')
        = (if Network.isSynced r then Network.allFollowing r ∖ {[ username ]}
           else Network.allFollowing (Network.ui u))
  | inr _ =>
      Network.alerts u' = Network.alerts u ++ ["Failed to unfollow " +:+ username] /\
      Network.ui u' = Network.ui u
  end /\
  (forall txt json, reply = Service.Replied 404 txt json ->
     Network.alerts u' = Network.alerts u).
Proof.
  cbn zeta.
  destruct (unfollowUser_log username (Network.net u)) as [Hlog H404].
  revert Hlog H404. unfold Network.handleUnfollow.
  destruct (Service.unfollowUser serve encodeURIComponent username (Network.net u))
    as [[[] | e] n1]; cbn [fst snd]; intros Hlog H404.
  - split.
    { destruct (Network.activeTab r), (Network.isSynced r); exact Hlog. }
    repeat split; destruct (Network.activeTab r), (Network.isSynced r); reflexivity.
  - split; [exact Hlog |].
    repeat split.
    intros txt json Hreply. specialize (H404 txt json Hreply). discriminate H404.
Qed.

(** [toggleWhitelist] flips the membership of the account and of no other,
    keeps the whitelist free of duplicates, and stores it, so that loading
    the stored item gives the same whitelist back; toggled again from the
    next render, the whitelist has the members it had. *)
Theorem toggleWhitelist_flips_and_persists (r : Network.State) (username : string) u
    (Hset : NoDup (Network.whitelist r)) :
  let u' := Network.toggleWhitelist r username u in
  let w' := Network.whitelist (Network.ui u') in
  NoDup w' /\
  (username ∈ w' <-> username ∉ Network.whitelist r) /\
  (forall other, other <> username -> other ∈ w' <-> other ∈ Network.whitelist r) /\
  Network.stored u' = Some w' /\
  Network.whitelist (Network.ui (Network.loadPersistedData u')) = w' /\
  (forall x, x ∈ Network.whitelist
                   (Network.ui (Network.toggleWhitelist (Network.ui u') username u'))
             <-> x ∈ Network.whitelist r).
Proof.
  clear serve encodeURIComponent notIterable.
  cbn zeta. unfold Network.toggleWhitelist, Network.loadPersistedData.
  cbn [Network.ui Network.stored Network.whitelist Network.withWhitelist Network.setUi].
  destruct (bool_decide (username ∈ Network.whitelist r)) eqn:Hin.
  - apply bool_decide_eq_true in Hin.
    assert (Hnd : NoDup (filter (fun x => x <> username) (Network.whitelist r)))
      by (apply NoDup_filter, Hset).
    assert (Hout : username ∉ filter (fun x => x <> username) (Network.whitelist r)).
    { intros H. apply list_elem_of_filter in H as [H _]. apply H. reflexivity. }
    split; [exact Hnd |].
    split; [split; [intros H; destruct (Hout H) | intros H; destruct (H Hin)] |].
    split.
    { intros other Hother. rewrite list_elem_of_filter. tauto. }
    split; [reflexivity |].
    split; [apply (setOf_acc _ []), Hnd |].
    rewrite bool_decide_eq_false_2 by exact Hout.
    intros x. rewrite elem_of_app, list_elem_of_singleton, list_elem_of_filter.
    destruct (decide (x = username)) as [-> | Hx]; tauto.
  - apply bool_decide_eq_false in Hin.
    assert (Hnd : NoDup (Network.whitelist r ++ [username])).
    { apply NoDup_app. split; [exact Hset |]. split.
      - intros x Hx Hx'. apply list_elem_of_singleton in Hx'. subst x. exact (Hin Hx).
      - apply NoDup_singleton. }
    split; [exact Hnd |].
    split.
    { rewrite elem_of_app, list_elem_of_singleton. tauto. }
    split.
    { intros other Hother. rewrite elem_of_app, list_elem_of_singleton. tauto. }
    split; [reflexivity |].
    split; [apply (setOf_acc _ []), Hnd |].
    rewrite bool_decide_eq_true_2
      by (rewrite elem_of_app, list_elem_of_singleton; tauto).
    intros x. rewrite list_elem_of_filter, elem_of_app, list_elem_of_singleton.
    destruct (decide (x = username)) as [-> | Hx]; tauto.
Qed.

End NetworkFacts.

(** ** More explicit inputs *)

Lemma other_tools_only_read_witness :
  let r := browsing None false [] None 0 in
  let tool := call "read_file" (pathArgs "a.txt") in
  let s := start r (oneFile "hi") in
  exists result s' reqs,
    @executeTool remote browser r tool 9 s = (Ok result, s') /\
    store s' = store s /\
    sent s' = sent s ++ map EvFetch reqs /\
    (length reqs <= 1)%nat /\
    Forall (fun req => method req = GET /\ body req = None) reqs.
Proof.
  intros r tool s.
  apply (@other_tools_only_read remote browser r tool 9 s). reflexivity.
Defined.

Lemma delete_file_read_failure_witness :
  let r := browsing None false [] None 0 in
  let tool := call "delete_file" (deleteArgs "x.txt" "rm") in
  let s := start r (oneFile "x") in
  let probe := {| method := GET; endpoint := "/repos/ada/site/contents/x.txt";
                  body := None |} in
  let s1 := @Build_Sys remote r (oneFile "x") [EvFetch probe] in
  @executeTool remote browser r tool 9 s
    = (Ok "Error: Cannot delete file. File not found: x.txt"%string, s1) /\
  store s1 = store s /\
  sent s1 = sent s ++ [EvFetch probe].
Proof.
  intros r tool s probe s1.
  apply (@delete_file_read_failure remote browser r tool 9 s
           "GitHub API Error: Not Found (404)" s1);
    reflexivity.
Defined.

Lemma delete_file_uses_token_read_witness :
  let r := browsing None false [] None 0 in
  let tool := call "delete_file" (deleteArgs "a.txt" "rm") in
  let s := start r (oneFile "x") in
  let out := @executeTool remote browser r tool 9 s in
  out.1 = Ok "Success: File deleted."%string /\
  fetches (sent out.2)
    = [ {| method := GET; endpoint := aTxt; body := None |};
        {| method := DELETE; endpoint := aTxt;
           body := Some {| b_message := Some "rm"%string; b_content := None;
                           b_sha := Some ("sha:" +:+ encode "x") |} |} ] /\
  files (world out.2) !! aTxt = None /\
  lastActionTimestamp (store out.2) = 9.
Proof.
  intros r tool s out. subst out.
  rewrite (@delete_file_uses_token_read remote browser r tool 9 s
             (PFile (blob aTxt (encode "x")))
             (@Build_Sys remote r (oneFile "x")
                [EvFetch {| method := GET; endpoint := aTxt; body := None |}])
             eq_refl eq_refl eq_refl eq_refl eq_refl).
  repeat split.
Defined.

Lemma create_or_update_file_uses_token_read_witness :
  let r := browsing None false [] None 0 in
  let tool := call "create_or_update_file" (writeArgs "a.txt" "hi" "upd") in
  let s := start r (oneFile "x") in
  let out := @executeTool remote browser r tool 9 s in
  out.1 = Ok "Success: File created/updated."%string /\
  fetches (sent out.2)
    = [ {| method := GET; endpoint := aTxt; body := None |};
        {| method := PUT; endpoint := aTxt;
           body := Some {| b_message := Some "upd"%string;
                           b_content := Some (encode "hi");
                           b_sha := Some ("sha:" +:+ encode "x") |} |} ] /\
  files (world out.2) !! aTxt = Some (blob aTxt (encode "hi")).
Proof.
  intros r tool s out. subst out.
  rewrite (@create_or_update_file_uses_token_read remote browser r tool 9 s
             (PFile (blob aTxt (encode "x")))
             (@Build_Sys remote r (oneFile "x")
                [EvFetch {| method := GET; endpoint := aTxt; body := None |}])
             eq_refl eq_refl eq_refl eq_refl eq_refl).
  repeat split.
Defined.

Lemma first_proposal_only_witness :
  let parts := [ {| p_text := Some "On it."%string; p_functionCall := None |};
                 {| p_text := None;
                    p_functionCall := Some ("read_file"%string, pathArgs "a.txt") |};
                 {| p_text := None;
                    p_functionCall := Some ("delete_file"%string, deleteArgs "a.txt" "rm") |} ] in
  let other := {| cand_parts :=
                    Some [ {| p_text := Some "Or else."%string; p_functionCall := None |} ] |} in
  let response := {| candidates := Some [ {| cand_parts := Some parts |}; other ] |} in
  let s := start (browsing None true [userMessage 1 "clean up"] None 0) (oneFile "x") in
  let s' := (@processModelResponse remote browser response 2 noDraw s).2 in
  map tc_name (toolCallsOf (messages (store s'))) = ["read_file"; "delete_file"]%string /\
  tc_name <$> pendingToolCall (store s') = Some "read_file"%string /\
  isThinking (store s') = false /\
  sent s' = [].
Proof.
  intros parts other response s s'.
  destruct (@first_proposal_only remote browser response {| cand_parts := Some parts |} [other]
              parts 2 noDraw s eq_refl eq_refl) as (_ & _ & Hcalls & Hpending & Hthinking & Hsent).
  fold s' in Hcalls, Hpending, Hthinking, Hsent.
  rewrite Hcalls, Hpending, Hthinking, Hsent. repeat split.
Defined.

Lemma sendMessage_same_render_overwrites_witness :
  let r := browsing None false [] None 0 in
  let s := start r (oneFile "x") in
  let s1 := (@sendMessage remote r "first" 1 s).2 in
  let s2 := (@sendMessage remote r "second" 2 s1).2 in
  messages (store s1) = messages r ++ [userMessage 1 "first"] /\
  messages (store s2) = messages r ++ [userMessage 2 "second"] /\
  length (engineCalls (sent s2)) = (length (engineCalls (sent s)) + 2)%nat.
Proof.
  intros r s.
  apply (@sendMessage_same_render_overwrites remote r "first" "second" 1 2 s); reflexivity.
Defined.

Lemma approveToolCall_outcome_witness :
  let proposed := call "read_file" (pathArgs "a.txt") in
  let r := browsing None false
             [userMessage 1 "show a.txt"; modelMessage 2 "" [proposed]] (Some proposed) 0 in
  let s := start r (oneFile "hi") in
  let s2 := (@approveToolCall remote browser r 3 4 s).2 in
  messages (store s2)
    = messages r ++ [functionResponseMessage 4 "read_file" "hi"] /\
  map tc_status (toolCallsOf (messages (store s2))) = [pending] /\
  pendingToolCall (store s2) = None /\
  isThinking (store s2) = true /\
  length (engineCalls (sent s2)) = 1%nat.
Proof.
  intros proposed r s s2.
  destruct (@approveToolCall_outcome remote browser r proposed 3 4 s eq_refl eq_refl)
    as (result & s1 & Hrun & _ & Hmsgs & Hcalls & Hpending & Hthinking & _ & Hsent).
  injection Hrun as <- <-.
  fold s2 in Hmsgs, Hcalls, Hpending, Hthinking, Hsent.
  rewrite Hcalls, Hmsgs, Hpending, Hthinking, Hsent. repeat split.
Defined.

Lemma pending_call_is_pending_witness :
  let s := start (browsing None false [] None 0) (oneFile "x") in
  pendingIsPending
    (store (@run remote browser s
              [InSend "remove a.txt" 1;
               InEngine (inl (proposal "delete_file" (deleteArgs "a.txt" "rm"))) 2 noDraw;
               InSend "and b.txt" 3])).
Proof.
  intros s.
  apply (@pending_call_is_pending remote browser s).
  intros tc H. discriminate H.
Defined.

Lemma fetchPaginatedUsers_result_witness :
  let ada := {| login := "ada"; user_id := 1 |} in
  let bob := {| login := "bob"; user_id := 2 |} in
  let n := {| Service.wire := [Service.page [ada]; Service.page [bob]; Service.page []];
              Service.netlog := [] |} in
  let out := Service.getAllFollowing Service.replay "data is not iterable" n in
  [ada; bob] = Service.gathered (drop (length (Service.netlog n)) (Service.netlog out.2)).
Proof.
  intros ada bob n.
  apply (@fetchPaginatedUsers_result _ Service.replay "data is not iterable"
           "/user/following" 50 n [ada; bob]).
  reflexivity.
Defined.

Lemma fetchPaginatedUsers_429_gives_partial_results_witness :
  let ada := {| login := "ada"; user_id := 1 |} in
  let n := {| Service.wire := [Service.page [ada];
                               Service.Replied 429 "Too Many Requests" (Thrown "")];
              Service.netlog := [] |} in
  (Service.getAllFollowing Service.replay "data is not iterable" n).1 = inl [ada].
Proof.
  intros ada n.
  apply (@fetchPaginatedUsers_429_gives_partial_results _ Service.replay
           "data is not iterable" "/user/following" 50 n
           (Service.pageRequest "/user/following" 2) "Too Many Requests" (Thrown "")).
  do 2 apply list_elem_of_further. apply list_elem_of_here.
Defined.

Lemma fetchPaginatedUsers_403_fails_witness :
  let ada := {| login := "ada"; user_id := 1 |} in
  let n := {| Service.wire := [Service.page [ada];
                               Service.Replied 403 "Forbidden" (Thrown "")];
              Service.netlog := [] |} in
  (Service.getAllFollowing Service.replay "data is not iterable" n).1
    = inr {| Service.err_message := forbidden; Service.err_status := None |}.
Proof.
  intros ada n.
  apply (@fetchPaginatedUsers_403_fails _ Service.replay
           "data is not iterable" "/user/following" 50 n
           (Service.pageRequest "/user/following" 2) "Forbidden" (Thrown "")).
  do 2 apply list_elem_of_further. apply list_elem_of_here.
Defined.

Lemma handleAgentAction_sends_the_context_of_the_render_witness :
  let r := browsing (Some "src"%string) false [] None 0 in
  let v := {| v_repo := repo; v_currentPath := "src"; v_selectedFile := None;
              v_fileContent := Some "x = 1; y = 2"%string; v_isEditing := false;
              v_editedContent := ""; v_contextMenu := Some "y = 2"%string;
              v_lastProcessedTimestamp := 0 |} in
  let out := @handleAgentAction remote r v Explain 5 (start r (oneFile "x")) in
  currentSelection (contextState (store out.2)) = Some "y = 2"%string /\
  map (fun req => g_context req !! "currentSelection"%string) (engineCalls (sent out.2))
    = [Some VUndefined].
Proof.
  intros r v out.
  destruct (@handleAgentAction_sends_the_context_of_the_render remote r v Explain 5
              (start r (oneFile "x")) "y = 2" eq_refl eq_refl eq_refl eq_refl)
    as (_ & Hlive & Hsent & _).
  fold out in Hlive, Hsent. rewrite Hlive, Hsent. split; reflexivity.
Defined.

Lemma refresh_after_tool_witness :
  let r := browsing None false [] None 0 in
  let tool := call "create_or_update_file" (writeArgs "b.txt" "hi" "add b") in
  let s := start r (oneFile "x") in
  let v := {| v_repo := repo; v_currentPath := ""; v_selectedFile := None;
              v_fileContent := None; v_isEditing := false; v_editedContent := "";
              v_contextMenu := None; v_lastProcessedTimestamp := 0 |} in
  (autoRefresh (lastActionTimestamp (store (@executeTool remote browser r tool 9 s).2)) v).1
    <> [].
Proof.
  intros r tool s v.
  apply (@refresh_after_tool remote browser r tool 9 s v); [cbn; lia |].
  split; [reflexivity | cbn; lia].
Defined.

Lemma setContextSettings_governs_the_next_render_witness :
  let r := browsing None false [] None 0 in
  let s := start r (oneFile "x") in
  let patch := {| sp_includeRepoMap := None; sp_includeFileContent := None;
                  sp_includeSelection := Some false |} in
  let s1 := (@setContextSettings remote patch s).2 in
  map (fun req => g_context req !! "currentSelection"%string)
      (engineCalls (sent (@sendMessage remote (store s1) "hi" 1 s1).2))
    = [None] /\
  map (fun req => g_context req !! "currentSelection"%string)
      (engineCalls (sent (@sendMessage remote (store s) "hi" 1 s1).2))
    = [Some VUndefined].
Proof.
  intros r s patch s1.
  destruct (@setContextSettings_governs_the_next_render remote patch "hi" 1 s eq_refl)
    as (_ & _ & _ & _ & Hnext & Hstale & _).
  apply (f_equal (map (fun ctx : gmap string JsVal => ctx !! "currentSelection"%string)))
    in Hnext, Hstale.
  rewrite map_map in Hnext, Hstale.
  split; [exact Hnext | exact Hstale].
Defined.

Lemma syncNetwork_rate_limit_is_silent_witness :
  let ada := {| login := "ada"; user_id := 1 |} in
  let bob := {| login := "bob"; user_id := 2 |} in
  let idle := {| Network.activeTab := Network.Audit; Network.pageUsers := [];
                 Network.isSynced := false; Network.syncLoading := false;
                 Network.allFollowers := ∅; Network.allFollowing := ∅;
                 Network.auditNonFollowers := []; Network.whitelist := [] |} in
  let u := {| Network.ui := idle;
              Network.net :=
                {| Service.wire := [Service.page [ada];
                                    Service.Replied 429 "Too Many Requests" (Thrown "");
                                    Service.page [ada; bob];
                                    Service.page []];
                   Service.netlog := [] |};
              Network.alerts := []; Network.stored := None |} in
  let u' := Network.syncNetwork Service.replay "data is not iterable" u in
  Network.isSynced (Network.ui u') = true /\
  Network.alerts u' = [] /\
  Network.auditNonFollowers (Network.ui u') = [bob].
Proof.
  intros ada bob idle u u'.
  destruct (@syncNetwork_rate_limit_is_silent _ Service.replay "data is not iterable" u
              (Service.pageRequest "/user/followers" 2) "Too Many Requests" (Thrown "")
              [ada; bob])
    as (Hsynced & Halerts & _ & Haudit).
  - do 2 apply list_elem_of_further. apply list_elem_of_here.
  - reflexivity.
  - fold u' in Hsynced, Halerts, Haudit. rewrite Hsynced, Halerts, Haudit.
    repeat split.
Defined.

Lemma toggleWhitelist_flips_and_persists_witness :
  let r := {| Network.activeTab := Network.Following; Network.pageUsers := [];
              Network.isSynced := false; Network.syncLoading := false;
              Network.allFollowers := ∅; Network.allFollowing := ∅;
              Network.auditNonFollowers := []; Network.whitelist := ["ada"%string] |} in
  let u := {| Network.ui := r;
              Network.net := {| Service.wire := @nil (Service.Reply (list GitHubUser));
                                Service.netlog := [] |};
              Network.alerts := []; Network.stored := None |} in
  let u' := Network.toggleWhitelist r "bob" u in
  Network.whitelist (Network.ui u') = ["ada"; "bob"]%string /\
  Network.stored u' = Some ["ada"; "bob"]%string /\
  NoDup (Network.whitelist (Network.ui u')).
Proof.
  intros r u u'.
  destruct (@toggleWhitelist_flips_and_persists _ r "bob" u (NoDup_singleton "ada"%string))
    as (Hnd & _ & _ & Hstored & _).
  fold u' in Hnd, Hstored. rewrite Hstored. repeat split. exact Hnd.
Defined.
